(** * Shallow embedding of the BasitKargo -> Shopify fulfillment bridge

    The repository holds four near-duplicate variants of one webhook core:
    - [IndexGid]    : src/index.js, first app (direct order reference, backfill);
    - [IndexSearch] : src/index.js, second app ([handleShipmentToShopify]);
    - [Part000]     : src/unnamed/part_000 (order name extraction, text search);
    - [Part001]     : src/unnamed/part_001 (direct order reference).

    JSON values are modelled by [jval]; a JavaScript [undefined] is [None]
    in an [option jval].  A Rocq string stands for the JavaScript string
    whose UTF-16 code units are its characters, each below 256 (ASCII and
    Latin-1); the Turkish message texts of the code, whose letters lie
    beyond that range, are kept as their UTF-8 bytes and never read back.
    Converting a value to a string can throw, as in JavaScript, on a parsed
    object that has its own [toString] key.  Every remote call (BasitKargo REST,
    Shopify GraphQL) goes through a state-and-exception monad [M] over a
    [world] that records the trace of remote calls and answers each call
    through an arbitrary oracle that may depend on the calls made so far. *)

From Stdlib Require Import String Ascii List ZArith Bool Lia.
Import ListNotations.
Open Scope bool_scope.
Open Scope string_scope.
Open Scope list_scope.
Open Scope nat_scope.
#[local] Set Warnings "-register-all".

Local Notation "a +++ b" := (String.append a b) (at level 60, right associativity).

(* ------------------------------------------------------------------ *)
(** ** JSON values and JavaScript coercions *)

(** The result of code that may throw: a value, or a thrown error and its
    message. *)
Inductive res (A : Type) : Type :=
| Ok (a : A)
| Exc (e : string).
Arguments Ok {A} a.
Arguments Exc {A} e.

(** Sequencing of code that may throw. *)
Definition rbind {A B} (r : res A) (f : A -> res B) : res B :=
  match r with Ok a => f a | Exc e => Exc e end.

(** [xs.map(f)] with an [f] that may throw: the first error is thrown. *)
Fixpoint res_all {A} (l : list (res A)) : res (list A) :=
  match l with
  | [] => Ok []
  | Ok a :: r => rbind (res_all r) (fun l' => Ok (a :: l'))
  | Exc e :: _ => Exc e
  end.

Inductive jval : Type :=
| JNull
| JBool (b : bool)
| JNum (repr : string)          (* the number's JavaScript [toString] form *)
| JStr (s : string)
| JArr (l : list jval)
| JObj (kvs : list (string * jval)).

(** Property read [v.k] / [v?.k]: only objects have the keys used by the
    code; JSON.parse keeps the last binding of a duplicated key. *)
Definition jget (k : string) (v : jval) : option jval :=
  match v with
  | JObj kvs =>
      fold_left (fun acc kv => if String.eqb (fst kv) k then Some (snd kv) else acc)
        kvs None
  | _ => None
  end.

(** Optional chaining [v?.k], reading through [undefined]. *)
Definition oget (k : string) (o : option jval) : option jval :=
  match o with Some v => jget k v | None => None end.

Fixpoint getp (v : jval) (path : list string) : option jval :=
  match path with
  | [] => Some v
  | k :: ks => match jget k v with Some v' => getp v' ks | None => None end
  end.

(** JavaScript truthiness. *)
Definition truthy (v : jval) : bool :=
  match v with
  | JNull => false
  | JBool b => b
  | JNum r => negb (String.eqb r "0" || String.eqb r "NaN")
  | JStr s => negb (String.eqb s EmptyString)
  | JArr _ | JObj _ => true
  end.

Definition truthy_opt (o : option jval) : bool :=
  match o with Some v => truthy v | None => false end.

(** [a || b || ... || last]: the first truthy operand, else the last one. *)
Fixpoint js_or (l : list (option jval)) (last : option jval) : option jval :=
  match l with
  | [] => last
  | o :: r => if truthy_opt o then o else js_or r last
  end.

(** [a || ... || null]. *)
Definition js_or_null (l : list (option jval)) : jval :=
  match js_or l (Some JNull) with Some v => v | None => JNull end.

Fixpoint js_join (sep : string) (l : list string) : string :=
  match l with
  | [] => EmptyString
  | [x] => x
  | x :: r => x +++ sep +++ js_join sep r
  end.

(** The text of [String(v)] and [v.toString()] when they do not throw;
    inside arrays [null] prints empty. *)
Fixpoint js_to_string (v : jval) : string :=
  match v with
  | JNull => "null"
  | JBool true => "true"
  | JBool false => "false"
  | JNum r => r
  | JStr s => s
  | JArr l =>
      js_join ","
        ((fix go (l : list jval) : list string :=
            match l with
            | [] => []
            | JNull :: r => EmptyString :: go r
            | x :: r => js_to_string x :: go r
            end) l)
  | JObj _ => "[object Object]"
  end.

(** Whether an object has its own key [toString].  A parsed JSON value
    holds no function, so that [toString] is never callable. *)
Definition own_toString (v : jval) : bool :=
  match v with
  | JObj _ => match jget "toString" v with Some _ => true | None => false end
  | _ => false
  end.

(** Whether [ToString(v)] throws a TypeError: on an object with its own
    [toString] key, [ToPrimitive] finds no callable [toString] and the
    inherited [valueOf] returns the object itself; an array converts
    through [join], which converts each element. *)
Fixpoint str_throws (v : jval) : bool :=
  match v with
  | JObj _ => own_toString v
  | JArr l =>
      (fix go (l : list jval) : bool :=
         match l with [] => false | x :: r => str_throws x || go r end) l
  | _ => false
  end.

Definition to_prim_error : string := "Cannot convert object to primitive value".

(** [String(v)]: the conversion of a template literal's value, of the
    argument of [encodeURIComponent] and of an element of [join]. *)
Definition js_String (v : jval) : res string :=
  if str_throws v then Exc to_prim_error else Ok (js_to_string v).

(** The method call [expr.toString()] on the value [v] of [expr]. *)
Definition js_toString_call (expr : string) (v : jval) : res string :=
  match v with
  | JNull => Exc "Cannot read properties of null (reading 'toString')"
  | JObj _ => if own_toString v then Exc (expr +++ ".toString is not a function")
              else Ok (js_to_string v)
  | _ => js_String v
  end.

(** A value interpolated in a template literal ([undefined] included). *)
Definition tmpl (o : option jval) : res string :=
  match o with Some v => js_String v | None => Ok "undefined" end.

(** An element of [Array.prototype.join]: [null] and [undefined] print empty. *)
Definition join_elem (o : option jval) : res string :=
  match o with Some JNull | None => Ok EmptyString | Some v => js_String v end.

Definition dq : string := String (ascii_of_nat 34) EmptyString.

Definition hex_digit (n : nat) : ascii :=
  if n <? 10 then ascii_of_nat (48 + n) else ascii_of_nat (87 + n).

(** Escaping of one character by JSON.stringify. *)
Definition json_escape_char (c : ascii) : string :=
  let n := nat_of_ascii c in
  if n =? 34 then String "\" dq
  else if n =? 92 then String "\" (String "\" EmptyString)
  else if n =? 10 then "\n"
  else if n =? 13 then "\r"
  else if n =? 9 then "\t"
  else if n =? 8 then "\b"
  else if n =? 12 then "\f"
  else if n <? 32 then
    "\u00" +++ String (hex_digit (n / 16)) (String (hex_digit (n mod 16)) EmptyString)
  else String c EmptyString.

Fixpoint json_escape (s : string) : string :=
  match s with
  | EmptyString => EmptyString
  | String c r => json_escape_char c +++ json_escape r
  end.

Definition json_quote (s : string) : string := dq +++ json_escape s +++ dq.

(** [JSON.stringify]. *)
Fixpoint json_stringify (v : jval) : string :=
  match v with
  | JNull => "null"
  | JBool true => "true"
  | JBool false => "false"
  | JNum r => r
  | JStr s => json_quote s
  | JArr l =>
      "[" +++ js_join ","
        ((fix go (l : list jval) : list string :=
            match l with [] => [] | x :: r => json_stringify x :: go r end) l) +++ "]"
  | JObj kvs =>
      "{" +++ js_join ","
        ((fix go (l : list (string * jval)) : list string :=
            match l with
            | [] => []
            | (k, x) :: r => (json_quote k +++ ":" +++ json_stringify x) :: go r
            end) kvs) +++ "}"
  end.

(** An object literal whose [undefined]-valued keys are dropped, as
    JSON.stringify drops them when the object is sent. *)
Definition obj_opt (kvs : list (string * option jval)) : jval :=
  JObj (flat_map (fun kv => match snd kv with Some v => [(fst kv, v)] | None => [] end) kvs).

(** Truthiness of [v.length] for the values the code reads it on. *)
Definition js_length_truthy (v : jval) : bool :=
  match v with
  | JArr l => negb (Nat.eqb (length l) 0)
  | JStr s => negb (Nat.eqb (String.length s) 0)
  | JObj _ => truthy_opt (jget "length" v)
  | _ => false
  end.

(** [v?.[0]]. *)
Definition index0 (o : option jval) : option jval :=
  match o with
  | Some (JArr (x :: _)) => Some x
  | Some (JStr (String c _)) => Some (JStr (String c EmptyString))
  | Some (JObj _ as v) => jget "0" v
  | _ => None
  end.

(** Decimal rendering of a count (for [JNum] and messages). *)
Fixpoint nat_repr_aux (fuel n : nat) (acc : string) : string :=
  match fuel with
  | O => acc
  | S f =>
      let acc' := String (ascii_of_nat (48 + n mod 10)) acc in
      if n <? 10 then acc' else nat_repr_aux f (n / 10) acc'
  end.

Definition nat_repr (n : nat) : string := nat_repr_aux (S n) n EmptyString.

(* ------------------------------------------------------------------ *)
(** ** String operations and the regular expressions of the code *)

(** The white space and line terminators that [trim] strips, among the
    code units below 256: TAB, LF, VT, FF, CR, SPACE and NO-BREAK SPACE. *)
Definition is_ws (c : ascii) : bool :=
  let n := nat_of_ascii c in (n =? 32) || (n =? 160) || ((9 <=? n) && (n <=? 13)).

Fixpoint trim_left (s : string) : string :=
  match s with
  | String c r => if is_ws c then trim_left r else s
  | EmptyString => EmptyString
  end.

Definition rev_string (s : string) : string :=
  string_of_list_ascii (rev (list_ascii_of_string s)).

(** [String.prototype.trim]. *)
Definition trim (s : string) : string := rev_string (trim_left (rev_string (trim_left s))).

Definition is_digit (c : ascii) : bool :=
  let n := nat_of_ascii c in (48 <=? n) && (n <=? 57).

Definition is_word (c : ascii) : bool :=
  let n := nat_of_ascii c in
  is_digit c || ((65 <=? n) && (n <=? 90)) || ((97 <=? n) && (n <=? 122)) || (n =? 95).

Fixpoint all_digits (s : string) : bool :=
  match s with
  | EmptyString => true
  | String c r => is_digit c && all_digits r
  end.

(** [/^\d{10,16}$/.test(s)]. *)
Definition digits_10_16 (s : string) : bool :=
  all_digits s && (10 <=? String.length s) && (String.length s <=? 16).

(** [/^\d{3,8}$/.test(s)]. *)
Definition digits_3_8 (s : string) : bool :=
  all_digits s && (3 <=? String.length s) && (String.length s <=? 8).

Definition upper_char (c : ascii) : ascii :=
  let n := nat_of_ascii c in
  if (97 <=? n) && (n <=? 122) then ascii_of_nat (n - 32) else c.

(** [toUpperCase] on ASCII; the code applies it only to matches of
    [/LP-\d+/i], which are ASCII. *)
Fixpoint upper (s : string) : string :=
  match s with
  | EmptyString => EmptyString
  | String c r => String (upper_char c) (upper r)
  end.

Definition starts_hash (s : string) : bool :=
  match s with String c _ => Ascii.eqb c "#" | EmptyString => false end.

(** [s.replace(/^#/, "")]. *)
Definition strip_hash (s : string) : string :=
  match s with String c r => if Ascii.eqb c "#" then r else s | EmptyString => s end.

Definition is_L (c : ascii) : bool := Ascii.eqb c "L" || Ascii.eqb c "l".
Definition is_P (c : ascii) : bool := Ascii.eqb c "P" || Ascii.eqb c "p".

(** [/^LP-\d+$/i] on a string without its optional hash. *)
Definition lp_body (s : string) : bool :=
  match s with
  | String l (String p (String m ds)) =>
      is_L l && is_P p && Ascii.eqb m "-" && negb (String.eqb ds EmptyString) && all_digits ds
  | _ => false
  end.

(** [/^#?LP-\d+$/i.test(s)]. *)
Definition lp_exact (s : string) : bool := lp_body (strip_hash s).

(** Normalisation [`#${s.replace(/^#/, "").toUpperCase()}`]. *)
Definition lp_normalize (s : string) : string := "#" +++ upper (strip_hash s).

Fixpoint digit_run (s : string) : nat :=
  match s with
  | String c r => if is_digit c then S (digit_run r) else 0
  | EmptyString => 0
  end.

(** Match of [/LP-\d+/i] anchored at the start of [s]: its length. *)
Definition lp_at (s : string) : option nat :=
  match s with
  | String l (String p (String m r)) =>
      if is_L l && is_P p && Ascii.eqb m "-" && negb (Nat.eqb (digit_run r) 0)
      then Some (3 + digit_run r) else None
  | _ => None
  end.

(** [s.match(/LP-\d+/i)]: leftmost match, [m[0]]. *)
Fixpoint search_lp (s : string) : option string :=
  match lp_at s with
  | Some n => Some (substring 0 n s)
  | None => match s with String _ r => search_lp r | EmptyString => None end
  end.

Definition word_at (s : string) (i : nat) : bool :=
  match String.get i s with Some c => is_word c | None => false end.

(** [\b] at position [i]. *)
Definition boundary (s : string) (i : nat) : bool :=
  xorb (match i with O => false | S j => word_at s j end) (word_at s i).

(** [\d{3,8}\b] at [i], trying 8 digits down to 3 (greedy backtracking). *)
Fixpoint digits_then_boundary (s : string) (i n : nat) : option nat :=
  match n with
  | O => None
  | S n' =>
      if (3 <=? n) && all_digits (substring i n s) && (i + n <=? String.length s)
         && boundary s (i + n)
      then Some n else digits_then_boundary s i n'
  end.

Fixpoint search_digits_from (s : string) (i fuel : nat) : option string :=
  match fuel with
  | O => None
  | S f =>
      match (if boundary s i then digits_then_boundary s i 8 else None) with
      | Some n => Some (substring i n s)
      | None => search_digits_from s (S i) f
      end
  end.

(** [s.match(/\b(\d{3,8})\b/)]: the group [m[1]] of the leftmost match. *)
Definition search_digits (s : string) : option string :=
  search_digits_from s 0 (S (String.length s)).

(* ------------------------------------------------------------------ *)
(** ** Remote calls, the world and the monad *)

(** The remote requests the code issues.  The GraphQL query texts are
    constants of the code; each is named by its constructor. *)
Inductive call : Type :=
| BkGetOrder (id : string)                        (* GET /api/v2/order/{id} *)
| BkFilterOrders (startDate endDate statusList : jval) (page : nat) (size : Z)
                                                  (* POST /api/v2/order/filter *)
| ShopifyGetOrderById (gid : string) (foFirst : nat)
                                                  (* query order(id:) *)
| ShopifyFindOrder (q : string) (foFirst : nat)   (* query orders(first: 1, query:) *)
| ShopifyFulfill (vars : jval).                   (* mutation fulfillmentCreateV2 *)

(** What [fetch] gives back: a rejected promise, or a response with its
    [ok] flag, status, body text and the body parsed as JSON ([None]
    when the text is not JSON). *)
Inductive resp : Type :=
| NetErr (msg : string)
| Resp (ok : bool) (status : string) (text : string) (json : option jval).

Record world : Type := mkWorld {
  w_env : string -> option string;           (* process.env *)
  w_remote : list call -> call -> resp;      (* the remote APIs *)
  w_trace : list call                        (* calls issued so far *)
}.

Definition with_trace (w : world) (tr : list call) : world :=
  mkWorld (w_env w) (w_remote w) tr.

Definition M (A : Type) : Type := world -> res A * world.

Definition ret {A} (a : A) : M A := fun w => (Ok a, w).
Definition throw {A} (e : string) : M A := fun w => (Exc e, w).
Definition bind {A B} (m : M A) (f : A -> M B) : M B :=
  fun w => match m w with
           | (Ok a, w') => f a w'
           | (Exc e, w') => (Exc e, w')
           end.
Definition lift {A} (r : res A) : M A := fun w => (r, w).

Notation "x <- m ;; k" := (bind m (fun x => k)) (at level 61, m at next level, right associativity).

Definition env (k : string) : M (option string) := fun w => (Ok (w_env w k), w).

(** [await fetch(...)]: the oracle answers from the trace so far. *)
Definition fetch (c : call) : M resp :=
  fun w => (Ok (w_remote w (w_trace w) c), with_trace w (w_trace w ++ [c])).

Definition env_truthy (o : option string) : bool :=
  match o with Some s => negb (String.eqb s EmptyString) | None => false end.

(** The object [{ ok, msg }] (and [detail]) returned by the handlers. *)
Record outcome : Type := mkOutcome { ok : bool; msg : string; detail : option jval }.

Definition Ret (b : bool) (m : string) : outcome := mkOutcome b m None.

(** The route's answer: [result.ok ? 200 : 400], a thrown error gives 500. *)
Definition http_status (r : res outcome) : nat :=
  match r with Ok o => if ok o then 200 else 400 | Exc _ => 500 end.

(* ------------------------------------------------------------------ *)
(** ** Shared remote wrappers *)

(** [basitKargoGetOrderById] (and the fetch-and-parse part of
    [basitKargoFilterOrders]); [notJson] is the error thrown when the body
    is not JSON (a raw SyntaxError in index.js, a fixed message elsewhere). *)
Definition bk_decode (notJson : string) (r : resp) : res jval :=
  match r with
  | NetErr m => Exc m
  | Resp okf st text j =>
      if negb okf then Exc ("BasitKargo HTTP " +++ st +++ ": " +++ text)
      else match j with Some v => Ok v | None => Exc notJson end
  end.

Definition bk_call (notJson : string) (c : call) : M jval :=
  token <- env "BASITKARGO_TOKEN" ;;
  if negb (env_truthy token) then throw "Missing BASITKARGO_TOKEN"
  else r <- fetch c ;; lift (bk_decode notJson r).

(** [basitKargoGetOrderById(id)]: the token test, then [encodeURIComponent(id)]
    (which converts [id] to a string and may throw), then the request. *)
Definition basitKargoGetOrderById (notJson : string) (id : option jval) : M jval :=
  token <- env "BASITKARGO_TOKEN" ;;
  if negb (env_truthy token) then throw "Missing BASITKARGO_TOKEN"
  else
    idText <- lift (tmpl id) ;;
    r <- fetch (BkGetOrder idText) ;;
    lift (bk_decode notJson r).

(** The part of [shopifyGraphql] (index.js first app, part_000, part_001)
    after the fetch. *)
Definition gql_decode (r : resp) : res jval :=
  match r with
  | NetErr m => Exc m
  | Resp okf st text j =>
      match j with
      | None => Exc ("Shopify non-JSON response HTTP " +++ st +++ ": " +++ text)
      | Some json =>
          if negb okf then Exc ("Shopify HTTP " +++ st +++ ": " +++ text)
          else match json with
               | JNull => Exc "Cannot read properties of null (reading 'errors')"
               | _ =>
                   match jget "errors" json with
                   | Some e =>
                       if js_length_truthy e
                       then Exc ("Shopify GraphQL errors: " +++ json_stringify e)
                       else Ok json
                   | None => Ok json
                   end
               end
      end
  end.

Definition shopifyGraphql (c : call) : M jval :=
  store <- env "SHOPIFY_STORE" ;;
  token <- env "SHOPIFY_TOKEN" ;;
  if negb (env_truthy store && env_truthy token)
  then throw "Missing SHOPIFY_STORE or SHOPIFY_TOKEN"
  else r <- fetch c ;; lift (gql_decode r).

(* ------------------------------------------------------------------ *)
(** ** Shared fulfillment code: from the fulfillment-order edges on

    [const foNodes = (... .fulfillmentOrders?.edges || []).map((e) => e.node);
     const openFOs = foNodes.filter((n) => n.status === "OPEN" || n.status === "IN_PROGRESS");]
    to the final message; identical in index.js (first app), part_000 and
    part_001 except for the mutation variables, passed as [mk]. *)

(** [(edges || []).map((e) => e.node)]. *)
Definition fo_nodes (edges : option jval) : res (list (option jval)) :=
  let arr := if truthy_opt edges then edges else Some (JArr []) in
  match arr with
  | Some (JArr l) =>
      (fix go (l : list jval) : res (list (option jval)) :=
         match l with
         | [] => Ok []
         | JNull :: _ => Exc "Cannot read properties of null (reading 'node')"
         | e :: r => match go r with Ok ns => Ok (jget "node" e :: ns) | Exc m => Exc m end
         end) l
  | _ => Exc "(intermediate value).map is not a function"
  end.

Definition fo_is_open (v : jval) : bool :=
  match jget "status" v with
  | Some (JStr s) => String.eqb s "OPEN" || String.eqb s "IN_PROGRESS"
  | _ => false
  end.

(** [.filter((n) => n.status === "OPEN" || n.status === "IN_PROGRESS")]. *)
Fixpoint open_fos (ns : list (option jval)) : res (list jval) :=
  match ns with
  | [] => Ok []
  | None :: _ => Exc "Cannot read properties of undefined (reading 'status')"
  | Some JNull :: _ => Exc "Cannot read properties of null (reading 'status')"
  | Some n :: r =>
      match open_fos r with
      | Ok l => Ok (if fo_is_open n then n :: l else l)
      | Exc m => Exc m
      end
  end.

(** [results.push({ fo: fo.id, fulfillmentId: f?.id, status: f?.status })]. *)
Record fo_result : Type := mkResult {
  r_fo : option jval; r_fulfillmentId : option jval; r_status : option jval }.

(** The final message [`OK: ${order.name} tracking=${trackingNumber}
    fulfillments=${results.map((x) => x.fulfillmentId).join(",")}`]; its
    values are converted from left to right. *)
Definition ok_msg (name : option jval) (trackingNumber : jval) (results : list fo_result)
  : res string :=
  rbind (tmpl name) (fun n =>
  rbind (js_String trackingNumber) (fun t =>
  rbind (res_all (map (fun x => join_elem (r_fulfillmentId x)) results)) (fun ids =>
  Ok ("OK: " +++ n +++ " tracking=" +++ t +++ " fulfillments=" +++ js_join "," ids)))).

Definition user_errors (resp : jval) : jval :=
  match getp resp ["data"; "fulfillmentCreateV2"; "userErrors"] with
  | Some v => if truthy v then v else JArr []
  | None => JArr []
  end.

Definition user_errors_msg (ue : jval) : string := "Shopify userErrors: " +++ json_stringify ue.

(** The [for (const fo of openFOs)] loop and the final [return]. *)
Fixpoint write_open_fos (mk : option jval -> jval) (name : option jval)
    (trackingNumber : jval) (fos : list jval) (results : list fo_result) : M outcome :=
  match fos with
  | [] => m <- lift (ok_msg name trackingNumber results) ;; ret (Ret true m)
  | fo :: rest =>
      resp <- shopifyGraphql (ShopifyFulfill (mk (jget "id" fo))) ;;
      let ue := user_errors resp in
      if js_length_truthy ue then ret (Ret false (user_errors_msg ue))
      else
        let f := getp resp ["data"; "fulfillmentCreateV2"; "fulfillment"] in
        write_open_fos mk name trackingNumber rest
          (results ++ [mkResult (jget "id" fo) (oget "id" f) (oget "status" f)])
  end.

Definition no_open_msg (name : option jval) : res string :=
  rbind (tmpl name) (fun n =>
  Ok ("No OPEN/IN_PROGRESS fulfillmentOrder for " +++ n +++ " (already fulfilled/closed)")).

Definition fulfill_from_edges (mk : option jval -> jval) (name edges : option jval)
    (trackingNumber : jval) : M outcome :=
  nodes <- lift (fo_nodes edges) ;;
  openFOs <- lift (open_fos nodes) ;;
  match openFOs with
  | [] => m <- lift (no_open_msg name) ;; ret (Ret true m)
  | _ => write_open_fos mk name trackingNumber openFOs []
  end.

(** [fulfillWithTrackingOnOpenFOs] of index.js (first app) and part_001,
    which differ only in the mutation variables. *)
Definition fulfill_by_gid (mk : option jval -> jval) (orderGid : string)
    (trackingNumber : jval) : M outcome :=
  got <- shopifyGraphql (ShopifyGetOrderById orderGid 20) ;;
  let order := getp got ["data"; "order"] in
  match order with
  | Some o =>
      if truthy o
      then fulfill_from_edges mk (jget "name" o) (oget "edges" (jget "fulfillmentOrders" o))
             trackingNumber
      else ret (Ret false ("Order not found by id: " +++ orderGid))
  | None => ret (Ret false ("Order not found by id: " +++ orderGid))
  end.

(** [extractShopifyOrderGidFromBasitKargo], identical in index.js (first
    app) and part_001. *)
Definition extractShopifyOrderGidFromBasitKargo (bk : jval) : res (option string) :=
  match js_or [getp bk ["content"; "code"]; jget "foreignCode" bk] (Some JNull) with
  | Some raw =>
      if negb (truthy raw) then Ok None
      else
        rbind (js_toString_call "raw" raw) (fun r =>
          let s := trim r in
          Ok (if digits_10_16 s then Some ("gid://shopify/Order/" +++ s) else None))
  | None => Ok None
  end.

(** The [okStatuses] set test [new Set(["READY_TO_SHIP", "SHIPPED"]).has(x)]. *)
Definition ok_status (st : option jval) : bool :=
  match st with
  | Some (JStr s) => String.eqb s "READY_TO_SHIP" || String.eqb s "SHIPPED"
  | _ => false
  end.

Definition is_shipped (st : option jval) : bool :=
  match st with Some (JStr s) => String.eqb s "SHIPPED" | _ => false end.

(** [try { m } catch (e) { h(e.message) }]. *)
Definition try_catch {A} (m : M A) (h : string -> M A) : M A :=
  fun w => match m w with
           | (Ok a, w') => (Ok a, w')
           | (Exc e, w') => h e w'
           end.

(* ------------------------------------------------------------------ *)
(** ** src/index.js, first app: direct order reference and backfill *)

Module IndexGid.

(** The message of the SyntaxError thrown by the bare [JSON.parse(text)]. *)
Definition notJson : string := "Unexpected token in JSON".

Definition tracking_candidates (bk payload : jval) : list (option jval) :=
  [getp bk ["shipmentInfo"; "handlerShipmentCode"];
   getp payload ["shipmentInfo"; "handlerShipmentCode"];
   jget "handlerShipmentCode" payload;
   jget "barcode" bk;
   jget "barcode" payload].

Definition normalizeTrackingNumber (bk payload : jval) : jval :=
  js_or_null (tracking_candidates bk payload).

Definition normalizeTrackingUrl (bk payload : jval) : jval :=
  js_or_null [getp bk ["shipmentInfo"; "handlerShipmentTrackingLink"];
              getp payload ["shipmentInfo"; "handlerShipmentTrackingLink"]].

(** The [vars] of the [fulfillmentCreateV2] mutation for one [fo]. *)
Definition fulfill_vars (trackingNumber trackingUrl : jval) (foId : option jval) : jval :=
  JObj [("fulfillment",
         JObj [("notifyCustomer", JBool true);
               ("trackingInfo",
                JObj ([("company", JStr "Other"); ("number", trackingNumber)] ++
                      (if truthy trackingUrl then [("url", trackingUrl)] else [])));
               ("lineItemsByFulfillmentOrder", JArr [obj_opt [("fulfillmentOrderId", foId)]])])].

Definition fulfillWithTrackingOnOpenFOs (orderGid : string) (trackingNumber trackingUrl : jval)
  : M outcome :=
  fulfill_by_gid (fulfill_vars trackingNumber trackingUrl) orderGid trackingNumber.

Definition handleBasitKargoWebhook (payload : jval) : M outcome :=
  if negb (truthy payload) || negb (truthy_opt (jget "id" payload))
  then ret (Ret true "OK (test payload ignored)")
  else
    let status := jget "status" payload in
    if truthy_opt status && negb (ok_status status)
    then ret (Ret true "OK (status ignored)")
    else
      bk <- basitKargoGetOrderById notJson (jget "id" payload) ;;
      extracted <- lift (extractShopifyOrderGidFromBasitKargo bk) ;;
      match extracted with
      | None => ret (Ret false "BasitKargo response missing Shopify order id (content.code/foreignCode)")
      | Some orderGid =>
          let trackingNumber := normalizeTrackingNumber bk payload in
          if negb (truthy trackingNumber)
          then ret (Ret false "Tracking number missing (handlerShipmentCode/barcode)")
          else fulfillWithTrackingOnOpenFOs orderGid trackingNumber
                 (normalizeTrackingUrl bk payload)
      end.

(** Backfill route ([POST /backfill-today]).  [size] and [maxPages] are the
    values of [Number(req.body?.size || 100)] and
    [Number(req.body?.maxPages || 50)], taken here as integers. *)








End IndexGid.

(* ------------------------------------------------------------------ *)
(** ** src/unnamed/part_001: direct order reference *)

Module Part001.

Definition notJson : string := "BasitKargo response is not JSON".

Definition normalizeCarrierName (bk payload : jval) : jval :=
  match js_or [getp bk ["shipmentInfo"; "handler"; "name"];
               getp payload ["shipmentInfo"; "handler"; "name"];
               getp payload ["handler"; "name"];
               getp bk ["shipmentInfo"; "handler"; "code"];
               getp payload ["shipmentInfo"; "handler"; "code"];
               getp payload ["handler"; "code"]] (Some (JStr "Other")) with
  | Some v => v
  | None => JStr "Other"
  end.

Definition tracking_candidates (bk payload : jval) : list (option jval) :=
  [getp bk ["shipmentInfo"; "handlerShipmentCode"];
   getp payload ["shipmentInfo"; "handlerShipmentCode"];
   jget "handlerShipmentCode" payload;
   jget "barcode" payload].

Definition normalizeTrackingNumber (bk payload : jval) : jval :=
  js_or_null (tracking_candidates bk payload).

Definition fulfill_vars (carrierName trackingNumber : jval) (foId : option jval) : jval :=
  JObj [("fulfillment",
         JObj [("notifyCustomer", JBool true);
               ("trackingInfo", JObj [("company", carrierName); ("number", trackingNumber)]);
               ("lineItemsByFulfillmentOrder", JArr [obj_opt [("fulfillmentOrderId", foId)]])])].

Definition fulfillWithTrackingOnOpenFOs (orderGid : string) (carrierName trackingNumber : jval)
  : M outcome :=
  fulfill_by_gid (fulfill_vars carrierName trackingNumber) orderGid trackingNumber.

Definition handleBasitKargoWebhook (payload : jval) : M outcome :=
  if negb (ok_status (jget "status" payload)) then ret (Ret true "Ignored")
  else if negb (truthy_opt (jget "id" payload))
  then ret (Ret false "Webhook payload missing id")
  else
    bk <- basitKargoGetOrderById notJson (jget "id" payload) ;;
    extracted <- lift (extractShopifyOrderGidFromBasitKargo bk) ;;
    match extracted with
    | None => ret (Ret false "BasitKargo response içinde Shopify Order ID yok (content.code/foreignCode)")
    | Some orderGid =>
        let trackingNumber := normalizeTrackingNumber bk payload in
        if negb (truthy trackingNumber)
        then ret (Ret false "Tracking number not found (handlerShipmentCode/barcode)")
        else fulfillWithTrackingOnOpenFOs orderGid (normalizeCarrierName bk payload) trackingNumber
    end.

End Part001.

(* ------------------------------------------------------------------ *)
(** ** [buildOrderQuery], identical in index.js (second app) and part_000 *)

(** [(orderInput ?? "").toString().trim()] and the query; the error text is
    the one of index.js (part_000 passes only strings). *)
Definition buildOrderQuery (orderInput : option jval) : res (option string) :=
  let input := match orderInput with
               | None | Some JNull => JStr EmptyString
               | Some v => v
               end in
  rbind (js_toString_call ("(orderInput ?? " +++ dq +++ dq +++ ")") input) (fun r =>
    let raw := trim r in
    if String.eqb raw EmptyString then Ok None
    else
      let withHash := if starts_hash raw then raw else "#" +++ raw in
      let noHash := strip_hash withHash in
      Ok (Some ("name:" +++ dq +++ withHash +++ dq +++ " OR name:" +++ dq +++ noHash +++ dq))).

(* ------------------------------------------------------------------ *)
(** ** src/unnamed/part_000: order name extraction and text search *)

Module Part000.

Definition notJson : string := "BasitKargo response is not JSON".

Definition candidate_fields (bk : jval) : list (option jval) :=
  [getp bk ["content"; "code"]; getp bk ["content"; "orderCode"];
   getp bk ["content"; "reference"]; getp bk ["content"; "ref"];
   jget "code" bk; jget "orderCode" bk; jget "reference" bk; jget "ref" bk;
   jget "sourceOrderCode" bk; getp bk ["source"; "orderCode"]; getp bk ["source"; "code"]].

Definition present (l : list (option jval)) : list jval :=
  flat_map (fun o => match o with Some v => [v] | None => [] end) l.

(** [candidates.filter(Boolean).map((x) => x.toString().trim()).filter((x) => x.length)]. *)
Definition candidates (bk : jval) : res (list string) :=
  rbind (res_all (map (fun v => rbind (js_toString_call "x" v) (fun s => Ok (trim s)))
                      (filter truthy (present (candidate_fields bk))))) (fun l =>
  Ok (filter (fun s => negb (String.eqb s EmptyString)) l)).

Definition extractShopifyOrderNameFromBasitKargo (bk : jval) : res (option string) :=
  rbind (candidates bk) (fun cs =>
  Ok (match find lp_exact cs with
      | Some s => Some (lp_normalize s)
      | None =>
          let joined := js_join " | " cs in
          match search_lp joined with
          | Some m => Some ("#" +++ upper m)
          | None =>
              match search_digits joined with
              | Some d => Some ("#LP-" +++ d)
              | None => None
              end
          end
      end)).

(** Normalisation of an order name given in the payload (lines 158-162). *)
Definition normalize_payload_name (given : jval) : res string :=
  rbind (js_toString_call "shopifyOrderName" given) (fun r =>
  let s := trim r in
  Ok (if lp_exact s then lp_normalize s
      else if digits_3_8 s then "#LP-" +++ s
      else if starts_hash s then s else "#" +++ s)).

Definition fulfill_vars (carrierName trackingNumber : jval) (foId : option jval) : jval :=
  JObj [("fulfillment",
         JObj [("notifyCustomer", JBool true);
               ("trackingInfo", JObj [("company", carrierName); ("number", trackingNumber)]);
               ("lineItemsByFulfillmentOrder", JArr [obj_opt [("fulfillmentOrderId", foId)]])])].

Definition name_not_found_msg : string :=
  "Basit Kargo order detail içinde Shopify sipariş kodu bulunamadı. " +++
  "Sipariş oluştururken BasitKargo content.code alanına '#LP-xxxx' yazdırın veya response alanlarını paylaşın.".

(** Steps 3 and 4 of the handler: find the order by name, then write. *)
Definition find_and_fulfill (carrierName trackingNumber : jval) (shopifyOrderName : string)
  : M outcome :=
  query <- lift (buildOrderQuery (Some (JStr shopifyOrderName))) ;;
  match query with
  | None => ret (Ret false "Invalid Shopify order name")
  | Some q =>
      found <- shopifyGraphql (ShopifyFindOrder q 20) ;;
      let edge := index0 (getp found ["data"; "orders"; "edges"]) in
      if negb (truthy_opt edge) then ret (Ret false ("Order not found (query: " +++ q +++ ")"))
      else
        match oget "node" edge with
        | None => throw "Cannot read properties of undefined (reading 'fulfillmentOrders')"
        | Some JNull => throw "Cannot read properties of null (reading 'fulfillmentOrders')"
        | Some node =>
            fulfill_from_edges (fulfill_vars carrierName trackingNumber) (jget "name" node)
              (oget "edges" (jget "fulfillmentOrders" node)) trackingNumber
        end
  end.

Definition handleBasitKargoWebhook (payload : jval) : M outcome :=
  if negb (is_shipped (jget "status" payload)) then ret (Ret true "Ignored")
  else
    let carrierName :=
      match js_or [getp payload ["handler"; "name"]; getp payload ["handler"; "code"]]
              (Some (JStr "Other")) with Some v => v | None => JStr "Other" end in
    match jget "handlerShipmentCode" payload with
    | Some trackingNumber =>
        if negb (truthy trackingNumber) then ret (Ret false "Missing handlerShipmentCode")
        else
          let given := js_or_null [jget "shopify_order" payload; jget "orderNumber" payload;
                                   jget "order_no" payload; jget "code" payload;
                                   jget "order" payload] in
          if truthy given
          then
            shopifyOrderName <- lift (normalize_payload_name given) ;;
            find_and_fulfill carrierName trackingNumber shopifyOrderName
          else if negb (truthy_opt (jget "id" payload))
          then ret (Ret false "Webhook payload missing id; cannot fetch BasitKargo order detail")
          else
            bk <- basitKargoGetOrderById notJson (jget "id" payload) ;;
            extracted <- lift (extractShopifyOrderNameFromBasitKargo bk) ;;
            match extracted with
            | None => ret (Ret false name_not_found_msg)
            | Some extracted => find_and_fulfill carrierName trackingNumber extracted
            end
    | None => ret (Ret false "Missing handlerShipmentCode")
    end.

End Part000.

(* ------------------------------------------------------------------ *)
(** ** src/index.js, second app: [handleShipmentToShopify] *)

Module IndexSearch.

(** This app's [shopifyGraphql] returns [{ ok, status, json }] instead of
    throwing on an HTTP error; [resp.json()] throws on a non-JSON body. *)
Record gql_result : Type := mkGql { g_ok : bool; g_status : string; g_json : jval }.

Definition shopifyGraphql (c : call) : M gql_result :=
  r <- fetch c ;;
  match r with
  | NetErr m => throw m
  | Resp okf st _ j =>
      match j with
      | None => throw "Unexpected token in JSON"
      | Some json => ret (mkGql okf st json)
      end
  end.

(** [foEdges.map((e) => e.node).find((n) => n.status === "OPEN" || ...)]. *)
Fixpoint find_open (ns : list (option jval)) : res (option jval) :=
  match ns with
  | [] => Ok None
  | None :: _ => Exc "Cannot read properties of undefined (reading 'status')"
  | Some JNull :: _ => Exc "Cannot read properties of null (reading 'status')"
  | Some n :: r => if fo_is_open n then Ok (Some n) else find_open r
  end.

Definition handleShipmentToShopify (payload : jval) : M outcome :=
  store <- env "SHOPIFY_STORE" ;;
  token <- env "SHOPIFY_TOKEN" ;;
  if negb (env_truthy store && env_truthy token)
  then ret (Ret false "Missing SHOPIFY_STORE or SHOPIFY_TOKEN")
  else if negb (is_shipped (jget "status" payload)) then ret (Ret true "Ignored")
  else
    let trackingNumber := jget "handlerShipmentCode" payload in
    let carrierCode :=
      match js_or [getp payload ["handler"; "code"]] (Some (JStr "Other")) with
      | Some v => v | None => JStr "Other" end in
    match trackingNumber with
    | None => ret (Ret false "Missing handlerShipmentCode")
    | Some tn =>
    if negb (truthy tn) then ret (Ret false "Missing handlerShipmentCode")
    else
      let orderInput := js_or [jget "shopify_order" payload; jget "orderNumber" payload;
                               jget "order_no" payload; jget "code" payload]
                              (jget "order" payload) in
      if negb (truthy_opt orderInput)
      then ret (Ret false "Missing Shopify order in payload (send shopify_order: LP-1009)")
      else
        query <- lift (buildOrderQuery orderInput) ;;
        match query with
        | None => ret (Ret false "Invalid order input")
        | Some q =>
            findOrderRes <- shopifyGraphql (ShopifyFindOrder q 10) ;;
            if negb (g_ok findOrderRes)
            then ret (mkOutcome false ("Shopify find order HTTP " +++ g_status findOrderRes)
                        (Some (g_json findOrderRes)))
            else
              let edge := index0 (getp (g_json findOrderRes) ["data"; "orders"; "edges"]) in
              if negb (truthy_opt edge) then ret (Ret false ("Order not found (query: " +++ q +++ ")"))
              else
                match oget "node" edge with
                | None => throw "Cannot read properties of undefined (reading 'fulfillmentOrders')"
                | Some JNull => throw "Cannot read properties of null (reading 'fulfillmentOrders')"
                | Some node =>
                    let edges := oget "edges" (jget "fulfillmentOrders" node) in
                    let foEdges := if truthy_opt edges then edges else Some (JArr []) in
                    nodes <- lift (fo_nodes foEdges) ;;
                    found <- lift (find_open nodes) ;;
                    let openFO := match found with
                                  | Some n => Some n
                                  | None => oget "node" (index0 foEdges)
                                  end in
                    let foId := oget "id" openFO in
                    if negb (truthy_opt foId) then ret (Ret false "No fulfillmentOrderId found")
                    else
                      let fulfillVars :=
                        JObj [("fulfillment",
                               obj_opt [("fulfillmentOrderId", foId);
                                        ("notifyCustomer", Some (JBool true));
                                        ("trackingInfo",
                                         Some (JObj [("number", tn); ("company", carrierCode)]))])] in
                      fulfillRes <- shopifyGraphql (ShopifyFulfill fulfillVars) ;;
                      if negb (g_ok fulfillRes)
                      then ret (mkOutcome false ("Shopify fulfill HTTP " +++ g_status fulfillRes)
                                  (Some (g_json fulfillRes)))
                      else
                        let ue := match getp (g_json fulfillRes)
                                          ["data"; "fulfillmentCreateV2"; "userErrors"] with
                                  | Some v => if truthy v then v else JArr []
                                  | None => JArr []
                                  end in
                        if js_length_truthy ue then ret (Ret false (user_errors_msg ue))
                        else
                          nodeName <- lift (tmpl (jget "name" node)) ;;
                          tnText <- lift (js_String tn) ;;
                          ret (Ret true ("OK: " +++ nodeName +++ " tracking=" +++ tnText))
                end
        end
    end.

End IndexSearch.

(* ------------------------------------------------------------------ *)
(** ** Routes (the four files) *)

(** [checkKey(req, res)], identical in the four files: [expected] is
    [process.env.WEBHOOK_KEY] and [key] is [req.query.key]; [false] goes
    with the answer 401 "Unauthorized". *)
Definition checkKey (expected : option string) (key : option jval) : bool :=
  if negb (env_truthy expected) then true
  else match expected, key with
       | Some e, Some (JStr k) => String.eqb k e
       | _, _ => false
       end.

(** What a route reads of the request: [req.query.key] and [req.body].  A
    request without a parsed body is given the body [JNull]: routes and
    handlers read it only through [?.], [!] and spreading, where
    [undefined] and [null] behave alike. *)
Record request : Type := mkRequest { query_key : option jval; req_body : jval }.

(** The answer sent: HTTP status and body text. *)
Definition answer : Type := (nat * string)%type.

(** A POST route that calls a handler:
    [if (!checkKey(req, res)) return;
     try { const result = await handler(payload);
           return res.status(result.ok ? 200 : 400).send(result.msg); }
     catch (e) { console.error(e); return res.status(500).send(...); }].
    [expose] tells whether the 500 answer sends [e?.message || "Server error"]
    (index.js first app, part_000, part_001) or always "Server error"
    (index.js second app). *)
Definition post_route (expose : bool) (handler : jval -> M outcome) (payload_of : jval -> jval)
    (rq : request) : M answer :=
  expected <- env "WEBHOOK_KEY" ;;
  if negb (checkKey expected (query_key rq)) then ret (401, "Unauthorized")
  else try_catch
         (result <- handler (payload_of (req_body rq)) ;;
          ret (if ok result then 200 else 400, msg result))
         (fun e => ret (500, if expose && negb (String.eqb e EmptyString) then e else "Server error")).

(** [{ id: req.body?.id, status: req.body?.status || "READY_TO_SHIP" }]
    of [/manual-bk] (index.js first app, part_001). *)
Definition manual_bk_payload (body : jval) : jval :=
  obj_opt [("id", jget "id" body);
           ("status", js_or [jget "status" body] (Some (JStr "READY_TO_SHIP")))].

(** The own enumerable properties the spread [{ ...v }] copies. *)
Definition spread (v : jval) : list (string * jval) :=
  match v with
  | JObj kvs => kvs
  | JArr l => combine (map nat_repr (seq 0 (length l))) l
  | JStr s => combine (map nat_repr (seq 0 (String.length s)))
                (map (fun c => JStr (String c EmptyString)) (list_ascii_of_string s))
  | _ => []
  end.

(** [{ ...req.body, status: "SHIPPED" }] of [/manual-ship] (index.js
    second app, part_000). *)
Definition manual_ship_payload (body : jval) : jval :=
  JObj (spread body ++ [("status", JStr "SHIPPED")]).

(** [app.post("/basitkargo-webhook")] and [app.post("/manual-bk")] of
    index.js (first app). *)
Definition IndexGid_webhook_route : request -> M answer :=
  post_route true IndexGid.handleBasitKargoWebhook (fun b => b).
Definition IndexGid_manual_bk_route : request -> M answer :=
  post_route true IndexGid.handleBasitKargoWebhook manual_bk_payload.

(** The same two routes of part_001. *)
Definition Part001_webhook_route : request -> M answer :=
  post_route true Part001.handleBasitKargoWebhook (fun b => b).
Definition Part001_manual_bk_route : request -> M answer :=
  post_route true Part001.handleBasitKargoWebhook manual_bk_payload.

(** [app.post("/basitkargo-webhook")] and [app.post("/manual-ship")] of part_000. *)
Definition Part000_webhook_route : request -> M answer :=
  post_route true Part000.handleBasitKargoWebhook (fun b => b).
Definition Part000_manual_ship_route : request -> M answer :=
  post_route true Part000.handleBasitKargoWebhook manual_ship_payload.

(** The same two routes of index.js (second app), which hide the error message. *)
Definition IndexSearch_webhook_route : request -> M answer :=
  post_route false IndexSearch.handleShipmentToShopify (fun b => b).
Definition IndexSearch_manual_ship_route : request -> M answer :=
  post_route false IndexSearch.handleShipmentToShopify manual_ship_payload.

(* ------------------------------------------------------------------ *)
(** ** Observations on traces *)

Definition is_fulfill (c : call) : bool :=
  match c with ShopifyFulfill _ => true | _ => false end.

Definition count_fulfill (tr : list call) : nat := length (filter is_fulfill tr).

Definition env_ok (w : world) : Prop :=
  env_truthy (w_env w "SHOPIFY_STORE") && env_truthy (w_env w "SHOPIFY_TOKEN") = true.

(** A write call that goes through and reports no user error. *)
Definition write_succeeds (r : resp) : Prop :=
  exists j, gql_decode r = Ok j /\ js_length_truthy (user_errors j) = false.

(** A write call answered with the non-empty [userErrors] list [errs]. *)
Definition write_rejected (r : resp) (errs : jval) : Prop :=
  exists j e es, gql_decode r = Ok j /\ user_errors j = errs /\ errs = JArr (e :: es).

(** The fulfillment order a write call refers to: [Some t] for a write
    whose variables carry the id [t] ([None] when the key is absent). *)
Definition fulfill_target (c : call) : option (option jval) :=
  match c with
  | ShopifyFulfill v =>
      match getp v ["fulfillment"; "lineItemsByFulfillmentOrder"] with
      | Some li => Some (oget "fulfillmentOrderId" (index0 (Some li)))
      | None => Some (getp v ["fulfillment"; "fulfillmentOrderId"])
      end
  | _ => None
  end.

(** The fulfillment-order edges in the answer [j] to an order lookup. *)
Definition lookup_edges (j : jval) (c : call) : option jval :=
  match c with
  | ShopifyGetOrderById _ _ => getp j ["data"; "order"; "fulfillmentOrders"; "edges"]
  | ShopifyFindOrder _ _ =>
      oget "edges" (oget "fulfillmentOrders" (oget "node" (index0 (getp j ["data"; "orders"; "edges"]))))
  | _ => None
  end.

(** The OPEN/IN_PROGRESS units of the order returned by lookup [c] issued
    after the calls [prefix]. *)
Definition open_units (R : list call -> call -> resp) (prefix : list call) (c : call) : list jval :=
  match gql_decode (R prefix c) with
  | Ok j =>
      match fo_nodes (lookup_edges j c) with
      | Ok ns => match open_fos ns with Ok l => l | Exc _ => [] end
      | Exc _ => []
      end
  | Exc _ => []
  end.

(** Every write in the trace refers to a unit that an earlier lookup in
    the same trace returned with status OPEN or IN_PROGRESS. *)
Definition writes_only_open (R : list call -> call -> resp) (tr : list call) : Prop :=
  forall i c t, nth_error tr i = Some c -> fulfill_target c = Some t ->
    exists j l n, j < i /\ nth_error tr j = Some l /\
      In n (open_units R (firstn j tr) l) /\ jget "id" n = t.

(** A backfill page request. *)
Definition is_filter (c : call) : bool :=
  match c with BkFilterOrders _ _ _ _ _ => true | _ => false end.

(** [m] leaves the environment and the remote alone and only appends
    calls satisfying [P] to the trace. *)
Definition keeps {A} (P : call -> Prop) (m : M A) : Prop :=
  forall w, w_env (snd (m w)) = w_env w /\ w_remote (snd (m w)) = w_remote w /\
    exists rest, w_trace (snd (m w)) = w_trace w ++ rest /\ Forall P rest.




(** The writes the loop issues for the fulfillment orders [fos]. *)
Definition writes_of (mk : option jval -> jval) (fos : list jval) : list call :=
  map (fun fo => ShopifyFulfill (mk (jget "id" fo))) fos.

(** Shopify answers the n-th write of the run (counted from [base]) with [rs n]. *)
Definition indexed_remote (rs : nat -> resp) (base : nat) (w : world) : Prop :=
  forall tr v, w_remote w tr (ShopifyFulfill v) = rs (count_fulfill tr - base).

Definition no_filter (c : call) : Prop := is_filter c = false.

(** A call that, when it is a write, carries variables built by [mk]. *)
Definition write_made_by (mk : option jval -> jval) (c : call) : Prop :=
  is_fulfill c = true -> exists t, c = ShopifyFulfill (mk t).

(** The outcome of the unit loop when no listed fulfillment order is open:
    the message interpolates the order name, whose conversion may throw. *)
Definition none_open_outcome (name : option jval) : res outcome :=
  match tmpl name with
  | Ok n => Ok (Ret true ("No OPEN/IN_PROGRESS fulfillmentOrder for " +++ n +++
                          " (already fulfilled/closed)"))
  | Exc e => Exc e
  end.

(** A candidate field that is absent, falsy, or converts to blank text. *)
Definition unusable_candidate (o : option jval) : Prop :=
  match o with
  | None => True
  | Some v => truthy v = false \/
              exists s0, js_toString_call "x" v = Ok s0 /\ trim s0 = EmptyString
  end.

(* ------------------------------------------------------------------ *)
(** ** Sample deployments, used to exercise the handlers *)

(** Every environment variable set. *)
Definition sample_env (k : string) : option string := Some "x".

Definition okj (j : jval) : resp := Resp true "200" "{}" (Some j).



(** Shopify order #LP-1009 whose only fulfillment order [fo_1] has status [st]. *)
Definition sample_order (st : string) : jval :=
  JObj [("id", JStr "gid://shopify/Order/7708726460709"); ("name", JStr "#LP-1009");
        ("fulfillmentOrders",
          JObj [("edges", JArr [JObj [("node", JObj [("id", JStr "fo_1"); ("status", JStr st)])]])])].

Definition sample_fulfill_ok : jval :=
  JObj [("data", JObj [("fulfillmentCreateV2",
    JObj [("fulfillment", JObj [("id", JStr "f1"); ("status", JStr "SUCCESS")]);
          ("userErrors", JArr [])])])].

(** BasitKargo answers [bk] for any order; Shopify knows [sample_order st]. *)
Definition sample_remote (bk : jval) (st : string) (tr : list call) (c : call) : resp :=
  match c with
  | BkGetOrder _ => okj bk
  | BkFilterOrders _ _ _ _ _ => okj (JObj [("content", JArr [])])
  | ShopifyFindOrder _ _ =>
      okj (JObj [("data", JObj [("orders", JObj [("edges", JArr [JObj [("node", sample_order st)]])])])])
  | ShopifyGetOrderById _ _ => okj (JObj [("data", JObj [("order", sample_order st)])])
  | ShopifyFulfill _ => okj sample_fulfill_ok
  end.

Definition sample_world (bk : jval) (st : string) : world :=
  mkWorld sample_env (sample_remote bk st) [].

Definition sample_bk : jval := JObj [("content", JObj [("code", JStr "LP-1009")])].

Definition sample_payload : jval :=
  JObj [("status", JStr "SHIPPED"); ("id", JStr "BK-1"); ("handlerShipmentCode", JStr "TN1");
        ("shopify_order", JStr "lp-1009")].

(** A [fulfillmentCreateV2] answer with one user error. *)
Definition sample_fulfill_rejected : jval :=
  JObj [("data", JObj [("fulfillmentCreateV2",
    JObj [("fulfillment", JNull);
          ("userErrors", JArr [JObj [("field", JArr [JStr "trackingInfo"]);
                                     ("message", JStr "invalid")]])])])].

(** Two listed fulfillment orders, both open. *)
Definition sample_edges2 : option jval :=
  Some (JArr [JObj [("node", JObj [("id", JStr "fo_1"); ("status", JStr "OPEN")])];
              JObj [("node", JObj [("id", JStr "fo_2"); ("status", JStr "IN_PROGRESS")])]]).

(** Shopify answers the n-th write with [rs n]. *)
Definition indexed_world (rs : nat -> resp) : world :=
  mkWorld sample_env
    (fun tr c => match c with ShopifyFulfill _ => rs (count_fulfill tr) | _ => NetErr "offline" end) [].



(* ------------------------------------------------------------------ *)
(** ** Running the monad *)

Lemma bind_run {A B} (m : M A) (f : A -> M B) w :
  bind m f w = match m w with (Ok a, w') => f a w' | (Exc e, w') => (Exc e, w') end.
Proof. reflexivity. Qed.

Lemma lift_run {A} (r : res A) w : lift r w = (r, w).
Proof. reflexivity. Qed.

Lemma shopifyGraphql_run c w :
  shopifyGraphql c w =
  if env_truthy (w_env w "SHOPIFY_STORE") && env_truthy (w_env w "SHOPIFY_TOKEN")
  then (gql_decode (w_remote w (w_trace w) c), with_trace w (w_trace w ++ [c]))
  else (Exc "Missing SHOPIFY_STORE or SHOPIFY_TOKEN", w).
Proof.
  unfold shopifyGraphql, env, fetch, lift, throw; rewrite !bind_run.
  destruct (env_truthy _ && env_truthy _); reflexivity.
Qed.

Lemma count_fulfill_app tr c :
  count_fulfill (tr ++ [c]) = count_fulfill tr + (if is_fulfill c then 1 else 0).
Proof.
  unfold count_fulfill; rewrite filter_app, length_app; simpl; destruct (is_fulfill c); reflexivity.
Qed.

Section WriteLoop.

Variables (mk : option jval -> jval) (name : option jval) (trackingNumber : jval).
Variables (rs : nat -> resp) (base : nat).

Lemma write_loop_success : forall fos results w,
  env_ok w -> indexed_remote rs base w -> base <= count_fulfill (w_trace w) ->
  (forall i, i < length fos -> write_succeeds (rs (count_fulfill (w_trace w) - base + i))) ->
  exists more w',
    write_open_fos mk name trackingNumber fos results w =
      (match ok_msg name trackingNumber (results ++ more) with
       | Ok m => Ok (Ret true m) | Exc e => Exc e end, w') /\
    length more = length fos /\
    w_trace w' = w_trace w ++ writes_of mk fos.
Proof.
  induction fos as [|fo fos IH]; intros results w Henv Hrem Hbase Hok.
  - exists [], w. rewrite app_nil_r. simpl. repeat split; [|rewrite app_nil_r; reflexivity].
    unfold lift, ret; rewrite bind_run. destruct (ok_msg _ _ _); reflexivity.
  - cbn [write_open_fos]. rewrite bind_run, shopifyGraphql_run.
    unfold env_ok in Henv. rewrite Henv, Hrem.
    destruct (Hok 0 ltac:(simpl; lia)) as (j & Hj & Hue).
    rewrite Nat.add_0_r in Hj. rewrite Hj, Hue.
    set (w1 := with_trace w (w_trace w ++ [ShopifyFulfill (mk (jget "id" fo))])).
    edestruct (IH (results ++ [mkResult (jget "id" fo)
                     (oget "id" (getp j ["data"; "fulfillmentCreateV2"; "fulfillment"]))
                     (oget "status" (getp j ["data"; "fulfillmentCreateV2"; "fulfillment"]))]) w1)
      as (more & w' & Hrun & Hlen & Htr).
    + exact Henv.
    + intros tr v. apply Hrem.
    + unfold w1. cbn [w_trace with_trace]. rewrite count_fulfill_app. cbn [is_fulfill]. lia.
    + intros i Hi. unfold w1. cbn [w_trace with_trace]. rewrite count_fulfill_app. cbn [is_fulfill].
      replace (count_fulfill (w_trace w) + 1 - base + i)
        with (count_fulfill (w_trace w) - base + S i) by lia.
      apply Hok. simpl. lia.
    + exists (mkResult (jget "id" fo)
                (oget "id" (getp j ["data"; "fulfillmentCreateV2"; "fulfillment"]))
                (oget "status" (getp j ["data"; "fulfillmentCreateV2"; "fulfillment"])) :: more), w'.
      rewrite Hrun, <- app_assoc. cbn [app length]. repeat split; [lia|].
      rewrite Htr. simpl. rewrite <- app_assoc. reflexivity.
Qed.

Lemma write_loop_reject : forall fos k errs results w,
  1 <= k <= length fos ->
  env_ok w -> indexed_remote rs base w -> base <= count_fulfill (w_trace w) ->
  (forall i, i < k - 1 -> write_succeeds (rs (count_fulfill (w_trace w) - base + i))) ->
  write_rejected (rs (count_fulfill (w_trace w) - base + (k - 1))) errs ->
  exists w',
    write_open_fos mk name trackingNumber fos results w =
      (Ok (Ret false (user_errors_msg errs)), w') /\
    w_trace w' = w_trace w ++ writes_of mk (firstn k fos).
Proof.
  induction fos as [|fo fos IH]; intros k errs results w Hk Henv Hrem Hbase Hok Hrej.
  - simpl in Hk. lia.
  - cbn [write_open_fos]. rewrite bind_run, shopifyGraphql_run.
    unfold env_ok in Henv. rewrite Henv, Hrem.
    destruct k as [|k]; [lia|].
    destruct k as [|k].
    + destruct Hrej as (j & e & es & Hj & Hue & He).
      rewrite Nat.add_0_r in Hj. rewrite Hj, Hue, He. simpl.
      eexists. split; reflexivity.
    + destruct (Hok 0 ltac:(lia)) as (j & Hj & Hue).
      rewrite Nat.add_0_r in Hj. rewrite Hj, Hue.
      edestruct (IH (S k) errs
                   (results ++ [mkResult (jget "id" fo)
                     (oget "id" (getp j ["data"; "fulfillmentCreateV2"; "fulfillment"]))
                     (oget "status" (getp j ["data"; "fulfillmentCreateV2"; "fulfillment"]))])
                   (with_trace w (w_trace w ++ [ShopifyFulfill (mk (jget "id" fo))])))
        as (w' & Hrun & Htr).
      * simpl in Hk. lia.
      * exact Henv.
      * intros tr v. apply Hrem.
      * cbn [w_trace with_trace]. rewrite count_fulfill_app. cbn [is_fulfill]. lia.
      * intros i Hi. cbn [w_trace with_trace]. rewrite count_fulfill_app. cbn [is_fulfill].
        replace (count_fulfill (w_trace w) + 1 - base + i)
          with (count_fulfill (w_trace w) - base + S i) by lia.
        apply Hok. lia.
      * cbn [w_trace with_trace]. rewrite count_fulfill_app. cbn [is_fulfill].
        replace (count_fulfill (w_trace w) + 1 - base + (S k - 1))
          with (count_fulfill (w_trace w) - base + (S (S k) - 1)) by lia.
        exact Hrej.
      * exists w'. rewrite Hrun. split; [reflexivity|].
        rewrite Htr. simpl. rewrite <- app_assoc. reflexivity.
Qed.

End WriteLoop.


Lemma getOrder_run nj id w :
  basitKargoGetOrderById nj id w =
  if env_truthy (w_env w "BASITKARGO_TOKEN")
  then match tmpl id with
       | Ok s => (bk_decode nj (w_remote w (w_trace w) (BkGetOrder s)),
                  with_trace w (w_trace w ++ [BkGetOrder s]))
       | Exc e => (Exc e, w)
       end
  else (Exc "Missing BASITKARGO_TOKEN", w).
Proof.
  unfold basitKargoGetOrderById, env, fetch, lift, throw; rewrite !bind_run.
  destruct (env_truthy _); [|reflexivity].
  destruct (tmpl id); reflexivity.
Qed.

Lemma getp_app v p1 p2 :
  getp v (p1 ++ p2) = match getp v p1 with Some v' => getp v' p2 | None => None end.
Proof.
  revert v; induction p1 as [|k p1 IH]; intros v; simpl; [reflexivity|].
  destruct (jget k v); [apply IH|reflexivity].
Qed.

Lemma getp_one v k : getp v [k] = jget k v.
Proof. simpl. destruct (jget k v); reflexivity. Qed.

Lemma firstn_app_length {A} (l l' : list A) : firstn (length l) (l ++ l') = l.
Proof. rewrite firstn_app, firstn_all, Nat.sub_diag. simpl. apply app_nil_r. Qed.

Lemma nth_error_app_length {A} (l : list A) x : nth_error (l ++ [x]) (length l) = Some x.
Proof. rewrite nth_error_app2, Nat.sub_diag by lia. reflexivity. Qed.

(* ------------------------------------------------------------------ *)
(** ** The write-target invariant is kept by every step *)

Section OnlyOpen.

Variable R : list call -> call -> resp.

Lemma nth_error_snoc_lt {A} (l : list A) x i y :
  nth_error l i = Some y -> nth_error (l ++ [x]) i = Some y.
Proof.
  intros H. rewrite nth_error_app1; [exact H|]. apply nth_error_Some. congruence.
Qed.

Lemma firstn_snoc_le {A} (l : list A) x j :
  j <= length l -> firstn j (l ++ [x]) = firstn j l.
Proof.
  intros Hj. rewrite firstn_app. replace (j - length l) with 0 by lia.
  simpl. apply app_nil_r.
Qed.

Lemma nth_error_lt {A} (l : list A) i y : nth_error l i = Some y -> i < length l.
Proof. intros H. apply nth_error_Some. congruence. Qed.

Lemma woo_snoc_other tr c :
  writes_only_open R tr -> fulfill_target c = None -> writes_only_open R (tr ++ [c]).
Proof.
  intros H Hc i c' t Hi Ht.
  destruct (Nat.lt_ge_cases i (length tr)) as [Hlt|Hge].
  - rewrite nth_error_app1 in Hi by exact Hlt.
    destruct (H i c' t Hi Ht) as (j & l & n & Hji & Hj & Hn & Hid).
    exists j, l, n. repeat split; auto.
    + apply nth_error_snoc_lt; exact Hj.
    + rewrite firstn_snoc_le by lia. exact Hn.
  - rewrite nth_error_app2 in Hi by exact Hge.
    destruct (i - length tr) as [|k]; simpl in Hi.
    + inversion Hi; subst; congruence.
    + destruct k; discriminate.
Qed.

Lemma woo_snoc_write tr c t j l n :
  writes_only_open R tr -> fulfill_target c = Some t ->
  nth_error tr j = Some l -> In n (open_units R (firstn j tr) l) -> jget "id" n = t ->
  writes_only_open R (tr ++ [c]).
Proof.
  intros H Hc Hj Hn Hid i c' t' Hi Ht.
  destruct (Nat.lt_ge_cases i (length tr)) as [Hlt|Hge].
  - rewrite nth_error_app1 in Hi by exact Hlt.
    destruct (H i c' t' Hi Ht) as (j' & l' & n' & Hji & Hj' & Hn' & Hid').
    exists j', l', n'. repeat split; auto.
    + apply nth_error_snoc_lt; exact Hj'.
    + rewrite firstn_snoc_le by lia. exact Hn'.
  - rewrite nth_error_app2 in Hi by exact Hge.
    pose proof (nth_error_lt _ _ _ Hj) as Hjl.
    destruct (i - length tr) as [|k] eqn:Hk; simpl in Hi.
    + inversion Hi; subst c'. rewrite Hc in Ht. inversion Ht; subst t'.
      exists j, l, n. repeat split; auto.
      * lia.
      * apply nth_error_snoc_lt; exact Hj.
      * rewrite firstn_snoc_le by lia. exact Hn.
    + destruct k; discriminate.
Qed.

Variable mk : option jval -> jval.
Hypothesis mk_target : forall t, fulfill_target (ShopifyFulfill (mk t)) = Some t.
Variable trackingNumber : jval.

Lemma write_loop_only_open name : forall fos results w j l,
  w_remote w = R ->
  writes_only_open R (w_trace w) -> nth_error (w_trace w) j = Some l ->
  (forall fo, In fo fos -> In fo (open_units R (firstn j (w_trace w)) l)) ->
  writes_only_open R (w_trace (snd (write_open_fos mk name trackingNumber fos results w))).
Proof.
  induction fos as [|fo fos IH]; intros results w j l HR H Hj Hfos.
  - cbn [write_open_fos]. destruct (ok_msg _ _ _); exact H.
  - cbn [write_open_fos]. rewrite bind_run, shopifyGraphql_run.
    destruct (env_truthy _ && env_truthy _); [|exact H].
    assert (Hw : writes_only_open R (w_trace w ++ [ShopifyFulfill (mk (jget "id" fo))])).
    { eapply woo_snoc_write; [exact H|apply mk_target|exact Hj|apply Hfos; left; reflexivity|reflexivity]. }
    destruct (gql_decode _) as [got|e]; [|exact Hw].
    cbn [lift].
    destruct (js_length_truthy (user_errors got)); [exact Hw|].
    apply (IH _ _ j l); cbn [w_remote w_trace with_trace]; auto.
    + apply nth_error_snoc_lt; exact Hj.
    + intros fo' Hfo'. rewrite firstn_snoc_le by (apply nth_error_lt in Hj; lia).
      apply Hfos; right; exact Hfo'.
Qed.

Lemma fulfill_from_edges_only_open name edges w j l got :
  w_remote w = R ->
  writes_only_open R (w_trace w) -> nth_error (w_trace w) j = Some l ->
  gql_decode (R (firstn j (w_trace w)) l) = Ok got -> lookup_edges got l = edges ->
  writes_only_open R (w_trace (snd (fulfill_from_edges mk name edges trackingNumber w))).
Proof.
  intros HR H Hj Hgot Hedges. unfold fulfill_from_edges, lift. rewrite !bind_run.
  destruct (fo_nodes edges) as [ns|e] eqn:Hns; [|exact H].
  destruct (open_fos ns) as [opens|e] eqn:Hopen; [|exact H].
  destruct opens as [|o os]; [destruct (no_open_msg name); exact H|].
  apply (write_loop_only_open name _ _ _ j l); auto.
  intros fo Hfo. unfold open_units. rewrite Hgot, Hedges, Hns, Hopen. exact Hfo.
Qed.

Lemma fulfill_by_gid_only_open gid w :
  w_remote w = R -> writes_only_open R (w_trace w) ->
  writes_only_open R (w_trace (snd (fulfill_by_gid mk gid trackingNumber w))).
Proof.
  intros HR H. unfold fulfill_by_gid. rewrite bind_run, shopifyGraphql_run.
  destruct (env_truthy _ && env_truthy _); [|exact H].
  set (l := ShopifyGetOrderById gid 20).
  assert (Hw : writes_only_open R (w_trace w ++ [l])) by (apply woo_snoc_other; auto).
  destruct (gql_decode (w_remote w (w_trace w) l)) as [got|e] eqn:Hgot; [|exact Hw].
  destruct (getp got ["data"; "order"]) as [o|] eqn:Ho; [|exact Hw].
  destruct (truthy o); [|exact Hw].
  apply (fulfill_from_edges_only_open _ _ _ (length (w_trace w)) l got);
    cbn [w_remote w_trace with_trace]; auto.
  - apply nth_error_app_length.
  - rewrite firstn_app_length, <- HR. exact Hgot.
  - unfold l, lookup_edges.
    change ["data"; "order"; "fulfillmentOrders"; "edges"]
      with (["data"; "order"] ++ ["fulfillmentOrders"; "edges"]).
    rewrite getp_app, Ho. simpl. unfold oget.
    destruct (jget "fulfillmentOrders" o); [apply getp_one|reflexivity].
Qed.

End OnlyOpen.

Lemma writes_only_open_nil R : writes_only_open R [].
Proof. intros i c t Hi. destruct i; discriminate. Qed.

Lemma IndexGid_vars_target tn url t :
  fulfill_target (ShopifyFulfill (IndexGid.fulfill_vars tn url t)) = Some t.
Proof. destruct t; reflexivity. Qed.

Lemma Part001_vars_target carrier tn t :
  fulfill_target (ShopifyFulfill (Part001.fulfill_vars carrier tn t)) = Some t.
Proof. destruct t; reflexivity. Qed.

Lemma Part000_vars_target carrier tn t :
  fulfill_target (ShopifyFulfill (Part000.fulfill_vars carrier tn t)) = Some t.
Proof. destruct t; reflexivity. Qed.

Lemma bk_get_not_write id : fulfill_target (BkGetOrder id) = None.
Proof. reflexivity. Qed.

Lemma IndexGid_handler_only_open payload w :
  writes_only_open (w_remote w) (w_trace w) ->
  writes_only_open (w_remote w) (w_trace (snd (IndexGid.handleBasitKargoWebhook payload w))).
Proof.
  intros H. unfold IndexGid.handleBasitKargoWebhook.
  destruct (negb (truthy payload) || _); [exact H|].
  destruct (truthy_opt _ && _); [exact H|].
  rewrite bind_run, getOrder_run.
  destruct (env_truthy _); [|exact H].
  destruct (tmpl (jget "id" payload)) as [sid|e]; [|exact H].
  assert (Hw := woo_snoc_other _ _ _ H (bk_get_not_write sid)).
  destruct (bk_decode _ _) as [bk|e]; [|exact Hw].
  unfold lift; rewrite bind_run.
  destruct (extractShopifyOrderGidFromBasitKargo bk) as [[gid|]|e]; [|exact Hw|exact Hw].
  destruct (negb (truthy _)); [exact Hw|].
  unfold IndexGid.fulfillWithTrackingOnOpenFOs.
  apply fulfill_by_gid_only_open; [intros t; apply IndexGid_vars_target|reflexivity|exact Hw].
Qed.

Lemma Part001_handler_only_open payload w :
  writes_only_open (w_remote w) (w_trace w) ->
  writes_only_open (w_remote w) (w_trace (snd (Part001.handleBasitKargoWebhook payload w))).
Proof.
  intros H. unfold Part001.handleBasitKargoWebhook.
  destruct (negb (ok_status _)); [exact H|].
  destruct (negb (truthy_opt _)); [exact H|].
  rewrite bind_run, getOrder_run.
  destruct (env_truthy _); [|exact H].
  destruct (tmpl (jget "id" payload)) as [sid|e]; [|exact H].
  assert (Hw := woo_snoc_other _ _ _ H (bk_get_not_write sid)).
  destruct (bk_decode _ _) as [bk|e]; [|exact Hw].
  unfold lift; rewrite bind_run.
  destruct (extractShopifyOrderGidFromBasitKargo bk) as [[gid|]|e]; [|exact Hw|exact Hw].
  destruct (negb (truthy _)); [exact Hw|].
  unfold Part001.fulfillWithTrackingOnOpenFOs.
  apply fulfill_by_gid_only_open; [intros t; apply Part001_vars_target|reflexivity|exact Hw].
Qed.

Lemma find_and_fulfill_only_open R carrier tn oname w :
  w_remote w = R -> writes_only_open R (w_trace w) ->
  writes_only_open R (w_trace (snd (Part000.find_and_fulfill carrier tn oname w))).
Proof.
  intros HR H. subst R. unfold Part000.find_and_fulfill.
  rewrite bind_run, lift_run.
  destruct (buildOrderQuery _) as [[q|]|e]; [|exact H|exact H].
  rewrite bind_run, shopifyGraphql_run.
  destruct (env_truthy _ && env_truthy _); [|exact H].
  set (l := ShopifyFindOrder q 20).
  assert (Hw : writes_only_open (w_remote w) (w_trace w ++ [l]))
    by (apply woo_snoc_other; auto).
  destruct (gql_decode (w_remote w (w_trace w) l)) as [got|e] eqn:Hgot; [|exact Hw].
  destruct (negb (truthy_opt _)); [exact Hw|].
  destruct (oget "node" (index0 (getp got ["data"; "orders"; "edges"]))) as [node|] eqn:Hnode;
    [|exact Hw].
  destruct node as [| | | | |]; try exact Hw;
  (eapply (fulfill_from_edges_only_open (w_remote w) _ (fun t => Part000_vars_target carrier tn t))
     with (j := length (w_trace w)) (l := l) (got := got);
    cbn [w_remote w_trace with_trace]; auto;
    [ apply nth_error_app_length
    | rewrite firstn_app_length; exact Hgot
    | unfold l, lookup_edges; rewrite Hnode; reflexivity ]).
Qed.

Lemma Part000_handler_only_open payload w :
  writes_only_open (w_remote w) (w_trace w) ->
  writes_only_open (w_remote w) (w_trace (snd (Part000.handleBasitKargoWebhook payload w))).
Proof.
  intros H. unfold Part000.handleBasitKargoWebhook.
  destruct (negb (is_shipped _)); [exact H|].
  destruct (jget "handlerShipmentCode" payload) as [tn|]; [|exact H].
  destruct (negb (truthy tn)); [exact H|].
  destruct (truthy (js_or_null _)).
  { rewrite bind_run, lift_run.
    destruct (Part000.normalize_payload_name _); [|exact H].
    apply find_and_fulfill_only_open; auto. }
  destruct (negb (truthy_opt _)); [exact H|].
  rewrite bind_run, getOrder_run.
  destruct (env_truthy _); [|exact H].
  destruct (tmpl (jget "id" payload)) as [sid|e]; [|exact H].
  assert (Hw := woo_snoc_other _ _ _ H (bk_get_not_write sid)).
  destruct (bk_decode _ _) as [bk|e]; [|exact Hw].
  rewrite bind_run, lift_run.
  destruct (Part000.extractShopifyOrderNameFromBasitKargo bk) as [[n|]|e]; [|exact Hw|exact Hw].
  apply find_and_fulfill_only_open; auto.
Qed.

(* ------------------------------------------------------------------ *)
(** ** Helper facts for the claims *)

Lemma node_edge_truthy e node :
  oget "node" e = Some node -> truthy_opt e = true.
Proof. destruct e as [[| | | | |]|]; simpl; intros H; try discriminate; reflexivity. Qed.

Lemma id_payload_truthy payload :
  truthy_opt (jget "id" payload) = true -> truthy payload = true.
Proof. destruct payload; simpl; intros H; try discriminate; reflexivity. Qed.

(** The unit loop when the filtered list is empty. *)
Lemma fulfill_from_edges_none_open mk name edges tn ns w :
  fo_nodes edges = Ok ns -> open_fos ns = Ok [] ->
  fulfill_from_edges mk name edges tn w = (none_open_outcome name, w).
Proof.
  intros Hns Hopen. unfold fulfill_from_edges, lift. rewrite !bind_run, Hns, Hopen.
  unfold none_open_outcome, no_open_msg. destruct (tmpl name); reflexivity.
Qed.

Lemma res_all_length {A} (l : list (res A)) ys : res_all l = Ok ys -> length ys = length l.
Proof.
  revert ys; induction l as [|[a|e] l IH]; intros ys H; cbn in H.
  - injection H as <-. reflexivity.
  - destruct (res_all l) as [ys'|e] eqn:E; cbn in H; [|discriminate].
    injection H as <-. cbn. f_equal. apply IH. reflexivity.
  - discriminate.
Qed.

Lemma count_fulfill_app2 tr tr' : count_fulfill (tr ++ tr') = count_fulfill tr + count_fulfill tr'.
Proof. unfold count_fulfill. rewrite filter_app, length_app. reflexivity. Qed.

Lemma count_fulfill_writes mk fos : count_fulfill (writes_of mk fos) = length fos.
Proof. induction fos as [|fo fos IH]; [reflexivity|]. simpl. unfold count_fulfill in *. simpl. lia. Qed.

(** Strings: case, digits and [trim]. *)

Lemma is_digit_not_ws c : is_digit c = true -> is_ws c = false.
Proof.
  unfold is_digit, is_ws. intros H. apply andb_prop in H as [H1 H2].
  apply Nat.leb_le in H1. apply Nat.leb_le in H2.
  destruct (nat_of_ascii c =? 32) eqn:E1; [apply Nat.eqb_eq in E1; lia|].
  destruct (nat_of_ascii c =? 160) eqn:E3; [apply Nat.eqb_eq in E3; lia|].
  destruct (9 <=? nat_of_ascii c) eqn:E2; [|reflexivity].
  cbn. apply Nat.leb_gt. lia.
Qed.

Lemma upper_char_digit c : is_digit c = true -> upper_char c = c.
Proof.
  unfold is_digit, upper_char. intros H. apply andb_prop in H as [_ H2].
  apply Nat.leb_le in H2.
  destruct (97 <=? nat_of_ascii c) eqn:E; [apply Nat.leb_le in E; lia|reflexivity].
Qed.

Lemma upper_digits ds : all_digits ds = true -> upper ds = ds.
Proof.
  induction ds as [|c r IH]; simpl; [reflexivity|].
  intros H. apply andb_prop in H as [Hc Hr]. rewrite upper_char_digit, IH; auto.
Qed.

Lemma all_digits_In ds c : all_digits ds = true -> In c (list_ascii_of_string ds) -> is_digit c = true.
Proof.
  induction ds as [|d r IH]; simpl; [tauto|].
  intros H [<-|Hin]; apply andb_prop in H as [Hd Hr]; auto.
Qed.

Lemma rev_string_involutive s : rev_string (rev_string s) = s.
Proof.
  unfold rev_string. rewrite list_ascii_of_string_of_list_ascii, rev_involutive.
  apply string_of_list_ascii_of_string.
Qed.

(** [trim] leaves a string alone when its first and last characters are
    not white space. *)
Lemma trim_id c r c' r' :
  is_ws c = false -> is_ws c' = false ->
  rev (list_ascii_of_string (String c r)) = c' :: r' ->
  trim (String c r) = String c r.
Proof.
  intros Hc Hc' Hrev. unfold trim. cbn [trim_left]. rewrite Hc.
  unfold rev_string at 2. rewrite Hrev. cbn [string_of_list_ascii trim_left]. rewrite Hc'.
  change (String c' (string_of_list_ascii r')) with (string_of_list_ascii (c' :: r')).
  rewrite <- Hrev. fold (rev_string (String c r)). apply rev_string_involutive.
Qed.

Lemma trim_lp ds : ds <> EmptyString -> all_digits ds = true -> trim ("#LP-" +++ ds) = "#LP-" +++ ds.
Proof.
  intros Hne Hd.
  destruct (list_ascii_of_string ds) as [|x l] eqn:El.
  { destruct ds; [congruence|discriminate]. }
  destruct (exists_last (l := x :: l) ltac:(discriminate)) as (l' & c' & Hl').
  assert (Hc' : is_digit c' = true).
  { apply (all_digits_In ds); auto. rewrite El, Hl'. apply in_or_app. right. left. reflexivity. }
  apply (trim_id _ _ c' (rev l' ++ ["-"; "P"; "L"; "#"]%char)); [reflexivity|apply is_digit_not_ws; exact Hc'|].
  cbn [String.append list_ascii_of_string]. rewrite El, Hl'. cbn [rev].
  rewrite rev_app_distr. cbn [rev app]. rewrite <- !app_assoc. reflexivity.
Qed.

Lemma lp_exact_shape s :
  lp_exact s = true ->
  exists ds, ds <> EmptyString /\ all_digits ds = true /\ upper (strip_hash s) = "LP-" +++ ds.
Proof.
  unfold lp_exact, lp_body. destruct (strip_hash s) as [|l [|p [|m ds]]]; try discriminate.
  intros H. apply andb_prop in H as [H Hd]. apply andb_prop in H as [H Hne].
  apply andb_prop in H as [H Hm]. apply andb_prop in H as [Hl Hp].
  exists ds. split; [|split; [exact Hd|]].
  - intros ->. discriminate.
  - apply Ascii.eqb_eq in Hm. subst m.
    unfold is_L in Hl. unfold is_P in Hp.
    apply orb_prop in Hl. apply orb_prop in Hp.
    cbn [upper]. rewrite upper_digits by exact Hd.
    destruct Hl as [Hl|Hl]; apply Ascii.eqb_eq in Hl; subst l;
      destruct Hp as [Hp|Hp]; apply Ascii.eqb_eq in Hp; subst p; reflexivity.
Qed.

Lemma lp_exact_normal ds : ds <> EmptyString -> all_digits ds = true -> lp_exact ("#LP-" +++ ds) = true.
Proof.
  intros Hne Hd. unfold lp_exact, lp_body. cbn [strip_hash String.append].
  destruct ds as [|d r]; [congruence|]. cbn -[all_digits]. exact Hd.
Qed.

Lemma lp_normalize_normal ds : all_digits ds = true -> lp_normalize ("#LP-" +++ ds) = "#LP-" +++ ds.
Proof. intros Hd. unfold lp_normalize. cbn. rewrite upper_digits by exact Hd. reflexivity. Qed.

Lemma find_after_nonmatching {A} (f : A -> bool) pre s post :
  forallb (fun x => negb (f x)) pre = true -> f s = true -> find f (pre ++ s :: post) = Some s.
Proof.
  induction pre as [|x pre IH]; simpl; intros Hpre Hs.
  - rewrite Hs. reflexivity.
  - apply andb_prop in Hpre as [Hx Hpre]. destruct (f x); [discriminate|]. auto.
Qed.

Lemma extract_first_lp bk pre s post :
  Part000.candidates bk = Ok (pre ++ s :: post) ->
  forallb (fun x => negb (lp_exact x)) pre = true -> lp_exact s = true ->
  Part000.extractShopifyOrderNameFromBasitKargo bk = Ok (Some (lp_normalize s)).
Proof.
  intros Hc Hpre Hs. unfold Part000.extractShopifyOrderNameFromBasitKargo.
  rewrite Hc. cbn [rbind]. rewrite find_after_nonmatching by assumption. reflexivity.
Qed.

Lemma lp_normalize_shape s :
  lp_exact s = true ->
  exists ds, ds <> EmptyString /\ all_digits ds = true /\
    upper (strip_hash s) = "LP-" +++ ds /\ lp_normalize s = "#LP-" +++ ds.
Proof.
  intros H. destruct (lp_exact_shape s H) as (ds & Hne & Hd & Hu).
  exists ds. repeat split; auto. unfold lp_normalize. rewrite Hu. reflexivity.
Qed.

Lemma candidates_code ds :
  ds <> EmptyString -> all_digits ds = true ->
  Part000.candidates (JObj [("content", JObj [("code", JStr ("#LP-" +++ ds))])]) =
    Ok ["#LP-" +++ ds].
Proof.
  intros Hne Hd. unfold Part000.candidates.
  change (Part000.present (Part000.candidate_fields
            (JObj [("content", JObj [("code", JStr ("#LP-" +++ ds))])])))
    with [JStr ("#LP-" +++ ds)].
  change (filter truthy [JStr ("#LP-" +++ ds)]) with [JStr ("#LP-" +++ ds)].
  change (map (fun v => rbind (js_toString_call "x" v) (fun s => Ok (trim s)))
              [JStr ("#LP-" +++ ds)]) with [@Ok string (trim ("#LP-" +++ ds))].
  rewrite trim_lp by assumption. reflexivity.
Qed.

Lemma normalize_payload_normal ds :
  ds <> EmptyString -> all_digits ds = true ->
  Part000.normalize_payload_name (JStr ("#LP-" +++ ds)) = Ok ("#LP-" +++ ds).
Proof.
  intros Hne Hd. unfold Part000.normalize_payload_name.
  change (js_toString_call "shopifyOrderName" (JStr ("#LP-" +++ ds))) with (@Ok string ("#LP-" +++ ds)).
  cbn [rbind].
  rewrite trim_lp, lp_exact_normal, lp_normalize_normal by assumption. reflexivity.
Qed.

Lemma js_or_null_falsy l :
  forallb (fun o => negb (truthy_opt o)) l = true -> truthy (js_or_null l) = false.
Proof.
  unfold js_or_null. induction l as [|o l IH]; simpl; [reflexivity|].
  intros H. apply andb_prop in H as [Ho Hl]. destruct (truthy_opt o); [discriminate|]. auto.
Qed.

Lemma candidates_of_unusable (l : list (option jval)) :
  (forall o, In o l -> unusable_candidate o) ->
  exists ys,
    res_all (map (fun v => rbind (js_toString_call "x" v) (fun s => Ok (trim s)))
                 (filter truthy (Part000.present l))) = Ok ys /\
    filter (fun s => negb (String.eqb s EmptyString)) ys = [].
Proof.
  induction l as [|o l IH]; intros H; [exists []; split; reflexivity|].
  assert (Hl : forall o', In o' l -> unusable_candidate o')
    by (intros o' Ho'; apply H; right; exact Ho').
  specialize (H o (or_introl eq_refl)).
  destruct o as [v|]; [|exact (IH Hl)].
  change (Part000.present (Some v :: l)) with (v :: Part000.present l).
  cbn [filter]. destruct (truthy v) eqn:Ht; [|exact (IH Hl)].
  destruct (H : truthy v = false \/ _) as [H'|(s0 & Hs0 & Hblank)]; [congruence|].
  destruct (IH Hl) as (ys & Hys & Hnil).
  exists (EmptyString :: ys). cbn [map res_all]. rewrite Hs0. cbn [rbind]. rewrite Hblank, Hys.
  split; [reflexivity|exact Hnil].
Qed.

(** After the order lookup, the loop only issues writes. *)
Lemma write_open_fos_calls mk name tn fos results w :
  exists rest, w_trace (snd (write_open_fos mk name tn fos results w)) = w_trace w ++ rest /\
               Forall (fun c => is_fulfill c = true) rest.
Proof.
  revert results w. induction fos as [|fo fos IH]; intros results w.
  - cbn [write_open_fos]. rewrite bind_run, lift_run.
    destruct (ok_msg _ _ _); exists []; rewrite app_nil_r; split; try reflexivity; constructor.
  - cbn [write_open_fos]. rewrite bind_run, shopifyGraphql_run.
    destruct (env_truthy _ && env_truthy _).
    2: { exists []. rewrite app_nil_r. split; [reflexivity|constructor]. }
    destruct (gql_decode _) as [resp|e].
    2: { eexists. split; [reflexivity|]. repeat constructor. }
    destruct (js_length_truthy (user_errors resp)).
    { eexists. split; [reflexivity|]. repeat constructor. }
    match goal with
    | |- context [write_open_fos mk name tn fos ?res ?w1] =>
        destruct (IH res w1) as (rest & Htr & Hall)
    end.
    rewrite Htr. cbn [w_trace with_trace]. exists (ShopifyFulfill (mk (jget "id" fo)) :: rest).
    rewrite <- app_assoc. split; [reflexivity|]. constructor; [reflexivity|exact Hall].
Qed.

Lemma fulfill_from_edges_calls mk name edges tn w :
  exists rest, w_trace (snd (fulfill_from_edges mk name edges tn w)) = w_trace w ++ rest /\
               Forall (fun c => is_fulfill c = true) rest.
Proof.
  unfold fulfill_from_edges, lift. rewrite bind_run.
  destruct (fo_nodes edges) as [ns|e].
  2: { exists []. rewrite app_nil_r. split; [reflexivity|constructor]. }
  rewrite bind_run. destruct (open_fos ns) as [[|o os]|e].
  1: rewrite bind_run; destruct (no_open_msg name);
     exists []; rewrite app_nil_r; split; try reflexivity; constructor.
  2: exists []; rewrite app_nil_r; split; [reflexivity|constructor].
  apply write_open_fos_calls.
Qed.

(** [fulfillWithTrackingOnOpenFOs] looks the order up by its reference,
    then only writes. *)
Lemma fulfill_by_gid_calls mk gid tn w :
  env_ok w ->
  exists rest, w_trace (snd (fulfill_by_gid mk gid tn w)) =
                 w_trace w ++ ShopifyGetOrderById gid 20 :: rest /\
               Forall (fun c => is_fulfill c = true) rest.
Proof.
  intros Henv. unfold fulfill_by_gid. rewrite bind_run, shopifyGraphql_run.
  unfold env_ok in Henv. rewrite Henv.
  destruct (gql_decode _) as [got|e].
  2: { exists []. split; [reflexivity|constructor]. }
  destruct (getp got ["data"; "order"]) as [o|].
  2: { exists []. split; [reflexivity|constructor]. }
  destruct (truthy o).
  2: { exists []. split; [reflexivity|constructor]. }
  destruct (fulfill_from_edges_calls mk (jget "name" o) (oget "edges" (jget "fulfillmentOrders" o)) tn
              (with_trace w (w_trace w ++ [ShopifyGetOrderById gid 20]))) as (rest & Htr & Hall).
  exists rest. rewrite Htr. cbn [w_trace with_trace]. rewrite <- app_assoc. split; [reflexivity|exact Hall].
Qed.

(* ------------------------------------------------------------------ *)
(** ** Frame of the handlers: what a run may change *)

Section Keeps.

Variable P : call -> Prop.

Lemma keeps_unchanged {A} (m : M A) : (forall w, snd (m w) = w) -> keeps P m.
Proof.
  intros H w. rewrite H. split; [reflexivity|split; [reflexivity|]].
  exists []. rewrite app_nil_r. split; [reflexivity|constructor].
Qed.

Lemma keeps_ret {A} (a : A) : keeps P (ret a).
Proof. apply keeps_unchanged. reflexivity. Qed.

Lemma keeps_throw {A} e : keeps P (@throw A e).
Proof. apply keeps_unchanged. reflexivity. Qed.

Lemma keeps_lift {A} (r : res A) : keeps P (lift r).
Proof. apply keeps_unchanged. reflexivity. Qed.

Lemma keeps_env k : keeps P (env k).
Proof. apply keeps_unchanged. reflexivity. Qed.

Lemma keeps_fetch c : P c -> keeps P (fetch c).
Proof.
  intros Hc w. split; [reflexivity|split; [reflexivity|]].
  exists [c]. split; [reflexivity|repeat constructor; exact Hc].
Qed.

Lemma keeps_bind {A B} (m : M A) (f : A -> M B) :
  keeps P m -> (forall a, keeps P (f a)) -> keeps P (bind m f).
Proof.
  intros Hm Hf w. unfold bind. specialize (Hm w).
  destruct (m w) as [[a|e] w1]; cbn [snd] in *; [|exact Hm].
  destruct Hm as (He & Hr & rest & Ht & Hall).
  destruct (Hf a w1) as (He' & Hr' & rest' & Ht' & Hall').
  split; [congruence|split; [congruence|]].
  exists (rest ++ rest'). rewrite Ht', Ht, app_assoc. split; [reflexivity|apply Forall_app; auto].
Qed.

Lemma keeps_try_catch {A} (m : M A) h :
  keeps P m -> (forall e, keeps P (h e)) -> keeps P (try_catch m h).
Proof.
  intros Hm Hh w. unfold try_catch. specialize (Hm w).
  destruct (m w) as [[a|e] w1]; cbn [snd] in *; [exact Hm|].
  destruct Hm as (He & Hr & rest & Ht & Hall).
  destruct (Hh e w1) as (He' & Hr' & rest' & Ht' & Hall').
  split; [congruence|split; [congruence|]].
  exists (rest ++ rest'). rewrite Ht', Ht, app_assoc. split; [reflexivity|apply Forall_app; auto].
Qed.

End Keeps.

Create HintDb keeps.
#[local] Hint Resolve keeps_ret keeps_throw keeps_lift keeps_env : keeps.

(** Walk through a monadic program: binds, tests and pattern matches. *)
Ltac keeps_walk :=
  repeat (cbv zeta; first
    [ solve [eauto with keeps]
    | apply keeps_fetch; reflexivity
    | apply keeps_bind; [|intro]
    | apply keeps_try_catch; [|intro]
    | match goal with
      | |- keeps _ (if ?b then _ else _) => destruct b
      | |- keeps _ (match ?x with _ => _ end) => destruct x
      end ]).

Lemma keeps_shopifyGraphql c : no_filter c -> keeps no_filter (shopifyGraphql c).
Proof. intros Hc. unfold shopifyGraphql. keeps_walk. apply keeps_fetch. exact Hc. Qed.

Lemma keeps_bk_call nj c : no_filter c -> keeps no_filter (bk_call nj c).
Proof. intros Hc. unfold bk_call. keeps_walk. apply keeps_fetch. exact Hc. Qed.

#[local] Hint Resolve keeps_shopifyGraphql keeps_bk_call : keeps.
#[local] Hint Extern 1 (no_filter _) => reflexivity : keeps.

Lemma keeps_write_open_fos mk name tn fos results :
  keeps no_filter (write_open_fos mk name tn fos results).
Proof.
  revert results. induction fos as [|fo fos IH]; intros results; cbn [write_open_fos]; keeps_walk.
Qed.

#[local] Hint Resolve keeps_write_open_fos : keeps.

Lemma keeps_fulfill_by_gid mk gid tn : keeps no_filter (fulfill_by_gid mk gid tn).
Proof. unfold fulfill_by_gid, fulfill_from_edges. keeps_walk. Qed.

#[local] Hint Resolve keeps_fulfill_by_gid : keeps.





Section Backfill.

Variables (startDate endDate statusList : jval) (size : Z) (pg : nat -> jval).


End Backfill.

(* ------------------------------------------------------------------ *)
(** ** The claims *)

(** C1 (counterexample): in [handleShipmentToShopify] (index.js, second
    app) an order whose only fulfillment order [fo_1] is CLOSED still gets a
    write on [fo_1]: the write-target invariant fails. *)
Lemma C1_counterexample :
  let w := sample_world sample_bk "CLOSED" in
  let w' := snd (IndexSearch.handleShipmentToShopify sample_payload w) in
  (exists c, nth_error (w_trace w') 1 = Some c /\ fulfill_target c = Some (Some (JStr "fo_1"))) /\
  ~ writes_only_open (w_remote w) (w_trace w').
Proof.
  cbv zeta. split.
  - cbv. eexists. split; reflexivity.
  - intros H.
    edestruct (H 1) as (j & l & n & Hj & Hl & Hn & _); [cbv; reflexivity | cbv; reflexivity |].
    destruct j as [|j]; [|lia].
    cbv in Hl. injection Hl as <-. cbv in Hn. exact Hn.
Qed.

(** C1 (amended): in the variants that filter the fulfillment orders
    (index.js first app and part_001 through [fulfillWithTrackingOnOpenFOs],
    part_000 through its handler), every write refers to a fulfillment order
    that an earlier order lookup of the same run returned with status OPEN
    or IN_PROGRESS: one call of a handler keeps the invariant
    [writes_only_open] of the call trace, whatever the remote answers. *)
Theorem C1_filtering_variants_write_only_open : forall payload w,
  writes_only_open (w_remote w) (w_trace w) ->
  writes_only_open (w_remote w) (w_trace (snd (IndexGid.handleBasitKargoWebhook payload w))) /\
  writes_only_open (w_remote w) (w_trace (snd (Part001.handleBasitKargoWebhook payload w))) /\
  writes_only_open (w_remote w) (w_trace (snd (Part000.handleBasitKargoWebhook payload w))).
Proof.
  intros payload w H. split; [|split].
  - apply IndexGid_handler_only_open; exact H.
  - apply Part001_handler_only_open; exact H.
  - apply Part000_handler_only_open; exact H.
Qed.

Lemma C1_witness :
  let w := mkWorld sample_env (sample_remote (JObj [("content", JObj [("code", JStr "7708726460709")])]) "CLOSED") [] in
  let p := JObj [("status", JStr "SHIPPED"); ("id", JStr "BK-1"); ("handlerShipmentCode", JStr "TN1")] in
  writes_only_open (w_remote w) (w_trace w) /\
  writes_only_open (w_remote w) (w_trace (snd (IndexGid.handleBasitKargoWebhook p w))) /\
  writes_only_open (w_remote w) (w_trace (snd (Part001.handleBasitKargoWebhook p w))) /\
  writes_only_open (w_remote w) (w_trace (snd (Part000.handleBasitKargoWebhook p w))).
Proof.
  cbv zeta. split; [apply writes_only_open_nil|].
  apply C1_filtering_variants_write_only_open. apply writes_only_open_nil.
Defined.

(** C2 (counterexample): [handleShipmentToShopify] on an order whose only
    fulfillment order is CLOSED reports success after one write. *)
Lemma C2_counterexample :
  let p := IndexSearch.handleShipmentToShopify sample_payload (sample_world sample_bk "CLOSED") in
  fst p = Ok (Ret true "OK: #LP-1009 tracking=TN1") /\ count_fulfill (w_trace (snd p)) = 1.
Proof. vm_compute. split; reflexivity. Qed.

(** C2 (amended): in the variants that filter the fulfillment orders, an
    order whose listed fulfillment orders are all outside OPEN/IN_PROGRESS
    gives ok = true with the message "No OPEN/IN_PROGRESS fulfillmentOrder
    for <name> (already fulfilled/closed)", where <name> is the order name
    converted by the template literal (a conversion error is thrown
    instead), and no write: the unit loop returns this outcome and leaves
    the world unchanged, and the order lookups of
    [fulfillWithTrackingOnOpenFOs] (index.js first app, part_001) and of
    part_000 issue that lookup as their only call. *)
Theorem C2_no_open_units_no_write :
  (forall mk name edges tn ns w,
     fo_nodes edges = Ok ns -> open_fos ns = Ok [] ->
     fulfill_from_edges mk name edges tn w = (none_open_outcome name, w)) /\
  (forall mk gid tn w got o ns,
     env_ok w ->
     gql_decode (w_remote w (w_trace w) (ShopifyGetOrderById gid 20)) = Ok got ->
     getp got ["data"; "order"] = Some o -> truthy o = true ->
     fo_nodes (oget "edges" (jget "fulfillmentOrders" o)) = Ok ns -> open_fos ns = Ok [] ->
     fulfill_by_gid mk gid tn w =
       (none_open_outcome (jget "name" o),
        with_trace w (w_trace w ++ [ShopifyGetOrderById gid 20]))) /\
  (forall carrier tn oname q w got node ns,
     buildOrderQuery (Some (JStr oname)) = Ok (Some q) -> env_ok w ->
     gql_decode (w_remote w (w_trace w) (ShopifyFindOrder q 20)) = Ok got ->
     oget "node" (index0 (getp got ["data"; "orders"; "edges"])) = Some node -> node <> JNull ->
     fo_nodes (oget "edges" (jget "fulfillmentOrders" node)) = Ok ns -> open_fos ns = Ok [] ->
     Part000.find_and_fulfill carrier tn oname w =
       (none_open_outcome (jget "name" node),
        with_trace w (w_trace w ++ [ShopifyFindOrder q 20]))).
Proof.
  split; [|split].
  - exact fulfill_from_edges_none_open.
  - intros mk gid tn w got o ns Henv Hgot Ho Hto Hns Hopen.
    unfold fulfill_by_gid. rewrite bind_run, shopifyGraphql_run.
    unfold env_ok in Henv. rewrite Henv, Hgot, Ho, Hto.
    apply fulfill_from_edges_none_open with ns; assumption.
  - intros carrier tn oname q w got node ns Hq Henv Hgot Hnode Hnn Hns Hopen.
    unfold Part000.find_and_fulfill. rewrite bind_run, lift_run, Hq. cbv beta iota.
    rewrite bind_run, shopifyGraphql_run.
    unfold env_ok in Henv. rewrite Henv, Hgot.
    rewrite (node_edge_truthy _ _ Hnode). cbn [negb]. rewrite Hnode.
    destruct node; try (exfalso; apply Hnn; reflexivity);
      apply fulfill_from_edges_none_open with ns; assumption.
Qed.

Lemma C2_witness :
  let w := sample_world sample_bk "CLOSED" in
  let o := sample_order "CLOSED" in
  let ns := [Some (JObj [("id", JStr "fo_1"); ("status", JStr "CLOSED")])] in
  let gid := "gid://shopify/Order/7708726460709" in
  let q := "name:" +++ dq +++ "#LP-1009" +++ dq +++ " OR name:" +++ dq +++ "LP-1009" +++ dq in
  let mk := IndexGid.fulfill_vars (JStr "TN1") JNull in
  fulfill_from_edges mk (jget "name" o) (oget "edges" (jget "fulfillmentOrders" o)) (JStr "TN1") w
    = (none_open_outcome (jget "name" o), w) /\
  fulfill_by_gid mk gid (JStr "TN1") w
    = (none_open_outcome (jget "name" o),
       with_trace w (w_trace w ++ [ShopifyGetOrderById gid 20])) /\
  Part000.find_and_fulfill (JStr "Other") (JStr "TN1") "#LP-1009" w
    = (none_open_outcome (jget "name" o), with_trace w (w_trace w ++ [ShopifyFindOrder q 20])).
Proof.
  cbv zeta. destruct C2_no_open_units_no_write as (H1 & H2 & H3). split; [|split].
  - apply (H1 _ _ _ _ [Some (JObj [("id", JStr "fo_1"); ("status", JStr "CLOSED")])]);
      vm_compute; reflexivity.
  - apply (H2 _ _ _ _ (JObj [("data", JObj [("order", sample_order "CLOSED")])])
             (sample_order "CLOSED") [Some (JObj [("id", JStr "fo_1"); ("status", JStr "CLOSED")])]);
      vm_compute; reflexivity.
  - apply (H3 _ _ _ _ _
             (JObj [("data", JObj [("orders", JObj [("edges",
                JArr [JObj [("node", sample_order "CLOSED")]])])])])
             (sample_order "CLOSED") [Some (JObj [("id", JStr "fo_1"); ("status", JStr "CLOSED")])]);
      try (vm_compute; reflexivity). discriminate.
Defined.

(** C3 (counterexample): all writes succeed, yet the loop throws after
    them: the order name is an object with its own [toString] key, and the
    final template literal cannot convert it. *)
Lemma C3_counterexample :
  let mk := Part000.fulfill_vars (JStr "Aras Kargo") (JStr "TN1") in
  let p := fulfill_from_edges mk (Some (JObj [("toString", JNum "1")])) sample_edges2 (JStr "TN1")
             (indexed_world (fun _ => okj sample_fulfill_ok)) in
  fst p = Exc to_prim_error /\ count_fulfill (w_trace (snd p)) = 2.
Proof. vm_compute. split; reflexivity. Qed.

(** C3 (amended): writing tracking on N >= 1 open fulfillment orders (the
    loop shared by [fulfillWithTrackingOnOpenFOs] and the part_000
    handler).  The remote answers the i-th write (counted from the start of
    the loop) with [rs i].  If the N writes succeed, exactly N writes are
    issued, one per open unit, and N results are collected; the outcome is
    the final message built from them: when the order name, the tracking
    number and the N fulfillment ids convert to strings, ok = true with a
    message listing the N comma-joined ids, otherwise the conversion error
    is thrown after the N writes.  If the k-th write returns a non-empty [userErrors] list [errs], exactly
    k writes are issued (the first k units, none after, no undo of the
    earlier ones) and the outcome is ok = false with [errs] serialized by
    JSON.stringify in the message. *)
Theorem C3_write_sequence : forall mk name edges tn ns fos rs w,
  fo_nodes edges = Ok ns -> open_fos ns = Ok fos -> fos <> [] -> env_ok w ->
  (forall tr v, w_remote w tr (ShopifyFulfill v) = rs (count_fulfill tr - count_fulfill (w_trace w))) ->
  ((forall i, i < length fos -> write_succeeds (rs i)) ->
   exists results w',
     fulfill_from_edges mk name edges tn w =
       (match ok_msg name tn results with
        | Ok m => Ok (Ret true m) | Exc e => Exc e end, w') /\
     length results = length fos /\
     (forall n t ids,
        tmpl name = Ok n -> js_String tn = Ok t ->
        res_all (map (fun x => join_elem (r_fulfillmentId x)) results) = Ok ids ->
        ok_msg name tn results =
          Ok ("OK: " +++ n +++ " tracking=" +++ t +++ " fulfillments=" +++ js_join "," ids) /\
        length ids = length fos) /\
     w_trace w' = w_trace w ++ writes_of mk fos /\
     count_fulfill (w_trace w') = count_fulfill (w_trace w) + length fos) /\
  (forall k errs, 1 <= k <= length fos ->
   (forall i, i < k - 1 -> write_succeeds (rs i)) -> write_rejected (rs (k - 1)) errs ->
   exists w',
     fulfill_from_edges mk name edges tn w =
       (Ok (Ret false ("Shopify userErrors: " +++ json_stringify errs)), w') /\
     w_trace w' = w_trace w ++ writes_of mk (firstn k fos) /\
     count_fulfill (w_trace w') = count_fulfill (w_trace w) + k).
Proof.
  intros mk name edges tn ns fos rs w Hns Hopen Hne Henv Hrem.
  split.
  - intros Hok.
    destruct (write_loop_success mk name tn rs (count_fulfill (w_trace w)) fos [] w)
      as (more & w' & Hw & Hlen & Htr); auto.
    { intros i Hi. rewrite Nat.sub_diag. apply Hok. exact Hi. }
    exists more, w'.
    split; [|split; [exact Hlen|split; [|split]]].
    + unfold fulfill_from_edges, lift. rewrite !bind_run, Hns, Hopen.
      destruct fos; [congruence|]. rewrite bind_run. cbv beta iota. rewrite Hw. reflexivity.
    + intros n t ids Hn Ht Hids. split.
      * unfold ok_msg. rewrite Hn. cbn [rbind]. rewrite Ht. cbn [rbind]. rewrite Hids. reflexivity.
      * rewrite (res_all_length _ _ Hids), length_map. exact Hlen.
    + exact Htr.
    + rewrite Htr, count_fulfill_app2, count_fulfill_writes. reflexivity.
  - intros k errs Hk Hok Hrej.
    destruct (write_loop_reject mk name tn rs (count_fulfill (w_trace w)) fos k errs [] w)
      as (w' & Hw & Htr); auto.
    { intros i Hi. rewrite Nat.sub_diag. apply Hok. exact Hi. }
    { rewrite Nat.sub_diag. exact Hrej. }
    exists w'. repeat split.
    + unfold fulfill_from_edges, lift. rewrite !bind_run, Hns, Hopen.
      destruct fos; [congruence|]. rewrite bind_run. cbv beta iota. rewrite Hw. reflexivity.
    + exact Htr.
    + rewrite Htr, count_fulfill_app2, count_fulfill_writes, length_firstn. lia.
Qed.

Lemma C3_witness :
  let mk := Part000.fulfill_vars (JStr "Aras Kargo") (JStr "TN1") in
  let ns := [Some (JObj [("id", JStr "fo_1"); ("status", JStr "OPEN")]);
             Some (JObj [("id", JStr "fo_2"); ("status", JStr "IN_PROGRESS")])] in
  let fos := [JObj [("id", JStr "fo_1"); ("status", JStr "OPEN")];
              JObj [("id", JStr "fo_2"); ("status", JStr "IN_PROGRESS")]] in
  let ok_all := fun _ : nat => okj sample_fulfill_ok in
  let reject2 := fun i : nat => if i =? 0 then okj sample_fulfill_ok else okj sample_fulfill_rejected in
  (exists results w',
     fulfill_from_edges mk (Some (JStr "#LP-1009")) sample_edges2 (JStr "TN1") (indexed_world ok_all) =
       (match ok_msg (Some (JStr "#LP-1009")) (JStr "TN1") results with
        | Ok m => Ok (Ret true m) | Exc e => Exc e end, w') /\
     length results = 2 /\ count_fulfill (w_trace w') = 2) /\
  (exists w',
     fulfill_from_edges mk (Some (JStr "#LP-1009")) sample_edges2 (JStr "TN1") (indexed_world reject2) =
       (Ok (Ret false ("Shopify userErrors: " +++
                       json_stringify (JArr [JObj [("field", JArr [JStr "trackingInfo"]);
                                                   ("message", JStr "invalid")]]))), w') /\
     count_fulfill (w_trace w') = 2).
Proof.
  cbv zeta. split.
  - destruct (C3_write_sequence (Part000.fulfill_vars (JStr "Aras Kargo") (JStr "TN1"))
                (Some (JStr "#LP-1009")) sample_edges2 (JStr "TN1")
                [Some (JObj [("id", JStr "fo_1"); ("status", JStr "OPEN")]);
                 Some (JObj [("id", JStr "fo_2"); ("status", JStr "IN_PROGRESS")])]
                [JObj [("id", JStr "fo_1"); ("status", JStr "OPEN")];
                 JObj [("id", JStr "fo_2"); ("status", JStr "IN_PROGRESS")]]
                (fun _ => okj sample_fulfill_ok) (indexed_world (fun _ => okj sample_fulfill_ok)))
      as [Hs _]; [reflexivity | reflexivity | discriminate | reflexivity |
                  intros tr v; reflexivity |].
    destruct Hs as (results & w' & Hrun & Hlen & _ & _ & Hcount).
    { intros i Hi. exists sample_fulfill_ok. split; reflexivity. }
    exists results, w'. split; [exact Hrun|]. split; [exact Hlen|exact Hcount].
  - destruct (C3_write_sequence (Part000.fulfill_vars (JStr "Aras Kargo") (JStr "TN1"))
                (Some (JStr "#LP-1009")) sample_edges2 (JStr "TN1")
                [Some (JObj [("id", JStr "fo_1"); ("status", JStr "OPEN")]);
                 Some (JObj [("id", JStr "fo_2"); ("status", JStr "IN_PROGRESS")])]
                [JObj [("id", JStr "fo_1"); ("status", JStr "OPEN")];
                 JObj [("id", JStr "fo_2"); ("status", JStr "IN_PROGRESS")]]
                (fun i => if i =? 0 then okj sample_fulfill_ok else okj sample_fulfill_rejected)
                (indexed_world (fun i => if i =? 0 then okj sample_fulfill_ok
                                         else okj sample_fulfill_rejected)))
      as [_ Hr]; [reflexivity | reflexivity | discriminate | reflexivity |
                  intros tr v; cbn [w_remote indexed_world]; rewrite Nat.sub_0_r; reflexivity |].
    destruct (Hr 2 (JArr [JObj [("field", JArr [JStr "trackingInfo"]); ("message", JStr "invalid")]]))
      as (w' & Hrun & _ & Hcount).
    + cbn. lia.
    + intros i Hi. destruct i; [|lia]. exists sample_fulfill_ok. split; reflexivity.
    + eexists _, _, []. split; [reflexivity|split; reflexivity].
    + exists w'. split; [exact Hrun|exact Hcount].
Defined.

(** C4 (counterexample): the first app of index.js processes an event
    without a status (it fetches the BasitKargo order), and the second app
    answers ok = false before looking at the status when its Shopify
    settings are missing. *)
Lemma C4_counterexample :
  let p := JObj [("id", JStr "BK-1")] in
  jget "status" p = None /\
  w_trace (snd (IndexGid.handleBasitKargoWebhook p (sample_world sample_bk "OPEN"))) = [BkGetOrder "BK-1"] /\
  fst (IndexSearch.handleShipmentToShopify (JObj [("status", JStr "CANCELLED")])
         (mkWorld (fun _ => None) (sample_remote sample_bk "OPEN") []))
    = Ok (Ret false "Missing SHOPIFY_STORE or SHOPIFY_TOKEN").
Proof. vm_compute. split; [reflexivity|split; reflexivity]. Qed.

(** C4 (amended): part_001 (actionable set READY_TO_SHIP, SHIPPED) and
    part_000 (SHIPPED) answer an event whose status is outside the set, an
    absent status included, with ok = true and "Ignored", and make no
    remote call (the world is returned unchanged); so does
    [handleShipmentToShopify] (set SHIPPED) once SHOPIFY_STORE and
    SHOPIFY_TOKEN are set.  The first app of index.js answers an event with
    an id and a present status outside READY_TO_SHIP, SHIPPED with ok = true
    and "OK (status ignored)", without remote call; an event without status
    is processed like an actionable one. *)
Theorem C4_ignored_status_no_calls : forall payload w,
  (ok_status (jget "status" payload) = false ->
   Part001.handleBasitKargoWebhook payload w = (Ok (Ret true "Ignored"), w)) /\
  (is_shipped (jget "status" payload) = false ->
   Part000.handleBasitKargoWebhook payload w = (Ok (Ret true "Ignored"), w)) /\
  (env_ok w -> is_shipped (jget "status" payload) = false ->
   IndexSearch.handleShipmentToShopify payload w = (Ok (Ret true "Ignored"), w)) /\
  (truthy_opt (jget "id" payload) = true -> truthy_opt (jget "status" payload) = true ->
   ok_status (jget "status" payload) = false ->
   IndexGid.handleBasitKargoWebhook payload w = (Ok (Ret true "OK (status ignored)"), w)).
Proof.
  intros payload w. split; [|split; [|split]].
  - intros H. unfold Part001.handleBasitKargoWebhook. rewrite H. reflexivity.
  - intros H. unfold Part000.handleBasitKargoWebhook. rewrite H. reflexivity.
  - intros Henv H. unfold IndexSearch.handleShipmentToShopify, env. rewrite !bind_run.
    unfold env_ok in Henv. rewrite Henv, H. reflexivity.
  - intros Hid Hst Hok. unfold IndexGid.handleBasitKargoWebhook.
    rewrite (id_payload_truthy _ Hid), Hid, Hst, Hok. reflexivity.
Qed.

Lemma C4_witness :
  let p := JObj [("status", JStr "CANCELLED"); ("id", JStr "BK-1")] in
  let w := sample_world sample_bk "OPEN" in
  Part001.handleBasitKargoWebhook p w = (Ok (Ret true "Ignored"), w) /\
  Part000.handleBasitKargoWebhook (JObj [("id", JStr "BK-1")]) w = (Ok (Ret true "Ignored"), w) /\
  IndexSearch.handleShipmentToShopify p w = (Ok (Ret true "Ignored"), w) /\
  IndexGid.handleBasitKargoWebhook p w = (Ok (Ret true "OK (status ignored)"), w).
Proof.
  cbv zeta. split; [|split; [|split]].
  - apply (C4_ignored_status_no_calls (JObj [("status", JStr "CANCELLED"); ("id", JStr "BK-1")])
             (sample_world sample_bk "OPEN")); reflexivity.
  - apply (C4_ignored_status_no_calls (JObj [("id", JStr "BK-1")]) (sample_world sample_bk "OPEN"));
      reflexivity.
  - apply (C4_ignored_status_no_calls (JObj [("status", JStr "CANCELLED"); ("id", JStr "BK-1")])
             (sample_world sample_bk "OPEN")); reflexivity.
  - apply (C4_ignored_status_no_calls (JObj [("status", JStr "CANCELLED"); ("id", JStr "BK-1")])
             (sample_world sample_bk "OPEN")); reflexivity.
Defined.

(** C5 (counterexample): two order fields of one BasitKargo order both
    match [#?LP-\d+]; extraction returns the normalisation of the first
    one ([content.code]), not of the second ([content.orderCode]).  And
    when another field holds an object with its own [toString] key, the
    [x.toString()] of the candidate list throws, although [content.code]
    matches. *)
Lemma C5_counterexample :
  let bk := JObj [("content", JObj [("code", JStr "LP-1"); ("orderCode", JStr "lp-2")])] in
  let bk2 := JObj [("content", JObj [("code", JStr "LP-1");
                                     ("orderCode", JObj [("toString", JNum "1")])])] in
  Part000.candidates bk = Ok ["LP-1"; "lp-2"] /\ lp_exact "lp-2" = true /\
  Part000.extractShopifyOrderNameFromBasitKargo bk = Ok (Some "#LP-1") /\
  lp_normalize "lp-2" = "#LP-2" /\
  Part000.extractShopifyOrderNameFromBasitKargo bk2 = Exc "x.toString is not a function".
Proof. vm_compute. repeat split; reflexivity. Qed.

(** C5 (amended): extraction (part_000) converts the truthy order fields,
    in field order, to trimmed strings with [x.toString().trim()] and
    keeps the non-empty ones; this throws when a field cannot be converted
    (see the counterexample).  When the conversion succeeds and the first
    candidate that matches [#?LP-\d+] (any case) is [s], extraction
    returns [s] in upper case with a single leading hash, "#LP-<digits>",
    and extracting again from an order whose [content.code] holds that
    result gives the same value; the payload order names of the part_000
    handler whose [toString] succeeds are normalised the same way and a
    normalised name is left unchanged. *)
Theorem C5_lp_normalized_idempotent :
  (forall bk pre s post,
     Part000.candidates bk = Ok (pre ++ s :: post) ->
     forallb (fun x => negb (lp_exact x)) pre = true -> lp_exact s = true ->
     exists ds, ds <> EmptyString /\ all_digits ds = true /\
       upper (strip_hash s) = "LP-" +++ ds /\
       Part000.extractShopifyOrderNameFromBasitKargo bk = Ok (Some ("#LP-" +++ ds)) /\
       Part000.extractShopifyOrderNameFromBasitKargo
         (JObj [("content", JObj [("code", JStr ("#LP-" +++ ds))])]) = Ok (Some ("#LP-" +++ ds))) /\
  (forall given s0,
     js_toString_call "shopifyOrderName" given = Ok s0 ->
     lp_exact (trim s0) = true ->
     exists ds, ds <> EmptyString /\ all_digits ds = true /\
       upper (strip_hash (trim s0)) = "LP-" +++ ds /\
       Part000.normalize_payload_name given = Ok ("#LP-" +++ ds) /\
       Part000.normalize_payload_name (JStr ("#LP-" +++ ds)) = Ok ("#LP-" +++ ds)).
Proof.
  split.
  - intros bk pre s post Hc Hpre Hs.
    destruct (lp_normalize_shape s Hs) as (ds & Hne & Hd & Hu & Hn).
    exists ds. repeat split; auto.
    + rewrite (extract_first_lp bk pre s post), Hn by assumption. reflexivity.
    + rewrite (extract_first_lp _ [] ("#LP-" +++ ds) []).
      * rewrite lp_normalize_normal by assumption. reflexivity.
      * apply candidates_code; assumption.
      * reflexivity.
      * apply lp_exact_normal; assumption.
  - intros given s0 Hs0 Hg.
    destruct (lp_normalize_shape _ Hg) as (ds & Hne & Hd & Hu & Hn).
    exists ds. repeat split; auto.
    + unfold Part000.normalize_payload_name. rewrite Hs0. cbn [rbind]. rewrite Hg, Hn. reflexivity.
    + apply normalize_payload_normal; assumption.
Qed.

Lemma C5_witness :
  let bk := JObj [("content", JObj [("code", JStr "SHOPIFY / 1007"); ("orderCode", JStr " #lp-1009 ")])] in
  exists ds, ds <> EmptyString /\ all_digits ds = true /\
    upper (strip_hash "#lp-1009") = "LP-" +++ ds /\
    Part000.extractShopifyOrderNameFromBasitKargo bk = Ok (Some ("#LP-" +++ ds)) /\
    Part000.extractShopifyOrderNameFromBasitKargo
      (JObj [("content", JObj [("code", JStr ("#LP-" +++ ds))])]) = Ok (Some ("#LP-" +++ ds)).
Proof.
  cbv zeta. destruct C5_lp_normalized_idempotent as [H _].
  apply (H _ ["SHOPIFY / 1007"] "#lp-1009" []); vm_compute; reflexivity.
Defined.

(** C6 (counterexample): an order whose only identifier field holds an
    object with its own [toString] key has no usable value, yet
    extraction throws instead of returning null, and so does the part_000
    handler that fetched it (the route answers 500). *)
Lemma C6_counterexample :
  let bk := JObj [("content", JObj [("code", JObj [("toString", JNum "1")])])] in
  let p := JObj [("status", JStr "SHIPPED"); ("id", JStr "BK-1"); ("handlerShipmentCode", JStr "TN1")] in
  Part000.extractShopifyOrderNameFromBasitKargo bk = Exc "x.toString is not a function" /\
  fst (Part000.handleBasitKargoWebhook p (sample_world bk "OPEN")) = Exc "x.toString is not a function".
Proof. vm_compute. split; reflexivity. Qed.

(** C6 (amended): when each of the eleven order fields read by part_000's
    extraction is absent, falsy, or converts with [toString] to a string
    that is blank after [trim], extraction returns [None] (a value, not an
    exception); a field that cannot be converted makes it throw (see the
    counterexample).  The part_000 handler that fetched an order whose
    extraction returns [None] (actionable event with a tracking number, no
    order name in the payload, an id that converts to a string) then
    returns ok = false with its diagnostic message, having made only the
    BasitKargo call. *)
Theorem C6_no_candidate_fails :
  (forall bk,
     (forall o, In o (Part000.candidate_fields bk) -> unusable_candidate o) ->
     Part000.extractShopifyOrderNameFromBasitKargo bk = Ok None) /\
  (forall payload w tn sid bk,
     is_shipped (jget "status" payload) = true ->
     jget "handlerShipmentCode" payload = Some tn -> truthy tn = true ->
     forallb (fun o => negb (truthy_opt o))
       [jget "shopify_order" payload; jget "orderNumber" payload; jget "order_no" payload;
        jget "code" payload; jget "order" payload] = true ->
     truthy_opt (jget "id" payload) = true ->
     env_truthy (w_env w "BASITKARGO_TOKEN") = true ->
     tmpl (jget "id" payload) = Ok sid ->
     bk_decode Part000.notJson (w_remote w (w_trace w) (BkGetOrder sid)) = Ok bk ->
     Part000.extractShopifyOrderNameFromBasitKargo bk = Ok None ->
     Part000.handleBasitKargoWebhook payload w =
       (Ok (Ret false Part000.name_not_found_msg),
        with_trace w (w_trace w ++ [BkGetOrder sid]))).
Proof.
  split.
  - intros bk H. unfold Part000.extractShopifyOrderNameFromBasitKargo, Part000.candidates.
    destruct (candidates_of_unusable _ H) as (ys & Hys & Hnil).
    rewrite Hys. cbn [rbind]. rewrite Hnil. reflexivity.
  - intros payload w tn sid bk Hst Htn Htt Hgiven Hid Htok Hsid Hbk Hex.
    unfold Part000.handleBasitKargoWebhook. rewrite Hst, Htn, Htt.
    cbn [negb]. rewrite (js_or_null_falsy _ Hgiven), Hid. cbn [negb].
    rewrite bind_run, getOrder_run, Htok, Hsid, Hbk, bind_run, lift_run, Hex. reflexivity.
Qed.

Lemma C6_witness :
  let bk := JObj [("content", JObj [("code", JStr "   "); ("orderCode", JNull)]); ("ref", JNum "0")] in
  let p := JObj [("status", JStr "SHIPPED"); ("id", JStr "BK-1"); ("handlerShipmentCode", JStr "TN1")] in
  Part000.extractShopifyOrderNameFromBasitKargo bk = Ok None /\
  Part000.handleBasitKargoWebhook p (sample_world bk "OPEN") =
    (Ok (Ret false Part000.name_not_found_msg),
     with_trace (sample_world bk "OPEN") (w_trace (sample_world bk "OPEN") ++ [BkGetOrder "BK-1"])).
Proof.
  cbv zeta. destruct C6_no_candidate_fails as [H1 H2]. split.
  - apply H1. intros o Ho. vm_compute in Ho.
    repeat (destruct Ho as [<-|Ho];
              [vm_compute; first [exact I | left; reflexivity | right; eexists; split; reflexivity]|]).
    destruct Ho.
  - apply (H2 _ _ (JStr "TN1") "BK-1"
             (JObj [("content", JObj [("code", JStr "   "); ("orderCode", JNull)]); ("ref", JNum "0")]));
      reflexivity.
Defined.

(** C7 (counterexample): an order whose [foreignCode] holds a 13-digit id
    but whose [content.code] holds a non-numeric value yields no reference:
    a valid id in [foreignCode] is not enough. *)
Lemma C7_counterexample :
  let bk := JObj [("content", JObj [("code", JStr "LP-1009")]); ("foreignCode", JStr "7708726460709")] in
  digits_10_16 "7708726460709" = true /\ extractShopifyOrderGidFromBasitKargo bk = Ok None.
Proof. vm_compute. split; reflexivity. Qed.

(** C7 (amended): when [content.code] is truthy and [content.code.toString()]
    gives a string whose trimmed form [s] has 10 to 16 digits, extraction
    (index.js first app, part_001) returns "gid://shopify/Order/<s>"; when
    [content.code] is falsy, the same holds for [foreignCode] (a truthy
    non-numeric [content.code] gives no reference, see the
    counterexample).  The handlers of both variants then look the order up
    by that reference: when the event id converts to a string [sid], the
    BasitKargo call fetches [sid], the next call is the by-id order query
    on the reference, and every later call is a fulfillment write (no text
    search). *)
Theorem C7_numeric_id_direct_reference :
  (forall bk v s0, getp bk ["content"; "code"] = Some v -> truthy v = true ->
     js_toString_call "raw" v = Ok s0 -> digits_10_16 (trim s0) = true ->
     extractShopifyOrderGidFromBasitKargo bk = Ok (Some ("gid://shopify/Order/" +++ trim s0))) /\
  (forall bk v s0, truthy_opt (getp bk ["content"; "code"]) = false ->
     jget "foreignCode" bk = Some v -> truthy v = true ->
     js_toString_call "raw" v = Ok s0 -> digits_10_16 (trim s0) = true ->
     extractShopifyOrderGidFromBasitKargo bk = Ok (Some ("gid://shopify/Order/" +++ trim s0))) /\
  (forall payload w sid bk gid,
     truthy_opt (jget "id" payload) = true -> ok_status (jget "status" payload) = true ->
     env_truthy (w_env w "BASITKARGO_TOKEN") = true -> env_ok w ->
     tmpl (jget "id" payload) = Ok sid ->
     bk_decode IndexGid.notJson (w_remote w (w_trace w) (BkGetOrder sid)) = Ok bk ->
     extractShopifyOrderGidFromBasitKargo bk = Ok (Some gid) ->
     truthy (IndexGid.normalizeTrackingNumber bk payload) = true ->
     exists rest,
       w_trace (snd (IndexGid.handleBasitKargoWebhook payload w)) =
         w_trace w ++ BkGetOrder sid :: ShopifyGetOrderById gid 20 :: rest /\
       Forall (fun c => is_fulfill c = true) rest) /\
  (forall payload w sid bk gid,
     truthy_opt (jget "id" payload) = true -> ok_status (jget "status" payload) = true ->
     env_truthy (w_env w "BASITKARGO_TOKEN") = true -> env_ok w ->
     tmpl (jget "id" payload) = Ok sid ->
     bk_decode Part001.notJson (w_remote w (w_trace w) (BkGetOrder sid)) = Ok bk ->
     extractShopifyOrderGidFromBasitKargo bk = Ok (Some gid) ->
     truthy (Part001.normalizeTrackingNumber bk payload) = true ->
     exists rest,
       w_trace (snd (Part001.handleBasitKargoWebhook payload w)) =
         w_trace w ++ BkGetOrder sid :: ShopifyGetOrderById gid 20 :: rest /\
       Forall (fun c => is_fulfill c = true) rest).
Proof.
  split; [|split; [|split]].
  - intros bk v s0 Hv Ht Hs0 Hd.
    assert (Hraw : js_or [getp bk ["content"; "code"]; jget "foreignCode" bk] (Some JNull) = Some v)
      by (cbn [js_or]; rewrite Hv; cbn [truthy_opt]; rewrite Ht; reflexivity).
    unfold extractShopifyOrderGidFromBasitKargo. rewrite Hraw, Ht. cbn [negb].
    rewrite Hs0. cbn [rbind]. rewrite Hd. reflexivity.
  - intros bk v s0 Hc Hv Ht Hs0 Hd.
    assert (Hraw : js_or [getp bk ["content"; "code"]; jget "foreignCode" bk] (Some JNull) = Some v)
      by (cbn [js_or]; rewrite Hc, Hv; cbn [truthy_opt]; rewrite Ht; reflexivity).
    unfold extractShopifyOrderGidFromBasitKargo. rewrite Hraw, Ht. cbn [negb].
    rewrite Hs0. cbn [rbind]. rewrite Hd. reflexivity.
  - intros payload w sid bk gid Hid Hst Htok Henv Hsid Hbk Hex Htn.
    unfold IndexGid.handleBasitKargoWebhook.
    rewrite (id_payload_truthy _ Hid), Hid, Hst, andb_false_r. cbn [negb orb].
    rewrite bind_run, getOrder_run, Htok, Hsid, Hbk. cbv beta iota.
    rewrite bind_run, lift_run, Hex. cbv beta iota. rewrite Htn. cbn [negb].
    unfold IndexGid.fulfillWithTrackingOnOpenFOs.
    destruct (fulfill_by_gid_calls (IndexGid.fulfill_vars (IndexGid.normalizeTrackingNumber bk payload)
                (IndexGid.normalizeTrackingUrl bk payload)) gid (IndexGid.normalizeTrackingNumber bk payload)
                (with_trace w (w_trace w ++ [BkGetOrder sid])) Henv)
      as (rest & Htr & Hall).
    exists rest. rewrite Htr. cbn [w_trace with_trace]. rewrite <- app_assoc. split; [reflexivity|exact Hall].
  - intros payload w sid bk gid Hid Hst Htok Henv Hsid Hbk Hex Htn.
    unfold Part001.handleBasitKargoWebhook. rewrite Hst, Hid. cbn [negb].
    rewrite bind_run, getOrder_run, Htok, Hsid, Hbk. cbv beta iota.
    rewrite bind_run, lift_run, Hex. cbv beta iota. rewrite Htn. cbn [negb].
    unfold Part001.fulfillWithTrackingOnOpenFOs.
    destruct (fulfill_by_gid_calls (Part001.fulfill_vars (Part001.normalizeCarrierName bk payload)
                (Part001.normalizeTrackingNumber bk payload)) gid (Part001.normalizeTrackingNumber bk payload)
                (with_trace w (w_trace w ++ [BkGetOrder sid])) Henv)
      as (rest & Htr & Hall).
    exists rest. rewrite Htr. cbn [w_trace with_trace]. rewrite <- app_assoc. split; [reflexivity|exact Hall].
Qed.

Lemma C7_witness :
  let bk1 := JObj [("content", JObj [("code", JStr "7708726460709")])] in
  let bk2 := JObj [("content", JObj [("code", JStr EmptyString)]); ("foreignCode", JNum "7708726460709")] in
  let p := JObj [("status", JStr "READY_TO_SHIP"); ("id", JStr "BK-2"); ("handlerShipmentCode", JStr "TN1")] in
  let w := sample_world bk1 "OPEN" in
  let gid := "gid://shopify/Order/7708726460709" in
  extractShopifyOrderGidFromBasitKargo bk1 = Ok (Some gid) /\
  extractShopifyOrderGidFromBasitKargo bk2 = Ok (Some gid) /\
  (exists rest,
     w_trace (snd (IndexGid.handleBasitKargoWebhook p w)) =
       w_trace w ++ BkGetOrder "BK-2" :: ShopifyGetOrderById gid 20 :: rest /\
     Forall (fun c => is_fulfill c = true) rest) /\
  (exists rest,
     w_trace (snd (Part001.handleBasitKargoWebhook p w)) =
       w_trace w ++ BkGetOrder "BK-2" :: ShopifyGetOrderById gid 20 :: rest /\
     Forall (fun c => is_fulfill c = true) rest).
Proof.
  cbv zeta. destruct C7_numeric_id_direct_reference as (H1 & H2 & H3 & H4).
  split; [|split; [|split]].
  - apply (H1 _ (JStr "7708726460709") "7708726460709"); reflexivity.
  - apply (H2 _ (JNum "7708726460709") "7708726460709"); reflexivity.
  - apply (H3 _ _ "BK-2" (JObj [("content", JObj [("code", JStr "7708726460709")])])); reflexivity.
  - apply (H4 _ _ "BK-2" (JObj [("content", JObj [("code", JStr "7708726460709")])])); reflexivity.
Defined.

(** C8 (counterexample): an actionable event without a tracking number
    is answered with 500, not 400, by the first app of index.js when the
    fetched order's [content.code] is an object with its own [toString]
    key (the extraction throws before the tracking number is tested), and
    by part_001 when the event id is such an object ([encodeURIComponent]
    throws before any call). *)
Lemma C8_counterexample :
  let p := JObj [("status", JStr "SHIPPED"); ("id", JStr "BK-1")] in
  let bk := JObj [("content", JObj [("code", JObj [("toString", JNum "1")])])] in
  let p2 := JObj [("status", JStr "SHIPPED"); ("id", JObj [("toString", JNum "1")])] in
  http_status (fst (IndexGid.handleBasitKargoWebhook p (sample_world bk "OPEN"))) = 500 /\
  http_status (fst (Part001.handleBasitKargoWebhook p2 (sample_world bk "OPEN"))) = 500 /\
  w_trace (snd (Part001.handleBasitKargoWebhook p2 (sample_world bk "OPEN"))) = [].
Proof. vm_compute. repeat split; reflexivity. Qed.

(** C8 (amended): an actionable event without a tracking number ends in
    a failure reported with HTTP 400 (ok = false), and no write is made:
    part_000 and [handleShipmentToShopify] test the payload's
    [handlerShipmentCode] before any Shopify call (no remote call at
    all); index.js (first app) and part_001 test the tracking number drawn
    from the BasitKargo order and the payload right after fetching that
    order and extracting the order reference from it: when the event id
    converts to a string and the extraction does not throw, the answer is
    400 and the fetch is the only remote call (otherwise the conversion
    error gives 500, see the counterexample). *)
Theorem C8_missing_tracking_fails : forall payload w,
  (is_shipped (jget "status" payload) = true -> truthy_opt (jget "handlerShipmentCode" payload) = false ->
   http_status (fst (Part000.handleBasitKargoWebhook payload w)) = 400 /\
   snd (Part000.handleBasitKargoWebhook payload w) = w) /\
  (is_shipped (jget "status" payload) = true -> truthy_opt (jget "handlerShipmentCode" payload) = false ->
   http_status (fst (IndexSearch.handleShipmentToShopify payload w)) = 400 /\
   snd (IndexSearch.handleShipmentToShopify payload w) = w) /\
  (forall sid bk r,
   truthy_opt (jget "id" payload) = true -> ok_status (jget "status" payload) = true ->
   env_truthy (w_env w "BASITKARGO_TOKEN") = true ->
   tmpl (jget "id" payload) = Ok sid ->
   bk_decode IndexGid.notJson (w_remote w (w_trace w) (BkGetOrder sid)) = Ok bk ->
   extractShopifyOrderGidFromBasitKargo bk = Ok r ->
   truthy (IndexGid.normalizeTrackingNumber bk payload) = false ->
   http_status (fst (IndexGid.handleBasitKargoWebhook payload w)) = 400 /\
   snd (IndexGid.handleBasitKargoWebhook payload w) = with_trace w (w_trace w ++ [BkGetOrder sid])) /\
  (forall sid bk r,
   truthy_opt (jget "id" payload) = true -> ok_status (jget "status" payload) = true ->
   env_truthy (w_env w "BASITKARGO_TOKEN") = true ->
   tmpl (jget "id" payload) = Ok sid ->
   bk_decode Part001.notJson (w_remote w (w_trace w) (BkGetOrder sid)) = Ok bk ->
   extractShopifyOrderGidFromBasitKargo bk = Ok r ->
   truthy (Part001.normalizeTrackingNumber bk payload) = false ->
   http_status (fst (Part001.handleBasitKargoWebhook payload w)) = 400 /\
   snd (Part001.handleBasitKargoWebhook payload w) = with_trace w (w_trace w ++ [BkGetOrder sid])).
Proof.
  intros payload w. split; [|split; [|split]].
  - intros Hst Htn. unfold Part000.handleBasitKargoWebhook. rewrite Hst. cbn [negb].
    destruct (jget "handlerShipmentCode" payload) as [tn|]; [|split; reflexivity].
    cbn [truthy_opt] in Htn. rewrite Htn. split; reflexivity.
  - intros Hst Htn. unfold IndexSearch.handleShipmentToShopify, env. rewrite !bind_run.
    destruct (env_truthy _ && env_truthy _); [|split; reflexivity].
    cbn [negb]. rewrite Hst. cbn [negb].
    destruct (jget "handlerShipmentCode" payload) as [tn|]; [|split; reflexivity].
    cbn [truthy_opt] in Htn. rewrite Htn. split; reflexivity.
  - intros sid bk r Hid Hst Htok Hsid Hbk Hex Htn. unfold IndexGid.handleBasitKargoWebhook.
    rewrite (id_payload_truthy _ Hid), Hid, Hst, andb_false_r. cbn [negb orb].
    rewrite bind_run, getOrder_run, Htok, Hsid, Hbk. cbv beta iota.
    rewrite bind_run, lift_run, Hex. cbv beta iota.
    destruct r; [|split; reflexivity].
    rewrite Htn. split; reflexivity.
  - intros sid bk r Hid Hst Htok Hsid Hbk Hex Htn. unfold Part001.handleBasitKargoWebhook.
    rewrite Hst, Hid. cbn [negb].
    rewrite bind_run, getOrder_run, Htok, Hsid, Hbk. cbv beta iota.
    rewrite bind_run, lift_run, Hex. cbv beta iota.
    destruct r; [|split; reflexivity].
    rewrite Htn. split; reflexivity.
Qed.

Lemma C8_witness :
  let p := JObj [("status", JStr "SHIPPED"); ("id", JStr "BK-1"); ("handlerShipmentCode", JStr EmptyString)] in
  let bk := JObj [("content", JObj [("code", JStr "7708726460709")])] in
  let w := sample_world bk "OPEN" in
  (http_status (fst (Part000.handleBasitKargoWebhook p w)) = 400 /\
   snd (Part000.handleBasitKargoWebhook p w) = w) /\
  (http_status (fst (IndexSearch.handleShipmentToShopify p w)) = 400 /\
   snd (IndexSearch.handleShipmentToShopify p w) = w) /\
  (http_status (fst (IndexGid.handleBasitKargoWebhook p w)) = 400 /\
   snd (IndexGid.handleBasitKargoWebhook p w) = with_trace w (w_trace w ++ [BkGetOrder "BK-1"])) /\
  (http_status (fst (Part001.handleBasitKargoWebhook p w)) = 400 /\
   snd (Part001.handleBasitKargoWebhook p w) = with_trace w (w_trace w ++ [BkGetOrder "BK-1"])).
Proof.
  cbv zeta.
  destruct (C8_missing_tracking_fails
              (JObj [("status", JStr "SHIPPED"); ("id", JStr "BK-1"); ("handlerShipmentCode", JStr EmptyString)])
              (sample_world (JObj [("content", JObj [("code", JStr "7708726460709")])]) "OPEN"))
    as (H1 & H2 & H3 & H4).
  split; [|split; [|split]].
  - apply H1; reflexivity.
  - apply H2; reflexivity.
  - apply (H3 "BK-1" (JObj [("content", JObj [("code", JStr "7708726460709")])])
             (Some "gid://shopify/Order/7708726460709")); reflexivity.
  - apply (H4 "BK-1" (JObj [("content", JObj [("code", JStr "7708726460709")])])
             (Some "gid://shopify/Order/7708726460709")); reflexivity.
Defined.

(** C10 (counterexample): a [content.code] that is not exactly 10 to 16
    digits can still give a reference, since it is trimmed first: the
    blank-padded " 7708726460709 " gives the reference of
    7708726460709.  And a [content.code] whose [toString] throws makes the
    extraction throw rather than return null. *)
Lemma C10_counterexample :
  let bk := JObj [("content", JObj [("code", JStr " 7708726460709 ")]); ("foreignCode", JStr "1")] in
  let bk2 := JObj [("content", JObj [("code", JObj [("toString", JNum "1")])]);
                   ("foreignCode", JStr "7708726460709")] in
  digits_10_16 " 7708726460709 " = false /\
  extractShopifyOrderGidFromBasitKargo bk = Ok (Some "gid://shopify/Order/7708726460709") /\
  extractShopifyOrderGidFromBasitKargo bk2 = Exc "raw.toString is not a function".
Proof. vm_compute. repeat split; reflexivity. Qed.

(** C10 (amended): in the direct-reference extraction (index.js first app,
    part_001) a truthy [content.code] decides alone: when
    [content.code.toString()] gives a string whose trimmed form is not 10
    to 16 digits the result is null whatever [foreignCode] holds (white
    space around the digits is trimmed away, and a [toString] that throws
    makes the extraction throw, see the counterexample), and two orders
    with the same truthy [content.code] give the same result (the same
    value or the same thrown error).  [foreignCode] is read only when
    [content.code] is falsy (absent, null, empty string, 0, false): the
    result then depends on [foreignCode] alone. *)
Theorem C10_content_code_precedence :
  (forall bk v s0, getp bk ["content"; "code"] = Some v -> truthy v = true ->
     js_toString_call "raw" v = Ok s0 -> digits_10_16 (trim s0) = false ->
     extractShopifyOrderGidFromBasitKargo bk = Ok None) /\
  (forall bk bk', getp bk ["content"; "code"] = getp bk' ["content"; "code"] ->
     truthy_opt (getp bk ["content"; "code"]) = true ->
     extractShopifyOrderGidFromBasitKargo bk = extractShopifyOrderGidFromBasitKargo bk') /\
  (forall bk bk', truthy_opt (getp bk ["content"; "code"]) = false ->
     truthy_opt (getp bk' ["content"; "code"]) = false ->
     jget "foreignCode" bk = jget "foreignCode" bk' ->
     extractShopifyOrderGidFromBasitKargo bk = extractShopifyOrderGidFromBasitKargo bk').
Proof.
  split; [|split].
  - intros bk v s0 Hv Ht Hs0 Hd.
    assert (Hraw : js_or [getp bk ["content"; "code"]; jget "foreignCode" bk] (Some JNull) = Some v)
      by (cbn [js_or]; rewrite Hv; cbn [truthy_opt]; rewrite Ht; reflexivity).
    unfold extractShopifyOrderGidFromBasitKargo. rewrite Hraw, Ht. cbn [negb].
    rewrite Hs0. cbn [rbind]. rewrite Hd. reflexivity.
  - intros bk bk' Heq Ht. unfold extractShopifyOrderGidFromBasitKargo. cbn [js_or].
    rewrite <- Heq, Ht. reflexivity.
  - intros bk bk' Ht Ht' Hfc. unfold extractShopifyOrderGidFromBasitKargo. cbn [js_or].
    rewrite Ht, Ht', Hfc. reflexivity.
Qed.

Lemma C10_witness :
  extractShopifyOrderGidFromBasitKargo
    (JObj [("content", JObj [("code", JStr "LP-1009")]); ("foreignCode", JStr "7708726460709")]) = Ok None /\
  extractShopifyOrderGidFromBasitKargo
    (JObj [("content", JObj [("code", JStr "7708726460709")]); ("foreignCode", JStr "1")]) =
  extractShopifyOrderGidFromBasitKargo
    (JObj [("content", JObj [("code", JStr "7708726460709")])]) /\
  extractShopifyOrderGidFromBasitKargo
    (JObj [("content", JObj [("code", JNum "0")]); ("foreignCode", JStr "7708726460709")]) =
  extractShopifyOrderGidFromBasitKargo (JObj [("foreignCode", JStr "7708726460709")]).
Proof.
  cbv zeta. destruct C10_content_code_precedence as (H1 & H2 & H3). split; [|split].
  - apply (H1 _ (JStr "LP-1009") "LP-1009"); reflexivity.
  - apply H2; reflexivity.
  - apply H3; reflexivity.
Defined.




(* ------------------------------------------------------------------ *)
(** ** Further properties of the routes, the API wrappers and the handlers *)

(* ------------------------------------------------------------------ *)
(** ** Further properties of the code *)

Lemma jget_app k l1 l2 :
  jget k (JObj (l1 ++ l2)) =
  match jget k (JObj l2) with Some v => Some v | None => jget k (JObj l1) end.
Proof.
  unfold jget. rewrite fold_left_app.
  generalize (fold_left (fun acc kv => if String.eqb (fst kv) k then Some (snd kv) else acc) l1 None).
  induction l2 as [|[k' v'] l2 IH] using rev_ind; intros acc; [reflexivity|].
  rewrite !fold_left_app. cbn. destruct (String.eqb k' k); [reflexivity|]. apply IH.
Qed.

Lemma manual_bk_fields b :
  jget "id" (manual_bk_payload b) = jget "id" b /\
  jget "status" (manual_bk_payload b) = js_or [jget "status" b] (Some (JStr "READY_TO_SHIP")).
Proof.
  unfold manual_bk_payload, obj_opt. cbn [js_or].
  destruct (truthy_opt (jget "status" b)) eqn:E.
  - destruct (jget "status" b) as [v|]; [|discriminate].
    destruct (jget "id" b); split; reflexivity.
  - destruct (jget "id" b); split; reflexivity.
Qed.

Lemma post_route_pass expose h pof rq w :
  checkKey (w_env w "WEBHOOK_KEY") (query_key rq) = true ->
  post_route expose h pof rq w =
  match h (pof (req_body rq)) w with
  | (Ok result, w') => (Ok (if ok result then 200 else 400, msg result), w')
  | (Exc e, w') => (Ok (500, if expose && negb (String.eqb e EmptyString) then e else "Server error"), w')
  end.
Proof.
  intros H. unfold post_route, env. rewrite bind_run. cbn beta iota. rewrite H. cbn [negb].
  unfold try_catch. rewrite bind_run. destruct (h _ w) as [[r|e] w']; reflexivity.
Qed.

Lemma post_route_trace expose h pof rq w :
  checkKey (w_env w "WEBHOOK_KEY") (query_key rq) = true ->
  w_trace (snd (post_route expose h pof rq w)) = w_trace (snd (h (pof (req_body rq)) w)).
Proof. intros H. rewrite post_route_pass by exact H. destruct (h _ w) as [[r|e] w']; reflexivity. Qed.

(** [basitKargoGetOrderById] first, then a continuation that keeps the
    trace growing: the fetch of the BasitKargo order is the first call. *)
Lemma tmpl_exc o e : tmpl o = Exc e -> e = to_prim_error.
Proof.
  destruct o as [v|]; cbn [tmpl]; [|discriminate].
  unfold js_String. destruct (str_throws v); congruence.
Qed.

Lemma bk_get_first_call {A} nj id sid (f : jval -> M A) w :
  env_truthy (w_env w "BASITKARGO_TOKEN") = true -> tmpl id = Ok sid ->
  (forall a, keeps no_filter (f a)) ->
  exists rest, w_trace (snd (bind (basitKargoGetOrderById nj id) f w)) =
               w_trace w ++ BkGetOrder sid :: rest.
Proof.
  intros Htok Hsid Hf. rewrite bind_run, getOrder_run, Htok, Hsid.
  destruct (bk_decode nj _) as [v|e].
  - destruct (Hf v (with_trace w (w_trace w ++ [BkGetOrder sid]))) as (_ & _ & rest & Ht & _).
    exists rest. rewrite Ht. cbn [w_trace with_trace]. rewrite <- app_assoc. reflexivity.
  - exists []. reflexivity.
Qed.

(** [/manual-ship] (index.js second app, part_000): the payload built from
    any body has status SHIPPED, so the handlers' status test always
    passes; the other keys of an object body are kept. *)
Theorem manual_ship_payload_shipped : forall body,
  jget "status" (manual_ship_payload body) = Some (JStr "SHIPPED") /\
  is_shipped (jget "status" (manual_ship_payload body)) = true /\
  (forall kvs k, body = JObj kvs -> k <> "status" ->
     jget k (manual_ship_payload body) = jget k body).
Proof.
  intros body. unfold manual_ship_payload.
  assert (Hs : jget "status" (JObj (spread body ++ [("status", JStr "SHIPPED")])) = Some (JStr "SHIPPED"))
    by (rewrite jget_app; reflexivity).
  split; [exact Hs|split; [rewrite Hs; reflexivity|]].
  intros kvs k -> Hk.
  assert (E : String.eqb "status" k = false) by (apply String.eqb_neq; intros E; apply Hk; symmetry; exact E).
  rewrite jget_app. unfold jget at 1. cbn [fold_left fst snd]. rewrite E. reflexivity.
Qed.

Lemma ok_status_default s :
  truthy_opt s = false \/ ok_status s = true ->
  ok_status (js_or [s] (Some (JStr "READY_TO_SHIP"))) = true.
Proof.
  intros H. cbn [js_or]. destruct (truthy_opt s) eqn:E; [|reflexivity].
  destruct H as [H|H]; [discriminate|exact H].
Qed.

Lemma manual_bk_payload_truthy b : truthy (manual_bk_payload b) = true.
Proof. reflexivity. Qed.

(** Requests without a truthy [id]: the two routes of index.js (first
    app) answer 200 "OK (test payload ignored)", and [/manual-bk] of
    part_001 answers 400 "Webhook payload missing id" unless the body
    names a status outside READY_TO_SHIP, SHIPPED; no remote call is made. *)
Theorem requests_without_id : forall rq w,
  checkKey (w_env w "WEBHOOK_KEY") (query_key rq) = true ->
  truthy_opt (jget "id" (req_body rq)) = false ->
  IndexGid_webhook_route rq w = (Ok (200, "OK (test payload ignored)"), w) /\
  IndexGid_manual_bk_route rq w = (Ok (200, "OK (test payload ignored)"), w) /\
  (truthy_opt (jget "status" (req_body rq)) = false \/ ok_status (jget "status" (req_body rq)) = true ->
   Part001_manual_bk_route rq w = (Ok (400, "Webhook payload missing id"), w)).
Proof.
  intros rq w Hkey Hid. destruct (manual_bk_fields (req_body rq)) as [Hi Hs].
  split; [|split].
  - unfold IndexGid_webhook_route. rewrite post_route_pass by exact Hkey.
    unfold IndexGid.handleBasitKargoWebhook. rewrite Hid, orb_true_r. reflexivity.
  - unfold IndexGid_manual_bk_route. rewrite post_route_pass by exact Hkey.
    unfold IndexGid.handleBasitKargoWebhook. rewrite Hi, Hid, orb_true_r. reflexivity.
  - intros Hst. unfold Part001_manual_bk_route. rewrite post_route_pass by exact Hkey.
    unfold Part001.handleBasitKargoWebhook. rewrite Hs, (ok_status_default _ Hst), Hi, Hid.
    reflexivity.
Qed.

Lemma keeps_Part001_handler payload : keeps no_filter (Part001.handleBasitKargoWebhook payload).
Proof.
  unfold Part001.handleBasitKargoWebhook, basitKargoGetOrderById, Part001.fulfillWithTrackingOnOpenFOs.
  keeps_walk.
Qed.

(** [/manual-bk] (index.js first app, part_001) with a truthy [id] and no
    status, or an actionable one: the status defaults to READY_TO_SHIP, so
    the handler goes on to [basitKargoGetOrderById].  When the id converts
    to a string [sid], the first remote call is the fetch of order [sid];
    when it does not (an object with its own [toString] key, which
    [encodeURIComponent] cannot convert), the route answers 500 with the
    TypeError's message and makes no remote call. *)
Theorem manual_bk_fetches_order : forall rq w,
  checkKey (w_env w "WEBHOOK_KEY") (query_key rq) = true ->
  env_truthy (w_env w "BASITKARGO_TOKEN") = true ->
  truthy_opt (jget "id" (req_body rq)) = true ->
  truthy_opt (jget "status" (req_body rq)) = false \/ ok_status (jget "status" (req_body rq)) = true ->
  (forall sid, tmpl (jget "id" (req_body rq)) = Ok sid ->
     (exists rest, w_trace (snd (IndexGid_manual_bk_route rq w)) = w_trace w ++ BkGetOrder sid :: rest) /\
     (exists rest, w_trace (snd (Part001_manual_bk_route rq w)) = w_trace w ++ BkGetOrder sid :: rest)) /\
  (forall e, tmpl (jget "id" (req_body rq)) = Exc e ->
     IndexGid_manual_bk_route rq w = (Ok (500, to_prim_error), w) /\
     Part001_manual_bk_route rq w = (Ok (500, to_prim_error), w)).
Proof.
  intros rq w Hkey Htok Hid Hst. destruct (manual_bk_fields (req_body rq)) as [Hi Hs].
  pose proof (ok_status_default _ Hst) as Hok.
  split.
  - intros sid Hsid. split.
    + unfold IndexGid_manual_bk_route. rewrite post_route_trace by exact Hkey.
      unfold IndexGid.handleBasitKargoWebhook. rewrite manual_bk_payload_truthy, Hi, Hid, Hs, Hok.
      cbn [negb orb andb]. rewrite andb_false_r.
      apply bk_get_first_call; [exact Htok|exact Hsid|].
      intros a. unfold IndexGid.fulfillWithTrackingOnOpenFOs. keeps_walk.
    + unfold Part001_manual_bk_route. rewrite post_route_trace by exact Hkey.
      unfold Part001.handleBasitKargoWebhook. rewrite Hs, Hok, Hi, Hid. cbn [negb].
      apply bk_get_first_call; [exact Htok|exact Hsid|].
      intros a. unfold Part001.fulfillWithTrackingOnOpenFOs. keeps_walk.
  - intros e He. pose proof (tmpl_exc _ _ He) as ->. split.
    + unfold IndexGid_manual_bk_route. rewrite post_route_pass by exact Hkey.
      unfold IndexGid.handleBasitKargoWebhook. rewrite manual_bk_payload_truthy, Hi, Hid, Hs, Hok.
      cbn [negb orb andb]. rewrite andb_false_r.
      rewrite bind_run, getOrder_run, Htok, He. reflexivity.
    + unfold Part001_manual_bk_route. rewrite post_route_pass by exact Hkey.
      unfold Part001.handleBasitKargoWebhook. rewrite Hs, Hok, Hi, Hid. cbn [negb].
      rewrite bind_run, getOrder_run, Htok, He. reflexivity.
Qed.

Lemma bk_decode_ok nj r v :
  bk_decode nj r = Ok v <-> exists st text, r = Resp true st text (Some v).
Proof.
  split.
  - unfold bk_decode. destruct r as [m|okf st text [j|]]; try discriminate.
    + destruct okf; cbn [negb]; [|discriminate]. intros H. injection H as <-. eauto.
    + destruct okf; discriminate.
  - intros (st & text & ->). reflexivity.
Qed.

(** [basitKargoGetOrderById] (the three files): without BASITKARGO_TOKEN it
    throws "Missing BASITKARGO_TOKEN" with no call; with it, an id that
    [encodeURIComponent] cannot convert makes it throw that TypeError with
    no call; otherwise, the id converting to [sid], it makes exactly one
    call, for order [sid], and returns the parsed body exactly when the
    answer has an ok status and a JSON body; an answer with an error
    status throws "BasitKargo HTTP <status>: <body>", even when the body
    is JSON. *)
Theorem bk_get_order_outcomes : forall nj id w,
  (env_truthy (w_env w "BASITKARGO_TOKEN") = false ->
     basitKargoGetOrderById nj id w = (Exc "Missing BASITKARGO_TOKEN", w)) /\
  (forall e, env_truthy (w_env w "BASITKARGO_TOKEN") = true -> tmpl id = Exc e ->
     basitKargoGetOrderById nj id w = (Exc to_prim_error, w)) /\
  (forall sid, env_truthy (w_env w "BASITKARGO_TOKEN") = true -> tmpl id = Ok sid ->
     w_trace (snd (basitKargoGetOrderById nj id w)) = w_trace w ++ [BkGetOrder sid] /\
     (forall v, fst (basitKargoGetOrderById nj id w) = Ok v <->
        exists st text, w_remote w (w_trace w) (BkGetOrder sid) = Resp true st text (Some v)) /\
     (forall st text j, w_remote w (w_trace w) (BkGetOrder sid) = Resp false st text j ->
        fst (basitKargoGetOrderById nj id w) = Exc ("BasitKargo HTTP " +++ st +++ ": " +++ text))).
Proof.
  intros nj id w. rewrite !getOrder_run. split; [|split].
  - intros Htok. rewrite Htok. reflexivity.
  - intros e Htok He. rewrite Htok, He. rewrite (tmpl_exc _ _ He). reflexivity.
  - intros sid Htok Hsid. rewrite Htok, Hsid. split; [reflexivity|split].
    + intros v. cbn [fst]. apply bk_decode_ok.
    + intros st text j Hr. cbn [fst]. rewrite Hr. reflexivity.
Qed.

Lemma gql_decode_ok r j :
  gql_decode r = Ok j <->
  (exists st text, r = Resp true st text (Some j)) /\ j <> JNull /\
  (forall e, jget "errors" j = Some e -> js_length_truthy e = false).
Proof.
  split.
  - unfold gql_decode. destruct r as [m|okf st text [j'|]]; try discriminate.
    destruct okf; cbn [negb]; [|discriminate].
    destruct j' as [| b | r | s | l | kvs]; try discriminate;
      destruct (jget "errors" _) as [e|] eqn:Ee;
      try (destruct (js_length_truthy e) eqn:El; [discriminate|]);
      intros H; injection H as <-;
      (split; [eauto|split; [discriminate|intros e' He'; congruence]]).
  - intros ((st & text & ->) & Hn & He). unfold gql_decode. cbn [negb].
    destruct j as [| b | r | s | l | kvs]; [congruence| | | | |];
      destruct (jget "errors" _) as [e|] eqn:Ee; try rewrite (He e eq_refl); reflexivity.
Qed.

(** [shopifyGraphql] of index.js (first app), part_000 and part_001:
    without SHOPIFY_STORE and SHOPIFY_TOKEN it throws with no call;
    otherwise it makes exactly one call and returns the parsed body
    exactly when the answer has an ok status, a JSON body other than null,
    and no non-empty [errors]; a body that is not JSON throws "Shopify
    non-JSON response HTTP ..." whatever the status, and an error status
    with a JSON body throws "Shopify HTTP <status>: <body>". *)
Theorem shopify_graphql_outcomes : forall c w,
  (~ env_ok w -> shopifyGraphql c w = (Exc "Missing SHOPIFY_STORE or SHOPIFY_TOKEN", w)) /\
  (env_ok w -> w_trace (snd (shopifyGraphql c w)) = w_trace w ++ [c]) /\
  (forall j, fst (shopifyGraphql c w) = Ok j <->
     env_ok w /\ (exists st text, w_remote w (w_trace w) c = Resp true st text (Some j)) /\
     j <> JNull /\ (forall e, jget "errors" j = Some e -> js_length_truthy e = false)) /\
  (forall okf st text, env_ok w -> w_remote w (w_trace w) c = Resp okf st text None ->
     fst (shopifyGraphql c w) = Exc ("Shopify non-JSON response HTTP " +++ st +++ ": " +++ text)) /\
  (forall st text j, env_ok w -> w_remote w (w_trace w) c = Resp false st text (Some j) ->
     fst (shopifyGraphql c w) = Exc ("Shopify HTTP " +++ st +++ ": " +++ text)).
Proof.
  intros c w. rewrite !shopifyGraphql_run. unfold env_ok.
  destruct (env_truthy (w_env w "SHOPIFY_STORE") && env_truthy (w_env w "SHOPIFY_TOKEN")) eqn:E.
  - split; [intros H; exfalso; apply H; reflexivity|split; [reflexivity|split; [|split]]].
    + intros j. cbn [fst]. rewrite gql_decode_ok. split; [intros H; split; [reflexivity|exact H]|tauto].
    + intros okf st text _ Hr. cbn [fst]. rewrite Hr. reflexivity.
    + intros st text j _ Hr. cbn [fst]. rewrite Hr. reflexivity.
  - split; [reflexivity|split; [discriminate|split; [|split]]].
    + intros j. cbn [fst]. split; [discriminate|intros [H _]; discriminate].
    + intros okf st text H. discriminate.
    + intros st text j H. discriminate.
Qed.

(** [handleShipmentToShopify] (index.js second app) without SHOPIFY_STORE
    and SHOPIFY_TOKEN answers ok = false "Missing SHOPIFY_STORE or
    SHOPIFY_TOKEN" for every event, with no remote call. *)
Theorem IndexSearch_missing_settings : forall payload w,
  ~ env_ok w ->
  IndexSearch.handleShipmentToShopify payload w = (Ok (Ret false "Missing SHOPIFY_STORE or SHOPIFY_TOKEN"), w).
Proof.
  intros payload w H. unfold IndexSearch.handleShipmentToShopify, env. rewrite !bind_run.
  unfold env_ok in H. cbn beta iota.
  destruct (env_truthy (w_env w "SHOPIFY_STORE") && env_truthy (w_env w "SHOPIFY_TOKEN")); [|reflexivity].
  exfalso. apply H. reflexivity.
Qed.

(** One call of the [shopifyGraphql] of index.js (second app). *)
Lemma IndexSearch_fetch_run c w :
  IndexSearch.shopifyGraphql c w =
  (match w_remote w (w_trace w) c with
   | NetErr m => Exc m
   | Resp okf st _ j => match j with None => Exc "Unexpected token in JSON" | Some json => Ok (IndexSearch.mkGql okf st json) end
   end, with_trace w (w_trace w ++ [c])).
Proof.
  unfold IndexSearch.shopifyGraphql, fetch. rewrite bind_run. cbn beta iota.
  destruct (w_remote w (w_trace w) c) as [m|okf st text [j|]]; reflexivity.
Qed.

(** [handleShipmentToShopify] (index.js second app): when Shopify answers
    the order search with an error status and a JSON body, the outcome is
    ok = false, "Shopify find order HTTP <status>", with that body as
    [detail]; the search was the only remote call (this app's
    [shopifyGraphql] reports the status instead of throwing). *)
Theorem IndexSearch_find_http_error : forall payload w tn q st text j,
  env_ok w -> is_shipped (jget "status" payload) = true ->
  jget "handlerShipmentCode" payload = Some tn -> truthy tn = true ->
  truthy_opt (js_or [jget "shopify_order" payload; jget "orderNumber" payload;
                     jget "order_no" payload; jget "code" payload] (jget "order" payload)) = true ->
  buildOrderQuery (js_or [jget "shopify_order" payload; jget "orderNumber" payload;
                          jget "order_no" payload; jget "code" payload] (jget "order" payload)) = Ok (Some q) ->
  w_remote w (w_trace w) (ShopifyFindOrder q 10) = Resp false st text (Some j) ->
  IndexSearch.handleShipmentToShopify payload w =
    (Ok (mkOutcome false ("Shopify find order HTTP " +++ st) (Some j)),
     with_trace w (w_trace w ++ [ShopifyFindOrder q 10])).
Proof.
  intros payload w tn q st text j Henv Hst Htn Htt Hoi Hq Hr.
  unfold IndexSearch.handleShipmentToShopify, env. rewrite !bind_run. cbn beta iota.
  unfold env_ok in Henv. rewrite Henv, Hst. cbn [negb].
  rewrite Htn, Htt. cbn [negb]. rewrite Hoi. cbn [negb].
  rewrite bind_run, lift_run, Hq. cbv beta iota.
  rewrite bind_run, IndexSearch_fetch_run, Hr. reflexivity.
Qed.

Ltac shape_fin :=
  first
  [ exists []; split; [symmetry; apply app_nil_r|left; reflexivity]
  | eexists; split; [cbn [w_trace with_trace]; reflexivity|right; left; eexists; reflexivity]
  | eexists; split; [cbn [w_trace with_trace]; rewrite <- app_assoc; reflexivity
                    |right; right; do 2 eexists; reflexivity] ].

(** [handleShipmentToShopify] (index.js second app) makes at most one
    order search and at most one write per event, the write after the
    search: the calls it adds to the trace are none, the search alone, or
    the search followed by one [fulfillmentCreateV2]. *)
Theorem IndexSearch_at_most_one_write : forall payload w,
  exists rest, w_trace (snd (IndexSearch.handleShipmentToShopify payload w)) = w_trace w ++ rest /\
    (rest = [] \/ (exists q, rest = [ShopifyFindOrder q 10]) \/
     (exists q v, rest = [ShopifyFindOrder q 10; ShopifyFulfill v])).
Proof.
  intros payload w. unfold IndexSearch.handleShipmentToShopify, env, lift, ret, throw.
  repeat (cbn beta iota zeta; first
    [ rewrite bind_run | rewrite IndexSearch_fetch_run
    | match goal with
      | |- context [if ?b then _ else _] => destruct b
      | |- context [match ?x with _ => _ end] => destruct x
      end ]); shape_fin.
Qed.

Lemma length_string_of_list l : String.length (string_of_list_ascii l) = length l.
Proof. induction l as [|c l IH]; simpl; [reflexivity|]. rewrite IH. reflexivity. Qed.

Lemma length_list_of_string s : length (list_ascii_of_string s) = String.length s.
Proof. induction s as [|c s IH]; simpl; [reflexivity|]. rewrite IH. reflexivity. Qed.

Lemma rev_string_length s : String.length (rev_string s) = String.length s.
Proof. unfold rev_string. rewrite length_string_of_list, length_rev. apply length_list_of_string. Qed.

Lemma trim_left_length s : String.length (trim_left s) <= String.length s.
Proof. induction s as [|c s IH]; simpl; [lia|]. destruct (is_ws c); simpl; lia. Qed.

Lemma trim_left_ws_shorter c s :
  is_ws c = true -> String.length (trim_left (String c s)) < String.length (String c s).
Proof. intros H. simpl. rewrite H. pose proof (trim_left_length s). lia. Qed.

(** A string that [trim] leaves alone starts and ends with a character
    that is not white space. *)
Lemma trim_fixed_ends a b :
  trim (String a b) = String a b ->
  is_ws a = false /\
  exists c' r', rev (list_ascii_of_string (String a b)) = c' :: r' /\ is_ws c' = false.
Proof.
  intros H.
  assert (Hlen : String.length (trim (String a b)) = String.length (String a b)) by (rewrite H; reflexivity).
  unfold trim in Hlen. rewrite rev_string_length in Hlen.
  pose proof (trim_left_length (rev_string (trim_left (String a b)))) as H1.
  rewrite rev_string_length in H1.
  pose proof (trim_left_length (String a b)) as H2.
  destruct (is_ws a) eqn:Ha.
  { pose proof (trim_left_ws_shorter a b Ha). lia. }
  split; [reflexivity|].
  assert (Ht : trim_left (String a b) = String a b) by (simpl; rewrite Ha; reflexivity).
  rewrite Ht in Hlen, H1.
  destruct (rev (list_ascii_of_string (String a b))) as [|c' r'] eqn:Er.
  { apply (f_equal (@length ascii)) in Er. rewrite length_rev in Er. discriminate. }
  exists c', r'. split; [reflexivity|].
  destruct (is_ws c') eqn:Hc; [|reflexivity].
  unfold rev_string in Hlen. rewrite Er in Hlen. cbn [string_of_list_ascii] in Hlen.
  pose proof (trim_left_ws_shorter c' (string_of_list_ascii r') Hc) as Hs.
  assert (Hl : String.length (String c' (string_of_list_ascii r')) = String.length (String a b)).
  { change (String c' (string_of_list_ascii r')) with (string_of_list_ascii (c' :: r')).
    rewrite length_string_of_list, <- Er, length_rev, length_list_of_string. reflexivity. }
  lia.
Qed.

Lemma trim_hash s : trim s = s -> s <> EmptyString -> trim ("#" +++ s) = "#" +++ s.
Proof.
  intros H Hne. destruct s as [|a b]; [congruence|].
  destruct (trim_fixed_ends a b H) as (_ & c' & r' & Er & Hc').
  apply (trim_id "#" (String a b) c' (r' ++ ["#"%char])); [reflexivity|exact Hc'|].
  change (list_ascii_of_string (String "#" (String a b))) with ("#"%char :: list_ascii_of_string (String a b)).
  cbn [rev]. rewrite Er. reflexivity.
Qed.

Lemma trim_left_empty s : trim_left s = EmptyString -> forall c, In c (list_ascii_of_string s) -> is_ws c = true.
Proof.
  induction s as [|a s IH]; simpl; [tauto|].
  destruct (is_ws a) eqn:Ha; [|discriminate].
  intros H c [<-|Hin]; [exact Ha|exact (IH H c Hin)].
Qed.

Lemma rev_string_empty s : rev_string s = EmptyString -> s = EmptyString.
Proof.
  intros H. rewrite <- (rev_string_involutive s), H. reflexivity.
Qed.

(** [trim] of a string that starts with a character other than white
    space is not empty. *)
Lemma trim_nonempty c r : is_ws c = false -> trim (String c r) <> EmptyString.
Proof.
  intros Hc H. unfold trim in H. apply rev_string_empty in H.
  cbn [trim_left] in H. rewrite Hc in H.
  assert (Hin : In c (list_ascii_of_string (rev_string (String c r)))).
  { unfold rev_string. rewrite list_ascii_of_string_of_list_ascii. apply -> in_rev. left. reflexivity. }
  rewrite (trim_left_empty _ H c Hin) in Hc. discriminate.
Qed.

Lemma strip_hash_no_hash s : starts_hash s = false -> strip_hash s = s.
Proof. destruct s as [|c r]; [reflexivity|]. cbn. intros H. rewrite H. reflexivity. Qed.

(** [buildOrderQuery] (index.js second app, part_000) on a string [s]
    that is already trimmed, not empty and without a leading "#": the
    query names the order both with and without one leading "#", and
    "#" followed by [s] gives the same query as [s]. *)
Theorem buildOrderQuery_both_forms : forall s,
  trim s = s -> s <> EmptyString -> starts_hash s = false ->
  buildOrderQuery (Some (JStr s)) =
    Ok (Some ("name:" +++ dq +++ "#" +++ s +++ dq +++ " OR name:" +++ dq +++ s +++ dq)) /\
  buildOrderQuery (Some (JStr ("#" +++ s))) = buildOrderQuery (Some (JStr s)).
Proof.
  intros s Htr Hne Hh.
  assert (Hs : buildOrderQuery (Some (JStr s)) =
    Ok (Some ("name:" +++ dq +++ "#" +++ s +++ dq +++ " OR name:" +++ dq +++ s +++ dq))).
  { unfold buildOrderQuery. cbn [js_toString_call js_String str_throws js_to_string rbind].
    rewrite Htr, Hh. destruct s as [|c r]; [congruence|]. reflexivity. }
  split; [exact Hs|]. rewrite Hs.
  unfold buildOrderQuery. cbn [js_toString_call js_String str_throws js_to_string rbind].
  rewrite trim_hash by assumption. reflexivity.
Qed.

Lemma substring_digit_run r :
  all_digits (substring 0 (digit_run r) r) = true /\
  String.length (substring 0 (digit_run r) r) = digit_run r.
Proof.
  induction r as [|c r IH]; [split; reflexivity|].
  cbn [digit_run]. destruct (is_digit c) eqn:Hc; [|split; reflexivity].
  cbn [substring all_digits String.length]. rewrite Hc. destruct IH as [H1 H2]. rewrite H1, H2.
  split; reflexivity.
Qed.

Lemma is_L_not_hash c : is_L c = true -> Ascii.eqb c "#" = false.
Proof.
  unfold is_L. intros H. apply orb_prop in H as [H|H]; apply Ascii.eqb_eq in H; subst c; reflexivity.
Qed.

(** A match of [/LP-\d+/i] is an [#?LP-\d+] name without hash. *)
Lemma search_lp_exact s m : search_lp s = Some m -> lp_exact m = true /\ starts_hash m = false.
Proof.
  induction s as [|c r IH]; intros H; [discriminate|].
  cbn [search_lp] in H. destruct (lp_at (String c r)) as [n|] eqn:E; [|exact (IH H)].
  injection H as <-. unfold lp_at in E.
  destruct r as [|p [|m' r']]; try discriminate.
  destruct (is_L c && is_P p && Ascii.eqb m' "-" && negb (Nat.eqb (digit_run r') 0)) eqn:C;
    [|discriminate].
  injection E as <-.
  apply andb_prop in C as [C Hn]. apply andb_prop in C as [C Hm]. apply andb_prop in C as [Hl Hp].
  destruct (substring_digit_run r') as [Hd Hlen].
  cbn [substring Nat.add].
  unfold lp_exact, starts_hash. cbn [strip_hash]. rewrite (is_L_not_hash c Hl).
  split; [|reflexivity].
  unfold lp_body. rewrite Hl, Hp, Hm, Hd. cbn [andb].
  destruct (substring 0 (digit_run r') r') eqn:Es; [|reflexivity].
  cbn [String.length] in Hlen. rewrite <- Hlen in Hn. discriminate.
Qed.

Lemma substring_length s : forall i n, i + n <= String.length s -> String.length (substring i n s) = n.
Proof.
  induction s as [|c s IH]; intros i n H.
  - cbn in H. assert (i = 0) by lia. assert (n = 0) by lia. subst. reflexivity.
  - destruct i as [|i].
    + destruct n as [|n]; [reflexivity|]. cbn [substring String.length]. rewrite IH; [reflexivity|].
      cbn in H. lia.
    + cbn [substring]. apply IH. cbn in H. lia.
Qed.

Lemma digits_then_boundary_spec s i n k :
  digits_then_boundary s i n = Some k ->
  3 <= k /\ all_digits (substring i k s) = true /\ i + k <= String.length s.
Proof.
  induction n as [|n IH]; [discriminate|]. cbn [digits_then_boundary].
  destruct ((3 <=? S n) && all_digits (substring i (S n) s) && (i + S n <=? String.length s)
            && boundary s (i + S n)) eqn:C; [|exact IH].
  intros H. injection H as <-.
  apply andb_prop in C as [C _]. apply andb_prop in C as [C Hle]. apply andb_prop in C as [H3 Hd].
  apply Nat.leb_le in H3. apply Nat.leb_le in Hle. auto.
Qed.

(** A match of [/\b(\d{3,8})\b/] is a non-empty run of digits. *)
Lemma search_digits_spec s d :
  search_digits s = Some d -> all_digits d = true /\ d <> EmptyString.
Proof.
  unfold search_digits. generalize 0 as i. generalize (S (String.length s)) as fuel.
  induction fuel as [|fuel IH]; intros i H; [discriminate|].
  cbn [search_digits_from] in H.
  destruct (if boundary s i then digits_then_boundary s i 8 else None) as [k|] eqn:E; [|exact (IH _ H)].
  injection H as <-.
  assert (Hk : digits_then_boundary s i 8 = Some k) by (destruct (boundary s i); congruence).
  destruct (digits_then_boundary_spec s i 8 k Hk) as (H3 & Hd & Hle).
  split; [exact Hd|]. intros E0.
  pose proof (substring_length s i k Hle) as Hl. rewrite E0 in Hl. cbn in Hl. lia.
Qed.

(** The order name part_000 derives, from the BasitKargo order or from
    the payload: extraction returns only canonical names "#LP-<digits>",
    and the payload name, when its [toString] succeeds, is normalised to a
    name with a leading "#". *)
Theorem part000_names_canonical :
  (forall bk n, Part000.extractShopifyOrderNameFromBasitKargo bk = Ok (Some n) ->
     exists ds, ds <> EmptyString /\ all_digits ds = true /\ n = "#LP-" +++ ds) /\
  (forall given n, Part000.normalize_payload_name given = Ok n -> starts_hash n = true).
Proof.
  split.
  - intros bk n. unfold Part000.extractShopifyOrderNameFromBasitKargo.
    destruct (Part000.candidates bk) as [cs|e]; cbn [rbind]; [|discriminate].
    intros Hn. injection Hn as Hn. revert Hn.
    destruct (find lp_exact cs) as [s|] eqn:F.
    + intros H. injection H as <-. apply find_some in F as [_ Hs].
      destruct (lp_normalize_shape s Hs) as (ds & Hne & Hd & _ & Hn). eauto.
    + destruct (search_lp (js_join " | " cs)) as [m|] eqn:L.
      * intros H. injection H as <-.
        destruct (search_lp_exact _ _ L) as [He Hh].
        destruct (lp_exact_shape m He) as (ds & Hne & Hd & Hu).
        rewrite strip_hash_no_hash in Hu by exact Hh.
        exists ds. split; [exact Hne|split; [exact Hd|]]. rewrite Hu. reflexivity.
      * destruct (search_digits (js_join " | " cs)) as [d|] eqn:D; [|discriminate].
        intros H. injection H as <-. destruct (search_digits_spec _ _ D) as [Hd Hne].
        exists d. auto.
  - intros given n. unfold Part000.normalize_payload_name.
    destruct (js_toString_call _ given) as [r|e]; cbn [rbind]; [|discriminate].
    intros H. injection H as <-.
    destruct (lp_exact _); [reflexivity|].
    destruct (digits_3_8 _); [reflexivity|].
    destruct (starts_hash (trim r)) eqn:E; [exact E|reflexivity].
Qed.

Lemma buildOrderQuery_hash n :
  starts_hash n = true -> exists q, buildOrderQuery (Some (JStr n)) = Ok (Some q).
Proof.
  intros H. destruct n as [|c r]; [discriminate|]. cbn in H. apply Ascii.eqb_eq in H. subst c.
  unfold buildOrderQuery. cbn [js_toString_call js_String str_throws js_to_string rbind].
  destruct (String.eqb (trim (String "#" r)) EmptyString) eqn:E.
  - apply String.eqb_eq in E. exfalso. exact (trim_nonempty "#" r eq_refl E).
  - eexists. reflexivity.
Qed.

Lemma write_open_fos_outcome mk name tn fos results w o :
  fst (write_open_fos mk name tn fos results w) = Ok o ->
  ok o = true \/ exists x, msg o = "Shopify userErrors: " +++ x.
Proof.
  revert results w. induction fos as [|fo fos IH]; intros results w.
  - cbn [write_open_fos]. rewrite bind_run, lift_run.
    destruct (ok_msg _ _ _); cbn; intros H; [injection H as <-; left; reflexivity|discriminate].
  - cbn [write_open_fos]. rewrite bind_run, shopifyGraphql_run.
    destruct (env_truthy _ && env_truthy _); [|discriminate].
    destruct (gql_decode _) as [resp|e]; [|discriminate].
    destruct (js_length_truthy (user_errors resp)).
    + cbn. intros H. injection H as <-. right. eexists. reflexivity.
    + apply IH.
Qed.

Lemma fulfill_from_edges_outcome mk name edges tn w o :
  fst (fulfill_from_edges mk name edges tn w) = Ok o ->
  ok o = true \/ exists x, msg o = "Shopify userErrors: " +++ x.
Proof.
  unfold fulfill_from_edges, lift. rewrite bind_run.
  destruct (fo_nodes edges) as [ns|e]; [|discriminate].
  rewrite bind_run. destruct (open_fos ns) as [[|fo fos]|e]; [| |discriminate].
  - rewrite bind_run. destruct (no_open_msg name); cbn; intros H;
      [injection H as <-; left; reflexivity|discriminate].
  - apply write_open_fos_outcome.
Qed.

Lemma find_and_fulfill_valid carrier tn n w :
  starts_hash n = true ->
  fst (Part000.find_and_fulfill carrier tn n w) <> Ok (Ret false "Invalid Shopify order name").
Proof.
  intros Hn. destruct (buildOrderQuery_hash n Hn) as [q Hq].
  unfold Part000.find_and_fulfill. rewrite bind_run, lift_run, Hq. cbv beta iota.
  rewrite bind_run, shopifyGraphql_run.
  destruct (env_truthy _ && env_truthy _); [|discriminate].
  destruct (gql_decode _) as [found|e]; [|discriminate]. cbv zeta.
  destruct (negb (truthy_opt _)); [discriminate|].
  destruct (oget "node" _) as [[| | | | |]|]; try discriminate;
    intros H; destruct (fulfill_from_edges_outcome _ _ _ _ _ _ H) as [Hok|(x & Hm)];
    try discriminate; discriminate Hm.
Qed.

(** part_000 never answers "Invalid Shopify order name": every name it
    searches for, normalised from the payload or extracted from the
    BasitKargo order, starts with "#", so [buildOrderQuery] always gives
    a query. *)
Theorem Part000_order_name_always_valid : forall payload w,
  fst (Part000.handleBasitKargoWebhook payload w) <> Ok (Ret false "Invalid Shopify order name").
Proof.
  intros payload w. destruct part000_names_canonical as [Hext Hnorm].
  unfold Part000.handleBasitKargoWebhook.
  destruct (negb (is_shipped _)); [discriminate|]. cbv zeta.
  destruct (jget "handlerShipmentCode" payload) as [tnv|]; [|discriminate].
  destruct (negb (truthy tnv)); [discriminate|].
  destruct (truthy _).
  { rewrite bind_run, lift_run.
    destruct (Part000.normalize_payload_name _) as [n|e] eqn:E; [|discriminate].
    apply find_and_fulfill_valid. exact (Hnorm _ _ E). }
  destruct (negb (truthy_opt _)); [discriminate|].
  rewrite bind_run. destruct (basitKargoGetOrderById _ _ w) as [[bk|e] w1]; [|discriminate].
  rewrite bind_run, lift_run.
  destruct (Part000.extractShopifyOrderNameFromBasitKargo bk) as [[n|]|e] eqn:E; [|discriminate|discriminate].
  apply find_and_fulfill_valid. destruct (Hext bk n E) as (ds & _ & _ & ->). reflexivity.
Qed.

Lemma find_and_fulfill_calls carrier tn n q w :
  env_ok w -> buildOrderQuery (Some (JStr n)) = Ok (Some q) ->
  exists rest, w_trace (snd (Part000.find_and_fulfill carrier tn n w)) =
                 w_trace w ++ ShopifyFindOrder q 20 :: rest /\
               Forall (fun c => is_fulfill c = true) rest.
Proof.
  intros Henv Hq. unfold Part000.find_and_fulfill. rewrite bind_run, lift_run, Hq. cbv beta iota.
  rewrite bind_run, shopifyGraphql_run.
  unfold env_ok in Henv. rewrite Henv.
  destruct (gql_decode _) as [found|e]; [|exists []; split; [reflexivity|constructor]]. cbv zeta.
  destruct (negb (truthy_opt _)); [exists []; split; [reflexivity|constructor]|].
  destruct (oget "node" _) as [[| | | | |]|];
    try (exists []; split; [reflexivity|constructor]);
    match goal with
    | |- context [fulfill_from_edges ?mk ?nm ?ed ?t ?w1] =>
        destruct (fulfill_from_edges_calls mk nm ed t w1) as (rest & Htr & Hall)
    end;
    exists rest; rewrite Htr; cbn [w_trace with_trace]; rewrite <- app_assoc; split; auto.
Qed.

(** part_000 with an order name in the payload whose [toString] succeeds,
    normalised to [n], makes no BasitKargo call: its first call is the
    Shopify search for [n], and every later call is a write. *)
Theorem Part000_named_order_no_bk_call : forall payload w tn n,
  env_ok w -> is_shipped (jget "status" payload) = true ->
  jget "handlerShipmentCode" payload = Some tn -> truthy tn = true ->
  truthy (js_or_null [jget "shopify_order" payload; jget "orderNumber" payload;
                      jget "order_no" payload; jget "code" payload; jget "order" payload]) = true ->
  Part000.normalize_payload_name
    (js_or_null [jget "shopify_order" payload; jget "orderNumber" payload;
                 jget "order_no" payload; jget "code" payload; jget "order" payload]) = Ok n ->
  exists q rest,
    buildOrderQuery (Some (JStr n)) = Ok (Some q) /\
    w_trace (snd (Part000.handleBasitKargoWebhook payload w)) = w_trace w ++ ShopifyFindOrder q 20 :: rest /\
    Forall (fun c => is_fulfill c = true) rest.
Proof.
  intros payload w tn n Henv Hst Htn Htt Hg Hn.
  destruct part000_names_canonical as [_ Hnorm].
  destruct (buildOrderQuery_hash _ (Hnorm _ _ Hn)) as [q Hq].
  exists q. unfold Part000.handleBasitKargoWebhook. rewrite Hst. cbn [negb]. cbv zeta.
  rewrite Htn, Htt. cbn [negb]. rewrite Hg. rewrite bind_run, lift_run, Hn. cbv beta iota.
  match goal with
  | |- context [Part000.find_and_fulfill ?c ?t ?n w] =>
      destruct (find_and_fulfill_calls c t n q w Henv Hq) as (rest & Htr & Hall)
  end.
  exists rest. split; [exact Hq|split; [exact Htr|exact Hall]].
Qed.

Lemma keeps_impl {A} (P Q : call -> Prop) (m : M A) :
  (forall c, P c -> Q c) -> keeps P m -> keeps Q m.
Proof.
  intros HPQ Hm w. destruct (Hm w) as (He & Hr & rest & Ht & Hall).
  split; [exact He|split; [exact Hr|]]. exists rest. split; [exact Ht|].
  eapply Forall_impl; [exact HPQ|exact Hall].
Qed.

Lemma keeps_shopifyGraphql_P (P : call -> Prop) c : P c -> keeps P (shopifyGraphql c).
Proof.
  intros Hc. unfold shopifyGraphql.
  apply keeps_bind; [apply keeps_env|intros store].
  apply keeps_bind; [apply keeps_env|intros token].
  destruct (negb _); [apply keeps_throw|].
  apply keeps_bind; [apply keeps_fetch; exact Hc|intros r; apply keeps_lift].
Qed.

Lemma keeps_write_open_fos_made_by mk name tn fos results :
  keeps (write_made_by mk) (write_open_fos mk name tn fos results).
Proof.
  revert results. induction fos as [|fo fos IH]; intros results; cbn [write_open_fos];
    [apply keeps_bind; [apply keeps_lift|intros m; apply keeps_ret]|].
  apply keeps_bind; [apply keeps_shopifyGraphql_P; intros _; eexists; reflexivity|intros resp].
  cbv zeta. destruct (js_length_truthy _); [apply keeps_ret|apply IH].
Qed.

Lemma keeps_fulfill_from_edges_made_by mk name edges tn :
  keeps (write_made_by mk) (fulfill_from_edges mk name edges tn).
Proof.
  unfold fulfill_from_edges.
  apply keeps_bind; [apply keeps_lift|intros nodes].
  apply keeps_bind; [apply keeps_lift|intros openFOs].
  destruct openFOs;
    [apply keeps_bind; [apply keeps_lift|intros m; apply keeps_ret]|apply keeps_write_open_fos_made_by].
Qed.

Lemma keeps_fulfill_by_gid_made_by mk gid tn : keeps (write_made_by mk) (fulfill_by_gid mk gid tn).
Proof.
  unfold fulfill_by_gid.
  apply keeps_bind; [apply keeps_shopifyGraphql_P; intros H; discriminate|intros got]. cbv zeta.
  destruct (getp got _) as [o|]; [|apply keeps_ret].
  destruct (truthy o); [apply keeps_fulfill_from_edges_made_by|apply keeps_ret].
Qed.

Lemma keeps_find_and_fulfill_made_by carrier tn n :
  keeps (write_made_by (Part000.fulfill_vars carrier tn)) (Part000.find_and_fulfill carrier tn n).
Proof.
  unfold Part000.find_and_fulfill.
  apply keeps_bind; [apply keeps_lift|intros query].
  destruct query as [q|]; [|apply keeps_ret].
  apply keeps_bind; [apply keeps_shopifyGraphql_P; intros H; discriminate|intros found]. cbv zeta.
  destruct (negb _); [apply keeps_ret|].
  destruct (oget "node" _) as [[| | | | |]|]; try apply keeps_throw;
    apply keeps_fulfill_from_edges_made_by.
Qed.

(** A handler that first fetches the BasitKargo order and then only runs
    code whose writes are built by [mk bk] from the decoded order [bk]. *)
Lemma writes_after_bk {A} nj id (k : jval -> M A) (mk : jval -> option jval -> jval) w :
  (forall bk, keeps (write_made_by (mk bk)) (k bk)) ->
  exists rest, w_trace (snd (bind (basitKargoGetOrderById nj id) k w)) = w_trace w ++ rest /\
    Forall (fun c => is_fulfill c = true -> exists sid bk t,
      tmpl id = Ok sid /\
      bk_decode nj (w_remote w (w_trace w) (BkGetOrder sid)) = Ok bk /\
      c = ShopifyFulfill (mk bk t)) rest.
Proof.
  intros Hk. rewrite bind_run, getOrder_run.
  destruct (env_truthy _).
  2: { exists []. split; [symmetry; apply app_nil_r|constructor]. }
  destruct (tmpl id) as [sid|e0] eqn:Hsid.
  2: { exists []. split; [symmetry; apply app_nil_r|constructor]. }
  destruct (bk_decode nj _) as [bk|e] eqn:Hbk.
  2: { exists [BkGetOrder sid]. split; [reflexivity|]. constructor; [discriminate|constructor]. }
  destruct (Hk bk (with_trace w (w_trace w ++ [BkGetOrder sid]))) as (_ & _ & rest & Ht & Hall).
  exists (BkGetOrder sid :: rest). split.
  - rewrite Ht. cbn [w_trace with_trace]. rewrite <- app_assoc. reflexivity.
  - constructor; [discriminate|].
    eapply Forall_impl; [|exact Hall]. intros c Hc Hf. destruct (Hc Hf) as [t ->]. exists sid, bk, t. auto.
Qed.

(** index.js (first app): every [fulfillmentCreateV2] write of one event
    carries company "Other", the tracking number [normalizeTrackingNumber]
    and, only when it is truthy, the url [normalizeTrackingUrl], both
    computed from the BasitKargo order [bk] the event fetched and from the
    payload, with [notifyCustomer: true]. *)
Theorem IndexGid_write_contents : forall payload w,
  exists rest, w_trace (snd (IndexGid.handleBasitKargoWebhook payload w)) = w_trace w ++ rest /\
    Forall (fun c => is_fulfill c = true -> exists sid bk t,
      tmpl (jget "id" payload) = Ok sid /\
      bk_decode IndexGid.notJson (w_remote w (w_trace w) (BkGetOrder sid)) = Ok bk /\
      c = ShopifyFulfill (IndexGid.fulfill_vars (IndexGid.normalizeTrackingNumber bk payload)
                                               (IndexGid.normalizeTrackingUrl bk payload) t)) rest.
Proof.
  intros payload w. unfold IndexGid.handleBasitKargoWebhook.
  destruct (negb (truthy payload) || negb (truthy_opt (jget "id" payload))).
  { exists []. split; [symmetry; apply app_nil_r|constructor]. }
  cbv zeta. destruct (truthy_opt _ && negb _).
  { exists []. split; [symmetry; apply app_nil_r|constructor]. }
  apply (writes_after_bk _ _ _
    (fun bk => IndexGid.fulfill_vars (IndexGid.normalizeTrackingNumber bk payload)
                                     (IndexGid.normalizeTrackingUrl bk payload))).
  intros bk. apply keeps_bind; [apply keeps_lift|intros [g|]]; [|apply keeps_ret].
  destruct (negb _); [apply keeps_ret|].
  apply keeps_fulfill_by_gid_made_by.
Qed.

(** part_001: every write of one event carries the carrier
    [normalizeCarrierName] and the tracking number
    [normalizeTrackingNumber], both computed from the BasitKargo order
    [bk] the event fetched and from the payload. *)
Theorem Part001_write_contents : forall payload w,
  exists rest, w_trace (snd (Part001.handleBasitKargoWebhook payload w)) = w_trace w ++ rest /\
    Forall (fun c => is_fulfill c = true -> exists sid bk t,
      tmpl (jget "id" payload) = Ok sid /\
      bk_decode Part001.notJson (w_remote w (w_trace w) (BkGetOrder sid)) = Ok bk /\
      c = ShopifyFulfill (Part001.fulfill_vars (Part001.normalizeCarrierName bk payload)
                                              (Part001.normalizeTrackingNumber bk payload) t)) rest.
Proof.
  intros payload w. unfold Part001.handleBasitKargoWebhook.
  destruct (negb (ok_status _)).
  { exists []. split; [symmetry; apply app_nil_r|constructor]. }
  destruct (negb (truthy_opt _)).
  { exists []. split; [symmetry; apply app_nil_r|constructor]. }
  apply (writes_after_bk _ _ _
    (fun bk => Part001.fulfill_vars (Part001.normalizeCarrierName bk payload)
                                    (Part001.normalizeTrackingNumber bk payload))).
  intros bk. apply keeps_bind; [apply keeps_lift|intros [g|]]; [|apply keeps_ret]. cbv zeta.
  destruct (negb _); [apply keeps_ret|].
  apply keeps_fulfill_by_gid_made_by.
Qed.

(** part_000: every write of one event carries the payload's
    [handlerShipmentCode] as tracking number and, as company,
    [payload?.handler?.name || payload?.handler?.code || "Other"]. *)
Theorem Part000_write_contents : forall payload w,
  exists rest, w_trace (snd (Part000.handleBasitKargoWebhook payload w)) = w_trace w ++ rest /\
    Forall (fun c => is_fulfill c = true -> exists tn t,
      jget "handlerShipmentCode" payload = Some tn /\
      c = ShopifyFulfill (Part000.fulfill_vars
            (match js_or [getp payload ["handler"; "name"]; getp payload ["handler"; "code"]]
                     (Some (JStr "Other")) with Some v => v | None => JStr "Other" end) tn t)) rest.
Proof.
  intros payload w.
  enough (H : keeps (fun c => is_fulfill c = true -> exists tn t,
      jget "handlerShipmentCode" payload = Some tn /\
      c = ShopifyFulfill (Part000.fulfill_vars
            (match js_or [getp payload ["handler"; "name"]; getp payload ["handler"; "code"]]
                     (Some (JStr "Other")) with Some v => v | None => JStr "Other" end) tn t))
      (Part000.handleBasitKargoWebhook payload)).
  { destruct (H w) as (_ & _ & rest & Ht & Hall). eauto. }
  unfold Part000.handleBasitKargoWebhook.
  destruct (negb _); [apply keeps_ret|]. cbv zeta.
  destruct (jget "handlerShipmentCode" payload) as [tnv|] eqn:Htn; [|apply keeps_ret].
  assert (Himp : forall n, keeps (fun c => is_fulfill c = true -> exists tn t,
      Some tnv = Some tn /\
      c = ShopifyFulfill (Part000.fulfill_vars
            (match js_or [getp payload ["handler"; "name"]; getp payload ["handler"; "code"]]
                     (Some (JStr "Other")) with Some v => v | None => JStr "Other" end) tn t))
      (Part000.find_and_fulfill
            (match js_or [getp payload ["handler"; "name"]; getp payload ["handler"; "code"]]
                     (Some (JStr "Other")) with Some v => v | None => JStr "Other" end) tnv n)).
  { intros n. eapply keeps_impl; [|apply keeps_find_and_fulfill_made_by].
    intros c Hc Hf. destruct (Hc Hf) as [t ->]. eauto. }
  destruct (negb (truthy tnv)); [apply keeps_ret|].
  destruct (truthy _); [apply keeps_bind; [apply keeps_lift|intros n; apply Himp]|].
  destruct (negb _); [apply keeps_ret|].
  apply keeps_bind.
  - unfold basitKargoGetOrderById.
    apply keeps_bind; [apply keeps_env|intros token].
    destruct (negb _); [apply keeps_throw|].
    apply keeps_bind; [apply keeps_lift|intros idText].
    apply keeps_bind; [apply keeps_fetch; intros H; discriminate|intros r; apply keeps_lift].
  - intros bk. apply keeps_bind; [apply keeps_lift|intros [n|]]; [apply Himp|apply keeps_ret].
Qed.

(** [extractShopifyOrderGidFromBasitKargo] (index.js first app, part_001)
    returns only Shopify order references "gid://shopify/Order/<s>" where
    [s] is a string of 10 to 16 digits. *)
Theorem extract_gid_shape : forall bk g,
  extractShopifyOrderGidFromBasitKargo bk = Ok (Some g) ->
  exists s, g = "gid://shopify/Order/" +++ s /\ all_digits s = true /\
            10 <= String.length s /\ String.length s <= 16.
Proof.
  intros bk g. unfold extractShopifyOrderGidFromBasitKargo.
  destruct (js_or _ _) as [raw|]; [|discriminate].
  destruct (negb (truthy raw)); [discriminate|].
  destruct (js_toString_call "raw" raw) as [r|e]; cbn [rbind]; [|discriminate].
  destruct (digits_10_16 (trim r)) eqn:D; [|discriminate].
  intros H. injection H as <-. eexists. split; [reflexivity|].
  unfold digits_10_16 in D. apply andb_prop in D as [D H16]. apply andb_prop in D as [Hd H10].
  apply Nat.leb_le in H10. apply Nat.leb_le in H16. auto.
Qed.


(* ------------------------------------------------------------------ *)
(** ** Witnesses of the further properties *)

Lemma manual_ship_payload_shipped_witness :
  let body := JObj [("id", JStr "BK-1"); ("status", JStr "READY_TO_SHIP")] in
  jget "status" (manual_ship_payload body) = Some (JStr "SHIPPED") /\
  jget "id" (manual_ship_payload body) = jget "id" body.
Proof.
  cbv zeta. split; [apply (manual_ship_payload_shipped _)|].
  apply (proj2 (proj2 (manual_ship_payload_shipped _)) [("id", JStr "BK-1"); ("status", JStr "READY_TO_SHIP")]);
    [reflexivity|discriminate].
Defined.

Lemma requests_without_id_witness :
  let rq := mkRequest (Some (JStr "x")) (JObj [("status", JStr "SHIPPED")]) in
  let w := sample_world sample_bk "OPEN" in
  checkKey (w_env w "WEBHOOK_KEY") (query_key rq) = true /\
  truthy_opt (jget "id" (req_body rq)) = false /\
  IndexGid_webhook_route rq w = (Ok (200, "OK (test payload ignored)"), w) /\
  Part001_manual_bk_route rq w = (Ok (400, "Webhook payload missing id"), w).
Proof.
  cbv zeta. split; [reflexivity|split; [reflexivity|split]].
  - apply requests_without_id; reflexivity.
  - apply requests_without_id; [reflexivity|reflexivity|right; reflexivity].
Defined.

Lemma manual_bk_fetches_order_witness :
  let rq := mkRequest (Some (JStr "x")) (JObj [("id", JStr "BK-1")]) in
  let w := sample_world sample_bk "OPEN" in
  (exists rest, w_trace (snd (IndexGid_manual_bk_route rq w)) = BkGetOrder "BK-1" :: rest) /\
  (exists rest, w_trace (snd (Part001_manual_bk_route rq w)) = BkGetOrder "BK-1" :: rest).
Proof.
  cbv zeta.
  apply (proj1 (manual_bk_fetches_order
    (mkRequest (Some (JStr "x")) (JObj [("id", JStr "BK-1")])) (sample_world sample_bk "OPEN")
    eq_refl eq_refl eq_refl (or_introl eq_refl)) "BK-1").
  reflexivity.
Defined.

Lemma bk_get_order_outcomes_witness :
  let w := mkWorld sample_env (fun _ _ => Resp false "404" "not found" None) [] in
  let w0 := mkWorld (fun _ => None) (fun _ _ => NetErr "offline") [] in
  fst (basitKargoGetOrderById IndexGid.notJson (Some (JStr "BK-1")) w) =
    Exc ("BasitKargo HTTP " +++ "404" +++ ": " +++ "not found") /\
  basitKargoGetOrderById IndexGid.notJson (Some (JStr "BK-1")) w0 = (Exc "Missing BASITKARGO_TOKEN", w0).
Proof.
  cbv zeta. split.
  - apply (proj2 (proj2 (proj2 (proj2 (bk_get_order_outcomes IndexGid.notJson (Some (JStr "BK-1"))
      (mkWorld sample_env (fun _ _ => Resp false "404" "not found" None) [])))
      "BK-1" eq_refl eq_refl)) _ _ None).
    reflexivity.
  - apply (proj1 (bk_get_order_outcomes _ _ _)). reflexivity.
Defined.

Lemma shopify_graphql_outcomes_witness :
  let w := mkWorld sample_env (fun _ _ => Resp false "401" "denied" (Some JNull)) [] in
  let w0 := mkWorld (fun _ => None) (fun _ _ => NetErr "offline") [] in
  fst (shopifyGraphql (ShopifyGetOrderById "gid://shopify/Order/7708726460709" 50) w) =
    Exc ("Shopify HTTP " +++ "401" +++ ": " +++ "denied") /\
  shopifyGraphql (ShopifyGetOrderById "gid://shopify/Order/7708726460709" 50) w0 =
    (Exc "Missing SHOPIFY_STORE or SHOPIFY_TOKEN", w0).
Proof.
  cbv zeta. split.
  - apply (proj2 (proj2 (proj2 (proj2 (shopify_graphql_outcomes _ _)))) _ _ JNull); reflexivity.
  - apply (proj1 (shopify_graphql_outcomes _ _)). intros H. discriminate H.
Defined.

Lemma IndexSearch_missing_settings_witness :
  let w0 := mkWorld (fun _ => None) (fun _ _ => NetErr "offline") [] in
  ~ env_ok w0 /\
  IndexSearch.handleShipmentToShopify sample_payload w0 =
    (Ok (Ret false "Missing SHOPIFY_STORE or SHOPIFY_TOKEN"), w0).
Proof.
  cbv zeta. split; [intros H; discriminate H|].
  apply IndexSearch_missing_settings. intros H. discriminate H.
Defined.

Lemma IndexSearch_find_http_error_witness :
  let w := mkWorld sample_env (fun _ _ => Resp false "503" "unavailable" (Some JNull)) [] in
  let q := "name:" +++ dq +++ "#lp-1009" +++ dq +++ " OR name:" +++ dq +++ "lp-1009" +++ dq in
  IndexSearch.handleShipmentToShopify sample_payload w =
    (Ok (mkOutcome false ("Shopify find order HTTP " +++ "503") (Some JNull)),
     with_trace w (w_trace w ++ [ShopifyFindOrder q 10])).
Proof.
  cbv zeta. apply (IndexSearch_find_http_error _ _ (JStr "TN1") _ _ "unavailable"); reflexivity.
Defined.

Lemma buildOrderQuery_both_forms_witness :
  buildOrderQuery (Some (JStr "LP-1009")) =
    Ok (Some ("name:" +++ dq +++ "#" +++ "LP-1009" +++ dq +++ " OR name:" +++ dq +++ "LP-1009" +++ dq)) /\
  buildOrderQuery (Some (JStr ("#" +++ "LP-1009"))) = buildOrderQuery (Some (JStr "LP-1009")).
Proof.
  apply buildOrderQuery_both_forms; [reflexivity|discriminate|reflexivity].
Defined.

Lemma part000_names_canonical_witness :
  Part000.extractShopifyOrderNameFromBasitKargo sample_bk = Ok (Some "#LP-1009") /\
  exists ds, ds <> EmptyString /\ all_digits ds = true /\ "#LP-1009" = "#LP-" +++ ds.
Proof.
  split; [reflexivity|].
  apply (proj1 part000_names_canonical sample_bk). reflexivity.
Defined.

Lemma Part000_named_order_no_bk_call_witness :
  let w := sample_world sample_bk "OPEN" in
  exists q rest,
    buildOrderQuery (Some (JStr "#LP-1009")) = Ok (Some q) /\
    w_trace (snd (Part000.handleBasitKargoWebhook sample_payload w)) = w_trace w ++ ShopifyFindOrder q 20 :: rest /\
    Forall (fun c => is_fulfill c = true) rest.
Proof.
  cbv zeta. apply (Part000_named_order_no_bk_call _ _ (JStr "TN1") "#LP-1009"); reflexivity.
Defined.

Lemma extract_gid_shape_witness :
  let bk := JObj [("content", JObj [("code", JStr " 7708726460709 ")])] in
  extractShopifyOrderGidFromBasitKargo bk = Ok (Some "gid://shopify/Order/7708726460709") /\
  exists s, "gid://shopify/Order/7708726460709" = "gid://shopify/Order/" +++ s /\ all_digits s = true /\
            10 <= String.length s /\ String.length s <= 16.
Proof.
  cbv zeta. split; [reflexivity|].
  apply (extract_gid_shape (JObj [("content", JObj [("code", JStr " 7708726460709 ")])])). reflexivity.
Defined.

